(** * Health metrics and gap analysis of the nutrition-exercise engine

    A shallow embedding of the deterministic core of
    [nutrition_analyzer.py], [activity_tracker.py],
    [recommendation_engine.py] and [progress_predictor.py], followed by
    the theorems that settle the specification's claims on it.

    Conventions of the embedding:
    - a Python number is an exact rational ([Qc], canonical fractions with
      Leibniz equality), so float rounding error is idealised away; a
      missing value (pandas NaN, SQL NULL) is [None] in [option Qc];
    - a DataFrame with a fixed schema is a list of typed rows, in index
      order; a column that may be absent is kept apart from the rows;
    - a Python dict whose iteration order is observed is an association
      list in insertion order; a dict that is only looked up is a [gmap];
    - in-place mutation of the caller's DataFrame is a state monad whose
      state is that DataFrame object;
    - an exception that escapes a function is [None] in an error monad. *)

From Stdlib Require Import ZArith QArith Qcanon Lia Lqa String Ascii List.
From Stdlib Require Import DecimalString DecimalNat.
From stdpp Require Import base option list numbers strings gmap.

Open Scope string_scope.
Open Scope list_scope.
Open Scope Qc_scope.

(** ** Python numbers *)

Module PyNum.

(** A decimal literal of the source, [qc 88.362]. *)
Definition qc (q : Q) : Qc := Q2Qc q.
Arguments qc q%_Q.

Definition of_Z (z : Z) : Qc := Q2Qc (inject_Z z).
Definition of_nat (n : nat) : Qc := of_Z (Z.of_nat n).

Definition ltb (x y : Qc) : bool := bool_decide (x < y).

(** [max(a, b)] and [min(a, b)]: the first argument unless the second
    is strictly larger (smaller). *)
Definition py_max (a b : Qc) : Qc := if ltb a b then b else a.
Definition py_min (a b : Qc) : Qc := if ltb b a then b else a.

(** [round(x)]: the nearest integer, a tie going to the even one. *)
Definition py_round (x : Qc) : Z :=
  let n := Qnum x in
  let d := Z.pos (Qden x) in
  let f := (n / d)%Z in
  match (2 * (n mod d) ?= d)%Z with
  | Lt => f
  | Gt => (f + 1)%Z
  | Eq => if Z.even f then f else (f + 1)%Z
  end.

(** [round(x, 1)]: one decimal place. *)
Definition round1 (x : Qc) : Qc := Q2Qc (py_round (x * qc 10) # 10).

(** Sum and mean of a pandas Series with the default [skipna=True]:
    missing values are left out, the sum of nothing is 0 and the mean
    of nothing is NaN. *)
Definition present (col : list (option Qc)) : list Qc := omap id col.
Definition total (xs : list Qc) : Qc := foldr Qcplus 0 xs.
Definition series_sum (col : list (option Qc)) : Qc := total (present col).
Definition series_mean (col : list (option Qc)) : option Qc :=
  match present col with
  | [] => None
  | xs => Some (total xs / of_nat (length xs))
  end.

(** [x < y] where [x] may be NaN: every comparison with NaN is false. *)
Definition nan_ltb (x : option Qc) (y : Qc) : bool :=
  match x with Some v => ltb v y | None => false end.

(** [s.fillna(v)] with aligned replacement values. *)
Definition fillna (x v : option Qc) : option Qc :=
  match x with Some _ => x | None => v end.

End PyNum.
Import PyNum.

(** ** Python strings and dicts *)

Module PyStr.

Definition lower_ascii (c : ascii) : ascii :=
  let n := nat_of_ascii c in
  if (65 <=? n)%nat && (n <=? 90)%nat then ascii_of_nat (n + 32) else c.

(** [s.lower()] on ASCII text. *)
Fixpoint lower (s : string) : string :=
  match s with
  | EmptyString => EmptyString
  | String c r => String (lower_ascii c) (lower r)
  end.

(** [str(n)] for a non-negative integer. *)
Definition str_nat (n : nat) : string := NilEmpty.string_of_uint (Nat.to_uint n).

(** An f-string: literal text and interpolated numbers, the numbers kept
    as values ([{x:.1f}] and [{x}] only differ in how they print). *)
Inductive piece : Type :=
| Txt (s : string)
| Fmt1f (x : Qc)
| FmtStr (x : Qc).
Definition message : Type := list piece.
Definition lit (s : string) : message := [Txt s].

End PyStr.
Import PyStr.

Module Dict.
Section Dict.
Context {V : Type}.

(** An insertion-ordered dict with string keys. *)
Definition t : Type := list (string * V).

Fixpoint get (k : string) (d : t) : option V :=
  match d with
  | [] => None
  | (k', v) :: r => if decide (k = k') then Some v else get k r
  end.

(** [d[k] = v]: overwrite in place, or append a new key. *)
Fixpoint set (k : string) (v : V) (d : t) : t :=
  match d with
  | [] => [(k, v)]
  | (k', v') :: r =>
      if decide (k = k') then (k', v) :: r else (k', v') :: set k v r
  end.

Definition keys (d : t) : list string := map fst d.
End Dict.
Arguments t V : clear implicits.
End Dict.

(** A gap entry, [{'current': _, 'recommended': _, 'deficit': _}]. *)
Record gap : Type := Gap { current : Qc; recommended : Qc; deficit : Qc }.

(** The fields of [user_data] read by the calculators; [None] is an
    absent key, for which [dict.get] supplies the default. *)
Module User.
Record user_data : Type := UserData {
  age : option Qc;
  weight : option Qc;
  height : option Qc;
  gender : option string;
  activity_level : option string
}.
End User.
Abbreviation user_data := User.user_data.

(** ** recommendation_engine.py *)

Module RecommendationEngine.

Definition activity_multipliers : Dict.t Qc :=
  [("Low", qc 1.2); ("Moderate", qc 1.55); ("High", qc 1.725)].

Definition calculate_caloric_needs (user_data : user_data) : Z :=
  let age := default (qc 30) (User.age user_data) in
  let weight := default (qc 70) (User.weight user_data) in
  let height := default (qc 170) (User.height user_data) in
  let gender := default "Male" (User.gender user_data) in
  let activity_level := default "Moderate" (User.activity_level user_data) in
  let bmr :=
    if decide (lower gender = "male")
    then qc 88.362 + qc 13.397 * weight + qc 4.799 * height - qc 5.677 * age
    else qc 447.593 + qc 9.247 * weight + qc 3.098 * height - qc 4.330 * age in
  let multiplier := default (qc 1.55) (Dict.get activity_level activity_multipliers) in
  let daily_calories := bmr * multiplier in
  py_round daily_calories.

End RecommendationEngine.

(** ** In-place mutation: a state monad over the caller's object *)

Module State.
Definition state (S A : Type) : Type := S -> A * S.

#[export] Instance state_ret {S} : MRet (state S) := λ A a s, (a, s).
#[export] Instance state_bind {S} : MBind (state S) :=
  λ A B f m s, let '(a, s') := m s in f a s'.

Definition get {S} : state S S := λ s, (s, s).
Definition modify {S} (f : S -> S) : state S unit := λ s, (tt, f s).

(** [for x in xs: body(x)] *)
Fixpoint for_each {S A} (xs : list A) (body : A -> state S unit) : state S unit :=
  match xs with
  | [] => mret tt
  | x :: r => body x ;; for_each r body
  end.

Definition result {S A} (m : state S A) (s : S) : A := fst (m s).
Definition final {S A} (m : state S A) (s : S) : S := snd (m s).
End State.
Import State.

(** ** nutrition_analyzer.py *)

Module NutritionAnalyzer.

(** A row of the food log (table [food_logs]); the date, the meal type
    and the food item are always recorded, a macro value may be missing. *)
Record food_row : Type := FoodRow {
  date : string;
  meal_type : string;
  food_item : string;
  quantity : option Qc;
  calories : option Qc;
  protein : option Qc;
  carbs : option Qc;
  fat : option Qc;
  fiber : option Qc
}.

(** The food-log DataFrame; every macro column exists in it, so the
    guard [if col in df.columns] always passes. *)
Abbreviation frame := (list food_row).

Inductive column : Type := Calories | Protein | Carbs | Fat | Fiber.

#[export] Instance column_eq_dec : EqDecision column.
Proof. solve_decision. Defined.

Definition name (c : column) : string :=
  match c with
  | Calories => "calories" | Protein => "protein" | Carbs => "carbs"
  | Fat => "fat" | Fiber => "fiber"
  end.

Definition numeric_columns : list column := [Calories; Protein; Carbs; Fat; Fiber].

Definition cell (c : column) (r : food_row) : option Qc :=
  match c with
  | Calories => calories r | Protein => protein r | Carbs => carbs r
  | Fat => fat r | Fiber => fiber r
  end.

Definition set_cell (c : column) (v : option Qc) (r : food_row) : food_row :=
  match c with
  | Calories => FoodRow (date r) (meal_type r) (food_item r) (quantity r) v (protein r) (carbs r) (fat r) (fiber r)
  | Protein => FoodRow (date r) (meal_type r) (food_item r) (quantity r) (calories r) v (carbs r) (fat r) (fiber r)
  | Carbs => FoodRow (date r) (meal_type r) (food_item r) (quantity r) (calories r) (protein r) v (fat r) (fiber r)
  | Fat => FoodRow (date r) (meal_type r) (food_item r) (quantity r) (calories r) (protein r) (carbs r) v (fiber r)
  | Fiber => FoodRow (date r) (meal_type r) (food_item r) (quantity r) (calories r) (protein r) (carbs r) (fat r) v
  end.

(** [df[col]] read and [df[col] = series] written. *)
Definition get_column (c : column) (df : frame) : list (option Qc) := map (cell c) df.
Definition set_column (c : column) (s : list (option Qc)) (df : frame) : frame :=
  zip_with (set_cell c) s df.

(** [df.groupby('food_item')[col].transform('mean')]: each row gets the
    mean of the present values of the rows with its food item. *)
Definition group_mean (c : column) (df : frame) (item : string) : option Qc :=
  series_mean (get_column c (filter (λ r, food_item r = item) df)).
Definition transform_mean (c : column) (df : frame) : list (option Qc) :=
  map (λ r, group_mean c df (food_item r)) df.

Definition fill_by_item (c : column) (df : frame) : list (option Qc) :=
  zip_with fillna (get_column c df) (transform_mean c df).
Definition fill_by_column (c : column) (df : frame) : list (option Qc) :=
  map (λ x, fillna x (series_mean (get_column c df))) (get_column c df).

(** The body of the loop of [handle_missing_values]: the two
    assignments into [df[col]], the caller's object. *)
Definition fill_column (col : column) : state frame unit :=
  modify (λ df, set_column col (fill_by_item col df) df) ;;
  modify (λ df, set_column col (fill_by_column col df) df).

Definition handle_missing_values : state frame unit :=
  for_each numeric_columns fill_column.

(** [groupby('date').agg(sum)]: one sum per distinct date. *)
Definition dates (df : frame) : list string := remove_dups (map date df).
Definition on_date (d : string) (df : frame) : frame := filter (λ r, date r = d) df.
Definition daily_sums (c : column) (df : frame) : list Qc :=
  map (λ d, series_sum (get_column c (on_date d df))) (dates df).
Definition average_intake (c : column) (df : frame) : option Qc :=
  series_mean (Some <$> daily_sums c df).

Definition calculate_daily_intake (df : frame) : Dict.t (option Qc) :=
  map (λ c, (name c, average_intake c df)) numeric_columns.

Definition recommended_values : Dict.t Qc :=
  [("calories", qc 2000); ("protein", qc 50); ("carbs", qc 225);
   ("fat", qc 65); ("fiber", qc 25)].

(** The body of the loop of [identify_nutritional_gaps], for one item
    of [daily_intake.items()]. *)
Definition gap_step (gaps : Dict.t gap) (item : string * option Qc) : Dict.t gap :=
  let '(nutrient, current_intake) := item in
  let recommended := default 0 (Dict.get nutrient recommended_values) in
  match current_intake with
  | Some cur =>
      if ltb cur (recommended * qc 0.8)
      then Dict.set nutrient (Gap cur recommended (recommended - cur)) gaps
      else gaps
  | None => gaps
  end.

Definition identify_nutritional_gaps (daily_intake : Dict.t (option Qc)) : Dict.t gap :=
  foldl gap_step [] daily_intake.

(** The eating patterns, by what the recommendation step reads of them:
    the mean number of rows per date and the number of entries of
    [common_foods] (the ten most frequent of the distinct food items). *)
Record patterns : Type := Patterns {
  avg_meals_per_day : option Qc;
  common_foods : nat
}.

Definition analyze_eating_patterns (df : frame) : patterns :=
  Patterns
    (series_mean (map (λ d, Some (of_nat (length (on_date d df)))) (dates df)))
    (min 10 (length (remove_dups (map food_item df)))).

Definition generate_nutrition_recommendations
    (nutritional_gaps : Dict.t gap) (eating_patterns : patterns) : list message :=
  let for_gaps := flat_map (λ item,
    let '(nutrient, gap_info) := item in
    if decide (nutrient = "protein") then
      [[Txt "Increase protein intake by "; Fmt1f (deficit gap_info);
        Txt "g daily. Consider adding lean meats, eggs, or legumes."]]
    else if decide (nutrient = "fiber") then
      [[Txt "Add "; Fmt1f (deficit gap_info);
        Txt "g more fiber daily. Include more fruits, vegetables, and whole grains."]]
    else if decide (nutrient = "calories") then
      if ltb (qc 200) (deficit gap_info)
      then [lit "Consider increasing caloric intake with nutrient-dense foods."]
      else [lit "Maintain current caloric intake but focus on nutrient quality."]
    else []) nutritional_gaps in
  let for_meals :=
    if nan_ltb (avg_meals_per_day eating_patterns) (qc 3)
    then [lit "Aim for at least 3 balanced meals per day for better nutrient distribution."]
    else [] in
  let for_variety :=
    if (common_foods eating_patterns <? 5)%nat
    then [lit "Increase food variety to ensure diverse nutrient intake."]
    else [] in
  for_gaps ++ for_meals ++ for_variety.

Record analysis : Type := Analysis {
  daily_intake : Dict.t (option Qc);
  nutritional_gaps : Dict.t gap;
  eating_patterns : patterns;
  recommendations : list message
}.

Definition get_default_analysis : analysis :=
  Analysis
    [("calories", Some 0); ("protein", Some 0); ("carbs", Some 0);
     ("fat", Some 0); ("fiber", Some 0)]
    [("calories", Gap 0 (qc 2000) (qc 2000));
     ("protein", Gap 0 (qc 50) (qc 50));
     ("fiber", Gap 0 (qc 25) (qc 25))]
    (Patterns (Some 0) 0)
    [lit "Start logging your food intake to get personalized recommendations";
     lit "Aim for balanced meals with protein, carbs, and healthy fats";
     lit "Include plenty of fruits and vegetables for fiber and micronutrients"].

(** [analyze_food_logs(food_logs_df)]: the state is the DataFrame the
    caller passed, which [handle_missing_values] writes into. *)
Definition analyze_food_logs : state frame analysis :=
  food_logs_df ← get;
  if decide (food_logs_df = [])
  then mret get_default_analysis
  else
    handle_missing_values ;;
    food_logs_df ← get;
    let daily_intake := calculate_daily_intake food_logs_df in
    let nutritional_gaps := identify_nutritional_gaps daily_intake in
    let eating_patterns := analyze_eating_patterns food_logs_df in
    let recommendations :=
      generate_nutrition_recommendations nutritional_gaps eating_patterns in
    mret (Analysis daily_intake nutritional_gaps eating_patterns recommendations).

End NutritionAnalyzer.

(** ** activity_tracker.py *)

Module ActivityTracker.

(** The exercise reference table [self.exercise_data]. *)
Module Ref.
Record row : Type := Row {
  exercise_type : string;
  met_value : Qc;
  category : string;
  intensity : string;
  equipment_needed : string
}.
End Ref.

(** A row of the exercise log (table [exercise_logs]), without the
    [calories_burned] column. *)
Module Log.
Record row : Type := Row {
  date : string;
  exercise_type : string;
  duration : Qc;
  intensity : string
}.
End Log.

(** The exercise-log DataFrame: the rows, and the [calories_burned]
    column when the frame has one (as long as the rows, index by index). *)
Record frame : Type := Frame {
  rows : list Log.row;
  calories_burned : option (list (option Qc))
}.

(** The tracker object: its reference table, read from a file or
    created by [create_sample_exercise_data]. *)
Record tracker : Type := Tracker { exercise_data : list Ref.row }.

Definition create_sample_exercise_data : list Ref.row :=
  [Ref.Row "Walking" (qc 3.5) "Cardio" "Low" "None";
   Ref.Row "Running" (qc 8.0) "Cardio" "High" "None";
   Ref.Row "Cycling" (qc 6.8) "Cardio" "Moderate" "Bicycle";
   Ref.Row "Swimming" (qc 6.0) "Cardio" "Moderate" "Pool";
   Ref.Row "Weight Training" (qc 6.0) "Strength" "High" "Weights";
   Ref.Row "Yoga" (qc 2.5) "Flexibility" "Low" "Mat";
   Ref.Row "Pilates" (qc 3.0) "Flexibility" "Low" "Mat";
   Ref.Row "Basketball" (qc 6.5) "Sports" "Moderate" "Ball";
   Ref.Row "Tennis" (qc 5.0) "Sports" "Moderate" "Racket";
   Ref.Row "Soccer" (qc 7.0) "Sports" "High" "Ball";
   Ref.Row "Dancing" (qc 4.8) "Recreation" "Moderate" "None";
   Ref.Row "Hiking" (qc 6.0) "Outdoor" "Moderate" "None";
   Ref.Row "Rowing" (qc 8.5) "Cardio" "High" "Machine";
   Ref.Row "Elliptical" (qc 5.0) "Cardio" "Moderate" "Machine";
   Ref.Row "Jumping Rope" (qc 10.0) "Cardio" "High" "Rope";
   Ref.Row "Rock Climbing" (qc 8.0) "Outdoor" "High" "Gear";
   Ref.Row "Martial Arts" (qc 5.0) "Combat" "Moderate" "None";
   Ref.Row "Boxing" (qc 8.0) "Combat" "High" "Gloves";
   Ref.Row "Aerobics" (qc 6.0) "Cardio" "Moderate" "None";
   Ref.Row "Stretching" (qc 2.3) "Flexibility" "Low" "Mat";
   Ref.Row "Volleyball" (qc 4.0) "Sports" "Moderate" "Ball";
   Ref.Row "Badminton" (qc 4.5) "Sports" "Moderate" "Racket";
   Ref.Row "Golf" (qc 3.5) "Recreation" "Low" "Clubs";
   Ref.Row "Bowling" (qc 3.0) "Recreation" "Low" "None";
   Ref.Row "Skateboarding" (qc 5.0) "Recreation" "Moderate" "Board"].

(** [dict(zip(exercise_type, met_value))]: a later row overwrites an
    earlier one of the same type. *)
Definition load_met_values (self : tracker) : gmap string Qc :=
  foldl (λ m r, <[Ref.exercise_type r := Ref.met_value r]> m) ∅ (exercise_data self).

Definition calc_calories (self : tracker) (user_weight : Qc) (row : Log.row) : Qc :=
  let met_value := default (qc 5.0) (load_met_values self !! Log.exercise_type row) in
  let duration_hours := Log.duration row / qc 60 in
  met_value * user_weight * duration_hours.

(** [isna().all()] on the column. *)
Definition all_missing (col : list (option Qc)) : bool :=
  forallb (λ x, bool_decide (x = None)) col.

Definition needs_calories (df : frame) : bool :=
  match calories_burned df with
  | None => true
  | Some col => all_missing col
  end.

(** [calculate_calories_burned]: assigns the column into the caller's
    DataFrame. *)
Definition calculate_calories_burned (self : tracker) (user_weight : Qc)
    : state frame unit :=
  exercise_logs_df ← get;
  if needs_calories exercise_logs_df
  then modify (λ df,
         Frame (rows df) (Some (map (λ row, Some (calc_calories self user_weight row)) (rows df))))
  else mret tt.

(** The activity patterns, by their numeric metrics (the frequency
    tables are left out). *)
Record patterns : Type := Patterns {
  exercises_per_week : Qc;
  avg_duration_minutes : option Qc;
  total_weekly_duration : Qc
}.

Definition durations (df : frame) : list Qc := map Log.duration (rows df).

Definition analyze_activity_patterns (df : frame) : patterns :=
  let exercise_frequency :=
    if (0 <? length (rows df))%nat then of_nat (length (rows df)) / qc 30 else 0 in
  let avg_duration :=
    if decide (rows df = []) then Some 0 else series_mean (Some <$> durations df) in
  Patterns (exercise_frequency * qc 7) avg_duration (total (durations df)).

(** [df.merge(exercise_data[['exercise_type', 'category']], how='left')],
    by the [category] column of the result: one row per matching
    reference row, and one row without category when there is none. *)
Definition merge_category (self : tracker) (df : frame) : list (option string) :=
  flat_map (λ row,
    match filter (λ r, Ref.exercise_type r = Log.exercise_type row) (exercise_data self) with
    | [] => [None]
    | matches => map (λ r, Some (Ref.category r)) matches
    end) (rows df).

Definition sessions (cat : string) (merged : list (option string)) : nat :=
  length (filter (λ c, c = Some cat) merged).

Definition unique_exercises (df : frame) : nat :=
  length (remove_dups (map Log.exercise_type (rows df))).

Definition identify_fitness_gaps (self : tracker) (df : frame) : Dict.t gap :=
  let gaps := [] in
  let total_duration := total (durations df) in
  let gaps :=
    if ltb total_duration (qc 150)
    then Dict.set "cardio_duration"
           (Gap total_duration (qc 150) (qc 150 - total_duration)) gaps
    else gaps in
  let unique_exercises := unique_exercises df in
  let gaps :=
    if (unique_exercises <? 3)%nat
    then Dict.set "exercise_variety"
           (Gap (of_nat unique_exercises) (qc 3) (qc 3 - of_nat unique_exercises)) gaps
    else gaps in
  let strength_exercises := merge_category self df in
  let strength_sessions := sessions "Strength" strength_exercises in
  let gaps :=
    if (strength_sessions <? 2)%nat
    then Dict.set "strength_training"
           (Gap (of_nat strength_sessions) (qc 2) (qc 2 - of_nat strength_sessions)) gaps
    else gaps in
  let flexibility_exercises := sessions "Flexibility" strength_exercises in
  let gaps :=
    if (flexibility_exercises <? 1)%nat
    then Dict.set "flexibility"
           (Gap (of_nat flexibility_exercises) (qc 2) (qc 2 - of_nat flexibility_exercises)) gaps
    else gaps in
  gaps.

Definition generate_exercise_recommendations
    (activity_patterns : patterns) (fitness_gaps : Dict.t gap) : list message :=
  let for_gaps := flat_map (λ item,
    let '(gap_type, gap_info) := item in
    if decide (gap_type = "cardio_duration") then
      [[Txt "Increase cardio by "; FmtStr (deficit gap_info);
        Txt " minutes per week. Try walking, cycling, or swimming."]]
    else if decide (gap_type = "strength_training") then
      [[Txt "Add "; FmtStr (deficit gap_info);
        Txt " strength training sessions per week. Focus on major muscle groups."]]
    else if decide (gap_type = "exercise_variety") then
      [lit "Try new activities to increase exercise variety and prevent boredom."]
    else if decide (gap_type = "flexibility") then
      [lit "Include yoga or stretching sessions for flexibility and recovery."]
    else []) fitness_gaps in
  let for_frequency :=
    if ltb (exercises_per_week activity_patterns) (qc 3)
    then [lit "Aim for at least 3-4 exercise sessions per week for optimal health benefits."]
    else [] in
  let for_duration :=
    if nan_ltb (avg_duration_minutes activity_patterns) (qc 30)
    then [lit "Try to exercise for at least 30 minutes per session for better results."]
    else [] in
  for_gaps ++ for_frequency ++ for_duration.

Record analysis : Type := Analysis {
  activity_patterns : patterns;
  fitness_gaps : Dict.t gap;
  recommendations : list message;
  total_calories_burned : Qc
}.

Definition get_default_analysis : analysis :=
  Analysis
    (Patterns 0 (Some 0) 0)
    [("cardio_duration", Gap 0 (qc 150) (qc 150));
     ("strength_training", Gap 0 (qc 2) (qc 2));
     ("flexibility", Gap 0 (qc 2) (qc 2))]
    [lit "Start with 150 minutes of moderate cardio per week";
     lit "Include 2 strength training sessions weekly";
     lit "Add flexibility exercises like yoga or stretching";
     lit "Begin with activities you enjoy to build consistency"]
    0.

(** [analyze_activity_logs(exercise_logs_df, user_weight)]; after
    [calculate_calories_burned] the column exists, so the sum over it
    never meets an absent column. *)
Definition analyze_activity_logs (self : tracker) (user_weight : Qc)
    : state frame analysis :=
  exercise_logs_df ← get;
  if decide (rows exercise_logs_df = [])
  then mret get_default_analysis
  else
    calculate_calories_burned self user_weight ;;
    exercise_logs_df ← get;
    let activity_patterns := analyze_activity_patterns exercise_logs_df in
    let fitness_gaps := identify_fitness_gaps self exercise_logs_df in
    let recommendations :=
      generate_exercise_recommendations activity_patterns fitness_gaps in
    mret (Analysis activity_patterns fitness_gaps recommendations
            (from_option series_sum 0 (calories_burned exercise_logs_df))).

End ActivityTracker.

(** ** progress_predictor.py *)

Module ProgressPredictor.

(** A meal plan: day -> (meal -> suggestions), a day whose value is not
    a dict being [None]; a meal is truthy when it has a suggestion. *)
Definition nutrition_plan : Type := Dict.t (option (Dict.t (list string))).

(** An exercise plan: day -> [{'type': _, 'exercises': [...]}], a day
    whose value is not a dict being [None] and a missing key
    ['exercises'] being [None]. *)
Record plan_exercise : Type := PlanExercise {
  exercise : string;
  duration : option Qc;
  intensity : string
}.
Record plan_day : Type := PlanDay {
  type : string;
  exercises : option (list plan_exercise)
}.
Definition exercise_plan : Type := Dict.t (option plan_day).

(** The predictor object: the flag set by training, and the fitted
    scaler and models as one opaque collaborator that maps a feature
    vector to (weight, BMI, energy), or raises ([None]). *)
Record predictor : Type := Predictor {
  is_trained : bool;
  predict : list Qc -> option (Qc * Qc * Qc)
}.

(** One weekly entry of the result (the [date] string, read from the
    wall clock, is left out). *)
Record entry : Type := Entry {
  weight : Qc;
  bmi : Qc;
  energy_level : Qc;
  weight_change : Qc
}.

(** [x / y] on Python numbers: [ZeroDivisionError] when [y] is zero. *)
Definition py_div (x y : Qc) : option Qc :=
  if decide (y = 0) then None else Some (x / y).

Definition calculate_bmr (age weight height : Qc) (gender : string) : Qc :=
  if decide (lower gender = "male")
  then qc 88.362 + qc 13.397 * weight + qc 4.799 * height - qc 5.677 * age
  else qc 447.593 + qc 9.247 * weight + qc 3.098 * height - qc 4.330 * age.

Definition estimate_calories_from_plan (nutrition_plan : nutrition_plan) : Qc :=
  let base_calories := qc 2000 in
  let total_meals := foldl (λ total_meals item,
    match snd item with
    | Some day_plan =>
        (total_meals + length (filter (λ meal, snd meal ≠ []) day_plan))%nat
    | None => total_meals
    end) 0%nat nutrition_plan in
  if (0 <? total_meals)%nat then
    let avg_meals_per_day := of_nat total_meals / of_nat (length nutrition_plan) in
    let estimated_calories := avg_meals_per_day * qc 500 in
    py_min (py_max estimated_calories (qc 1200)) (qc 3000)
  else base_calories.

Definition estimate_exercise_from_plan (exercise_plan : exercise_plan)
    : Qc * Qc * Qc :=
  let '(total_duration, total_calories, frequency) :=
    foldl (λ acc item,
      let '(total_duration, total_calories, frequency) := acc in
      match snd item with
      | Some (PlanDay _ (Some exercises)) =>
          let '(total_duration, total_calories) :=
            foldl (λ acc exercise,
              let duration := default (qc 30) (duration exercise) in
              (fst acc + duration, snd acc + duration * qc 5))
              (total_duration, total_calories) exercises in
          (total_duration, total_calories, S frequency)
      | _ => acc
      end) (0, 0, 0%nat) exercise_plan in
  let avg_calories_burned :=
    if (0 <? frequency)%nat then total_calories / of_nat (max frequency 1) else 0 in
  (total_duration, avg_calories_burned, of_nat frequency).

Definition activity_mapping : Dict.t Qc :=
  [("Low", qc 1); ("Moderate", qc 2); ("High", qc 3)].

(** [prepare_prediction_features]: the 16 features; the BMI feature
    divides by the squared height, so a height of 0 raises. *)
Definition prepare_prediction_features (user_data : user_data)
    (nutrition_plan : nutrition_plan) (exercise_plan : exercise_plan)
    (current_weight current_energy : Qc) : option (list Qc) :=
  let height := default (qc 170) (User.height user_data) in
  let age := default (qc 30) (User.age user_data) in
  let level :=
    default (qc 2)
      (Dict.get (default "Moderate" (User.activity_level user_data)) activity_mapping) in
  current_bmi ← py_div current_weight ((height / qc 100) * (height / qc 100));
  let estimated_calories := estimate_calories_from_plan nutrition_plan in
  let '(exercise_duration, calories_burned, frequency) :=
    estimate_exercise_from_plan exercise_plan in
  let bmr :=
    calculate_bmr age current_weight height (default "Male" (User.gender user_data)) in
  let daily_expenditure := bmr * level * qc 0.5 in
  let caloric_balance := estimated_calories - daily_expenditure in
  Some [age;
        if decide (User.gender user_data = Some "Male") then 1 else 0;
        height; current_weight; current_bmi; current_energy;
        level;
        estimated_calories;
        estimated_calories * qc 0.15 / qc 4;
        estimated_calories * qc 0.55 / qc 4;
        estimated_calories * qc 0.30 / qc 9;
        qc 25;
        exercise_duration; calories_burned; frequency;
        caloric_balance].

(** The key [f'Week_{week}']. *)
Definition week_key (week : nat) : string := "Week_" +:+ str_nat week.

Definition get_default_week_prediction (current_weight : Qc) (week : nat) : entry :=
  Entry (round1 (current_weight + qc 0.1))
       (round1 (current_weight / (qc 1.7 * qc 1.7)))
       (qc 6.0)
       (qc 0.1).

(** The loop of [get_default_predictions] over [range(1, weeks_ahead + 1)]. *)
Fixpoint default_loop (user_data : user_data) (current_weight : Qc)
    (weeks : list nat) (predictions : gmap string entry) : option (gmap string entry) :=
  match weeks with
  | [] => Some predictions
  | week :: rest =>
      let weekly_change := qc 0.2 in
      let height := default (qc 170) (User.height user_data) in
      let predicted_weight := current_weight + weekly_change * of_nat week in
      predicted_bmi ← py_div predicted_weight ((height / qc 100) * (height / qc 100));
      default_loop user_data current_weight rest
        (<[week_key week :=
             Entry (round1 predicted_weight) (round1 predicted_bmi) (qc 6.0)
                  (round1 (weekly_change * of_nat week))]> predictions)
  end.

Definition get_default_predictions (user_data : user_data) (weeks_ahead : nat)
    : option (gmap string entry) :=
  default_loop user_data (default (qc 70) (User.weight user_data))
    (seq 1 weeks_ahead) ∅.

(** The variables the trained loop carries from week to week. *)
Record loop_state : Type := LoopState {
  current_weight : Qc;
  current_energy : Qc;
  predictions : gmap string entry
}.

(** One iteration of the loop of [predict_progress]: the features are
    prepared outside the [try], the model is called inside it. *)
Definition week_step (self : predictor) (user_data : user_data)
    (nutrition_plan : nutrition_plan) (exercise_plan : exercise_plan)
    (st : loop_state) (week : nat) : option loop_state :=
  features ← prepare_prediction_features user_data nutrition_plan exercise_plan
               (current_weight st) (current_energy st);
  match predict self features with
  | Some (predicted_weight, predicted_bmi, predicted_energy) =>
      let predicted_weight := py_max (qc 30) (py_min (qc 200) predicted_weight) in
      let predicted_bmi := py_max (qc 15) (py_min (qc 50) predicted_bmi) in
      let predicted_energy := py_max (qc 1) (py_min (qc 10) predicted_energy) in
      Some (LoopState predicted_weight predicted_energy
              (<[week_key week :=
                   Entry (round1 predicted_weight) (round1 predicted_bmi)
                        (round1 predicted_energy)
                        (round1 (predicted_weight - current_weight st))]>
                 (predictions st)))
  | None =>
      Some (LoopState (current_weight st) (current_energy st)
              (<[week_key week := get_default_week_prediction (current_weight st) week]>
                 (predictions st)))
  end.

Fixpoint run_weeks (self : predictor) (user_data : user_data)
    (nutrition_plan : nutrition_plan) (exercise_plan : exercise_plan)
    (weeks : list nat) (st : loop_state) : option loop_state :=
  match weeks with
  | [] => Some st
  | week :: rest =>
      st' ← week_step self user_data nutrition_plan exercise_plan st week;
      run_weeks self user_data nutrition_plan exercise_plan rest st'
  end.

Definition initial_state (user_data : user_data) : loop_state :=
  LoopState (default (qc 70) (User.weight user_data)) (qc 5) ∅.

Definition predict_progress (self : predictor) (user_data : user_data)
    (nutrition_plan : nutrition_plan) (exercise_plan : exercise_plan)
    (weeks_ahead : nat) : option (gmap string entry) :=
  if negb (is_trained self)
  then get_default_predictions user_data weeks_ahead
  else
    predictions <$>
      run_weeks self user_data nutrition_plan exercise_plan
        (seq 1 weeks_ahead) (initial_state user_data).

End ProgressPredictor.

(** ** The specification's wording, where the code is compared with it *)

Module Stated.

(** Basal metabolic rate as the specification words it: the male
    formula when the gender is ["male"], the other formula otherwise. *)
Definition bmr (age weight height : Qc) (gender : string) : Qc :=
  if decide (gender = "male")
  then qc 88.362 + qc 13.397 * weight + qc 4.799 * height - qc 5.677 * age
  else qc 447.593 + qc 9.247 * weight + qc 3.098 * height - qc 4.330 * age.

(** The multiplier table with its default for unrecognized levels. *)
Definition activity_multiplier (level : string) : Qc :=
  if decide (level = "Low") then qc 1.2
  else if decide (level = "Moderate") then qc 1.55
  else if decide (level = "High") then qc 1.725
  else qc 1.55.


(** The fixed nutrient target table. *)
Definition target (c : NutritionAnalyzer.column) : Qc :=
  match c with
  | NutritionAnalyzer.Calories => qc 2000
  | NutritionAnalyzer.Protein => qc 50
  | NutritionAnalyzer.Carbs => qc 225
  | NutritionAnalyzer.Fat => qc 65
  | NutritionAnalyzer.Fiber => qc 25
  end.


(** Imputation as the specification words it: a missing value takes
    the mean of the entries of the same food item, and a value still
    missing then takes the mean of the column (as it stands after the
    first pass). *)
Definition impute_by_item (c : NutritionAnalyzer.column)
    (df : NutritionAnalyzer.frame) : list (option Qc) :=
  map (λ r,
    match NutritionAnalyzer.cell c r with
    | Some v => Some v
    | None => NutritionAnalyzer.group_mean c df (NutritionAnalyzer.food_item r)
    end) df.

Definition impute (c : NutritionAnalyzer.column)
    (df : NutritionAnalyzer.frame) : list (option Qc) :=
  map (λ x, match x with Some v => Some v | None => series_mean (impute_by_item c df) end)
    (impute_by_item c df).

(** The columns of a food-log row that are not macro values. *)
Definition labels (r : NutritionAnalyzer.food_row)
    : string * string * string * option Qc :=
  (NutritionAnalyzer.date r, NutritionAnalyzer.meal_type r,
   NutritionAnalyzer.food_item r, NutritionAnalyzer.quantity r).

(** Physiologically plausible ranges of a weekly entry. *)
Definition plausible (e : ProgressPredictor.entry) : Prop :=
  qc 30 <= ProgressPredictor.weight e ∧ ProgressPredictor.weight e <= qc 200 ∧
  qc 15 <= ProgressPredictor.bmi e ∧ ProgressPredictor.bmi e <= qc 50.

(** The untrained fallback as the specification words it: the weight
    grows by 0.2 kg per week, the BMI is recomputed from that weight and
    the height, the energy level is 6.0 (numbers printed to one decimal). *)
Definition linear_entry (start height : Qc) (week : nat) : ProgressPredictor.entry :=
  let predicted_weight := start + qc 0.2 * of_nat week in
  ProgressPredictor.Entry
    (round1 predicted_weight)
    (round1 (predicted_weight / ((height / qc 100) * (height / qc 100))))
    (qc 6.0)
    (round1 (qc 0.2 * of_nat week)).

End Stated.

(** ** Concrete inputs for the examples *)

Module Samples.
Import NutritionAnalyzer.

(** The specification's one-day example: 1200 kcal, 40 g protein and
    10 g fiber in four entries. *)
Definition one_day_log : frame :=
  [FoodRow "2024-01-01" "breakfast" "Oats" None
     (Some (qc 300)) (Some (qc 10)) (Some (qc 60)) (Some (qc 15)) (Some (qc 4));
   FoodRow "2024-01-01" "lunch" "Rice" None
     (Some (qc 400)) (Some (qc 10)) (Some (qc 60)) (Some (qc 15)) (Some (qc 2));
   FoodRow "2024-01-01" "dinner" "Lentils" None
     (Some (qc 300)) (Some (qc 15)) (Some (qc 50)) (Some (qc 15)) (Some (qc 3));
   FoodRow "2024-01-01" "snack" "Apple" None
     (Some (qc 200)) (Some (qc 5)) (Some (qc 30)) (Some (qc 15)) (Some (qc 1))].

(** Two entries of one item with an unknown fiber value, next to a
    protein value that is known for one entry only. *)
Definition partly_missing_log : frame :=
  [FoodRow "2024-01-01" "lunch" "Rice" None
     (Some (qc 400)) (Some (qc 10)) (Some (qc 60)) (Some (qc 15)) None;
   FoodRow "2024-01-02" "lunch" "Rice" None
     (Some (qc 400)) None (Some (qc 60)) (Some (qc 15)) None].

(** The tracker with the sample reference table, and a log of a yoga
    session and a session of a type the table does not have. *)
Definition sample_tracker : ActivityTracker.tracker :=
  ActivityTracker.Tracker ActivityTracker.create_sample_exercise_data.

Definition two_sessions : list ActivityTracker.Log.row :=
  [ActivityTracker.Log.Row "2024-01-01" "Yoga" (qc 30) "Low";
   ActivityTracker.Log.Row "2024-01-02" "Parkour" (qc 60) "High"].

(** The log as the storage layer hands it over: no calories at all,
    and calories recorded for the second session only. *)
Definition sessions_without_calories : ActivityTracker.frame :=
  ActivityTracker.Frame two_sessions (Some [None; None]).
Definition sessions_partly_recorded : ActivityTracker.frame :=
  ActivityTracker.Frame two_sessions (Some [None; Some (qc 400)]).
Definition sessions_no_column : ActivityTracker.frame :=
  ActivityTracker.Frame two_sessions None.

Definition zero_height_user : user_data :=
  User.UserData (Some (qc 30)) (Some (qc 70)) (Some 0) (Some "Male") (Some "Moderate").
Definition average_user : user_data :=
  User.UserData (Some (qc 30)) (Some (qc 70)) (Some (qc 170)) (Some "Male") (Some "Moderate").

Definition untrained : ProgressPredictor.predictor :=
  ProgressPredictor.Predictor false (λ _, None).


End Samples.

(** ** progress_predictor.py: goal achievement *)

Module GoalAnalysis.

(** [analyze_goal_achievement(predictions, user_goals)]: one verdict per
    recognised goal, under the goal as the user wrote it; a goal that
    needs the final week gets no verdict when the key
    [f'Week_{len(predictions)}'] is not in [predictions]. *)
Definition analyze_goal_achievement
    (predictions : gmap string ProgressPredictor.entry) (user_goals : list string)
    : Dict.t string :=
  foldl (λ analysis goal,
    if decide (lower goal = "weight_loss") then
      let final_week := ProgressPredictor.week_key (size predictions) in
      match predictions !! final_week with
      | Some e =>
          let weight_change := ProgressPredictor.weight_change e in
          if ltb weight_change (qc (-1))
          then Dict.set goal "On track - predicted weight loss" analysis
          else if ltb weight_change 0
          then Dict.set goal "Slow progress - minor weight loss predicted" analysis
          else Dict.set goal "Not on track - no weight loss predicted" analysis
      | None => analysis
      end
    else if decide (lower goal = "muscle_gain") then
      Dict.set goal "Moderate progress expected with consistent training" analysis
    else if decide (lower goal = "fitness_improvement") then
      let final_week := ProgressPredictor.week_key (size predictions) in
      match predictions !! final_week with
      | Some e =>
          let energy_level := ProgressPredictor.energy_level e in
          if ltb (qc 7) energy_level
          then Dict.set goal "Good progress - high energy levels predicted" analysis
          else if ltb (qc 5) energy_level
          then Dict.set goal "Moderate progress - stable energy levels" analysis
          else Dict.set goal "Consider adjusting plan - low energy predicted" analysis
      | None => analysis
      end
    else analysis) [] user_goals.

(** The verdict that one pass of the loop of [analyze_goal_achievement]
    stores under [goal], if it stores one. *)
Definition goal_verdict (predictions : gmap string ProgressPredictor.entry)
    (goal : string) : option string :=
  if decide (lower goal = "weight_loss") then
    e ← predictions !! ProgressPredictor.week_key (size predictions);
    let weight_change := ProgressPredictor.weight_change e in
    Some (if ltb weight_change (qc (-1)) then "On track - predicted weight loss"
          else if ltb weight_change 0 then "Slow progress - minor weight loss predicted"
          else "Not on track - no weight loss predicted")
  else if decide (lower goal = "muscle_gain") then
    Some "Moderate progress expected with consistent training"
  else if decide (lower goal = "fitness_improvement") then
    e ← predictions !! ProgressPredictor.week_key (size predictions);
    let energy_level := ProgressPredictor.energy_level e in
    Some (if ltb (qc 7) energy_level then "Good progress - high energy levels predicted"
          else if ltb (qc 5) energy_level then "Moderate progress - stable energy levels"
          else "Consider adjusting plan - low energy predicted")
  else None.

End GoalAnalysis.

(** ** recommendation_engine.py: goal tables, lifestyle, meal plans *)

Module Recommendations.

(** The keys of [user_data] that the composer reads beside those of
    [User.user_data]; [None] is an absent key. *)
Record profile : Type := Profile {
  base : user_data;
  health_goals : option (list string);
  dietary_preferences : option (list string);
  cultural_background : option string
}.

Definition goal_nutrition : Dict.t (list string) :=
  [("weight_loss",
    ["Create a moderate caloric deficit through portion control";
     "Increase protein intake to preserve muscle mass";
     "Focus on high-fiber foods for satiety"]);
   ("muscle_gain",
    ["Increase protein intake to 1.6-2.2g per kg body weight";
     "Ensure adequate caloric intake to support muscle growth";
     "Include post-workout protein within 30 minutes"]);
   ("heart_health",
    ["Reduce sodium intake and increase potassium-rich foods";
     "Include omega-3 fatty acids from fish or plant sources";
     "Limit saturated fats and trans fats"]);
   ("diabetes_management",
    ["Focus on complex carbohydrates and fiber";
     "Monitor portion sizes and meal timing";
     "Include chromium and magnesium-rich foods"]);
   ("energy_boost",
    ["Ensure adequate iron and B-vitamin intake";
     "Include complex carbohydrates for sustained energy";
     "Stay well-hydrated throughout the day"])].

Definition get_nutrition_recommendations_for_goal (goal : string) : list string :=
  default [] (Dict.get (lower goal) goal_nutrition).

Definition goal_exercise : Dict.t (list string) :=
  [("weight_loss",
    ["Include both cardio and strength training";
     "Try high-intensity interval training (HIIT)";
     "Aim for 150+ minutes of moderate cardio weekly"]);
   ("muscle_gain",
    ["Focus on progressive resistance training";
     "Include compound movements like squats and deadlifts";
     "Allow adequate rest between strength sessions"]);
   ("heart_health",
    ["Prioritize cardiovascular exercises";
     "Include activities like swimming, cycling, or walking";
     "Monitor heart rate during exercise"]);
   ("flexibility",
    ["Include daily stretching or yoga";
     "Focus on major muscle groups";
     "Hold stretches for 15-30 seconds"]);
   ("stress_relief",
    ["Try mind-body exercises like yoga or tai chi";
     "Include outdoor activities when possible";
     "Focus on rhythmic, meditative movements"])].

Definition get_exercise_recommendations_for_goal (goal : string) : list string :=
  default [] (Dict.get (lower goal) goal_exercise).

(** [generate_lifestyle_recommendations]: the analyses are those the two
    analyzers return, so their keys are present. *)
Definition generate_lifestyle_recommendations (user_data : user_data)
    (nutrition_analysis : NutritionAnalyzer.analysis)
    (activity_analysis : ActivityTracker.analysis) : list message :=
  let weight := default (qc 70) (User.weight user_data) in
  let water_intake := round1 (weight * qc 0.035) in
  let meals_per_day :=
    NutritionAnalyzer.avg_meals_per_day
      (NutritionAnalyzer.eating_patterns nutrition_analysis) in
  let exercises_per_week :=
    ActivityTracker.exercises_per_week
      (ActivityTracker.activity_patterns activity_analysis) in
  [lit "Aim for 7-9 hours of quality sleep per night";
   [Txt "Drink at least "; FmtStr water_intake; Txt " liters of water daily"];
   lit "Practice stress management techniques like meditation or deep breathing"]
  ++ (if nan_ltb meals_per_day (qc 3)
      then [lit "Establish regular meal times with at least 3 meals per day"]
      else [])
  ++ (if ltb (qc 5) exercises_per_week
      then [lit "Include rest days for proper recovery and muscle repair"]
      else [])
  ++ [lit "Monitor your progress weekly and adjust plans as needed"].

(** [sub in s] on strings. *)
Fixpoint contains (sub s : string) : bool :=
  String.prefix sub s
  || match s with
     | EmptyString => false
     | String _ rest => contains sub rest
     end.

Record restriction : Type := Restriction {
  avoid : list string;
  emphasize : list string
}.

Definition dietary_restrictions : Dict.t restriction :=
  [("vegetarian",
    Restriction ["Chicken"; "Beef"; "Pork"; "Fish"; "Turkey"]
                ["Legumes"; "Nuts"; "Seeds"; "Dairy"; "Eggs"]);
   ("vegan",
    Restriction ["Chicken"; "Beef"; "Pork"; "Fish"; "Dairy"; "Eggs"]
                ["Legumes"; "Nuts"; "Seeds"; "Plant-based proteins"]);
   ("diabetic",
    Restriction ["High sugar foods"; "Refined carbs"; "Sugary drinks"]
                ["Complex carbs"; "Fiber-rich foods"; "Lean proteins"]);
   ("hypertension",
    Restriction ["High sodium foods"; "Processed foods"]
                ["Potassium-rich foods"; "Whole grains"; "Lean proteins"]);
   ("gluten_free",
    Restriction ["Wheat"; "Barley"; "Rye"; "Bread"; "Pasta"]
                ["Rice"; "Quinoa"; "Corn"; "Naturally gluten-free foods"])].

Definition meal_suggestions : Dict.t (Dict.t (list string)) :=
  [("breakfast",
    [("Indian", ["Oats with nuts and fruits"; "Vegetable upma";
                 "Whole wheat paratha with yogurt"]);
     ("Mediterranean", ["Greek yogurt with berries"; "Whole grain toast with avocado";
                        "Oatmeal with nuts"]);
     ("Asian", ["Congee with vegetables"; "Steamed vegetables with rice";
                "Miso soup with tofu"]);
     ("Western", ["Oatmeal with fruits"; "Scrambled eggs with vegetables";
                  "Whole grain cereal"])]);
   ("lunch",
    [("Indian", ["Dal with rice and vegetables"; "Quinoa pulao";
                 "Mixed vegetable curry with roti"]);
     ("Mediterranean", ["Grilled fish with vegetables"; "Quinoa salad";
                        "Lentil soup with bread"]);
     ("Asian", ["Stir-fried vegetables with brown rice"; "Miso soup with salmon";
                "Tofu with steamed vegetables"]);
     ("Western", ["Grilled chicken salad"; "Quinoa bowl with vegetables";
                  "Lean meat with sweet potato"])]);
   ("dinner",
    [("Indian", ["Khichdi with vegetables"; "Grilled paneer with salad";
                 "Vegetable soup with roti"]);
     ("Mediterranean", ["Grilled fish with quinoa"; "Vegetable stew"; "Lentil salad"]);
     ("Asian", ["Steamed fish with vegetables"; "Vegetable stir-fry";
                "Miso soup with tofu"]);
     ("Western", ["Grilled salmon with broccoli"; "Chicken breast with quinoa";
                  "Vegetable soup"])]);
   ("snacks",
    [("Indian", ["Mixed nuts"; "Fruit salad"; "Roasted chickpeas"]);
     ("Mediterranean", ["Hummus with vegetables"; "Greek yogurt"; "Mixed olives and nuts"]);
     ("Asian", ["Green tea with almonds"; "Edamame"; "Fresh fruit"]);
     ("Western", ["Apple with nut butter"; "Greek yogurt"; "Mixed berries"])])].

Definition generic_options : Dict.t (list string) :=
  [("breakfast", ["Oatmeal with fruits"; "Smoothie with vegetables"]);
   ("lunch", ["Quinoa salad"; "Vegetable soup"]);
   ("dinner", ["Grilled vegetables"; "Lentil curry"]);
   ("snacks", ["Fresh fruit"; "Mixed nuts"])].

(** The inner loops of [suggest_meal]: a suggestion is dropped as soon
    as it contains an avoided food of a recognised preference. *)
Definition is_suitable (dietary_preferences : list string) (suggestion : string) : bool :=
  forallb (λ preference,
    match Dict.get (lower preference) dietary_restrictions with
    | Some restriction_info =>
        forallb (λ avoid_food, negb (contains (lower avoid_food) (lower suggestion)))
          (avoid restriction_info)
    | None => true
    end) dietary_preferences.

Definition suggest_meal (meal_type : string) (nutritional_gaps : Dict.t gap)
    (dietary_preferences : list string) (cultural_background : string) : list string :=
  let base_suggestions :=
    default [] (Dict.get cultural_background
                  (default [] (Dict.get meal_type meal_suggestions))) in
  let filtered_suggestions := List.filter (is_suitable dietary_preferences) base_suggestions in
  let filtered_suggestions :=
    match filtered_suggestions with
    | [] => default ["Healthy balanced meal"] (Dict.get meal_type generic_options)
    | _ => filtered_suggestions
    end in
  let filtered_suggestions :=
    match Dict.get "protein" nutritional_gaps with
    | Some _ =>
        if decide (meal_type = "lunch" ∨ meal_type = "dinner")
        then map (λ s, s +:+ " (add extra protein)") filtered_suggestions
        else filtered_suggestions
    | None => filtered_suggestions
    end in
  take 3 filtered_suggestions.

(** The key [f'Day_{day}']. *)
Definition day_key (day : nat) : string := "Day_" +:+ str_nat day.

Definition create_meal_plans (user_data : profile)
    (nutrition_analysis : NutritionAnalyzer.analysis) : Dict.t (Dict.t (list string)) :=
  let nutritional_gaps := NutritionAnalyzer.nutritional_gaps nutrition_analysis in
  let dietary_preferences := default [] (dietary_preferences user_data) in
  let cultural_background := default "Western" (cultural_background user_data) in
  foldl (λ meal_plans day,
    let daily_plan :=
      [("breakfast", suggest_meal "breakfast" nutritional_gaps dietary_preferences cultural_background);
       ("lunch", suggest_meal "lunch" nutritional_gaps dietary_preferences cultural_background);
       ("dinner", suggest_meal "dinner" nutritional_gaps dietary_preferences cultural_background);
       ("snacks", suggest_meal "snacks" nutritional_gaps dietary_preferences cultural_background)] in
    Dict.set (day_key day) daily_plan meal_plans) [] (seq 1 7).

(** A meal plan as [predict_progress] receives it: every day is a dict. *)
Definition as_nutrition_plan (meal_plans : Dict.t (Dict.t (list string)))
    : ProgressPredictor.nutrition_plan :=
  map (λ item, (item.1, Some item.2)) meal_plans.

End Recommendations.

(** ** activity_tracker.py: exercise suggestions *)

Module ExerciseSuggestions.

Record detail : Type := Detail {
  exercise : string;
  met_value : Qc;
  category : string;
  intensity : string
}.

Definition goal_mapping : Dict.t (list string) :=
  [("weight_loss", ["Running"; "Cycling"; "Swimming"; "Jumping Rope"]);
   ("muscle_gain", ["Weight Training"; "Push-ups"; "Pull-ups"; "Resistance Training"]);
   ("endurance", ["Running"; "Cycling"; "Swimming"; "Rowing"]);
   ("flexibility", ["Yoga"; "Pilates"; "Stretching"]);
   ("stress_relief", ["Yoga"; "Walking"; "Swimming"; "Tai Chi"]);
   ("strength", ["Weight Training"; "Rock Climbing"; "Martial Arts"; "Boxing"])].

(** The rows of the reference table with a given exercise type,
    [exercise_data[exercise_data['exercise_type'] == exercise]]. *)
Definition exercise_info (self : ActivityTracker.tracker) (exercise : string)
    : list ActivityTracker.Ref.row :=
  filter (λ r, ActivityTracker.Ref.exercise_type r = exercise)
    (ActivityTracker.exercise_data self).

Definition exercise_details (self : ActivityTracker.tracker) (exercise_list : list string)
    : list detail :=
  flat_map (λ exercise,
    match exercise_info self exercise with
    | [] => []
    | first :: _ =>
        [Detail exercise (ActivityTracker.Ref.met_value first)
           (ActivityTracker.Ref.category first) (ActivityTracker.Ref.intensity first)]
    end) exercise_list.

Definition suggest_exercises_for_goals (self : ActivityTracker.tracker)
    (goals : list string) : Dict.t (list detail) :=
  foldl (λ suggestions goal,
    match Dict.get (lower goal) goal_mapping with
    | Some exercise_list => Dict.set goal (exercise_details self exercise_list) suggestions
    | None => suggestions
    end) [] goals.

End ExerciseSuggestions.

(** * Properties *)

(** ** Arithmetic of Python numbers *)

Section PyNumFacts.

Lemma this_qc q : (this (qc q) == q)%Q.
Proof. apply Qred_correct. Qed.

Lemma this_Q2Qc q : (this (Q2Qc q) == q)%Q.
Proof. apply Qred_correct. Qed.

Lemma this_of_Z z : (this (of_Z z) == inject_Z z)%Q.
Proof. apply Qred_correct. Qed.

Lemma this_plus (x y : Qc) : (this (x + y) == this x + this y)%Q.
Proof. apply Qred_correct. Qed.

Lemma this_minus (x y : Qc) : (this (x - y) == this x - this y)%Q.
Proof.
  unfold Qcminus. rewrite this_plus. unfold Qcopp, Qminus. cbn [this Q2Qc].
  now rewrite Qred_correct.
Qed.

Lemma this_mult (x y : Qc) : (this (x * y) == this x * this y)%Q.
Proof. apply Qred_correct. Qed.

Lemma ltb_true x y : ltb x y = true ↔ x < y.
Proof. apply bool_decide_eq_true. Qed.

Lemma ltb_false x y : ltb x y = false ↔ y <= x.
Proof.
  unfold ltb. rewrite bool_decide_eq_false. split.
  - apply Qcnot_lt_le.
  - apply Qcle_not_lt.
Qed.

End PyNumFacts.

Ltac to_Q :=
  unfold Qcle, Qclt in *;
  repeat first
    [ rewrite this_plus in * | rewrite this_minus in * | rewrite this_mult in *
    | rewrite this_qc in * | rewrite this_of_Z in * | rewrite this_Q2Qc in * ].

Section Rounding.

Lemma py_round_floor (x : Qc) :
  (Qnum x / Z.pos (Qden x) <= py_round x <= Qnum x / Z.pos (Qden x) + 1)%Z.
Proof.
  unfold py_round.
  destruct (2 * (Qnum x mod Z.pos (Qden x)) ?= Z.pos (Qden x))%Z;
    [destruct (Z.even _) | |]; lia.
Qed.

Lemma py_round_ge (z : Z) (x : Qc) : of_Z z <= x -> (z <= py_round x)%Z.
Proof.
  intros H. to_Q. destruct x as [[n d] Hc]. cbn [this] in H.
  unfold Qle in H. cbn in H.
  pose proof (py_round_floor {| this := n # d; canon := Hc |}) as [Hf _].
  cbn in Hf. etrans; [|exact Hf].
  apply Z.div_le_lower_bound; lia.
Qed.

Lemma py_round_le (z : Z) (x : Qc) : x <= of_Z z -> (py_round x <= z)%Z.
Proof.
  intros H. to_Q. destruct x as [[n d] Hc]. cbn [this] in H.
  unfold Qle in H. cbn in H.
  unfold py_round. cbn [this Qnum Qden].
  pose proof (Z.div_mod n (Z.pos d) ltac:(lia)) as Hdm.
  pose proof (Z.mod_pos_bound n (Z.pos d) ltac:(lia)) as Hb.
  assert (n / Z.pos d <= z)%Z as Hle by (apply Z.div_le_upper_bound; lia).
  destruct (decide (n / Z.pos d = z)%Z) as [Heq|Hne].
  - rewrite <- Heq in H. assert (n mod Z.pos d = 0)%Z as -> by lia.
    change (2 * 0 ?= Z.pos d)%Z with Lt. cbv iota. lia.
  - destruct (2 * (n mod Z.pos d) ?= Z.pos d)%Z;
      [destruct (Z.even _) | |]; lia.
Qed.

(** [round(x)] is within one half of [x]. *)
Lemma py_round_near (x : Qc) :
  x - qc 0.5 <= of_Z (py_round x) ∧ of_Z (py_round x) <= x + qc 0.5.
Proof.
  to_Q. destruct x as [[n d] Hc]. unfold py_round. cbn [this Qnum Qden].
  pose proof (Z.div_mod n (Z.pos d) ltac:(lia)) as Hdm.
  pose proof (Z.mod_pos_bound n (Z.pos d) ltac:(lia)) as Hb.
  destruct (Z.compare_spec (2 * (n mod Z.pos d)) (Z.pos d)) as [He|Hl|Hg];
    [destruct (Z.even _) | |];
    unfold Qle, Qplus, Qminus, Qopp, inject_Z; cbn; nia.
Qed.

Lemma round1_ge (z : Z) (x : Qc) : of_Z z <= x -> of_Z z <= round1 x.
Proof.
  intros H.
  assert (10 * z <= py_round (x * qc 10))%Z as Hr.
  { apply py_round_ge. to_Q. rewrite inject_Z_mult. change (inject_Z 10) with 10%Q.
    generalize dependent (inject_Z z). intros q Hq. lra. }
  unfold round1. to_Q. unfold Qle. cbn. lia.
Qed.

Lemma round1_le (z : Z) (x : Qc) : x <= of_Z z -> round1 x <= of_Z z.
Proof.
  intros H.
  assert (py_round (x * qc 10) <= 10 * z)%Z as Hr.
  { apply py_round_le. to_Q. rewrite inject_Z_mult. change (inject_Z 10) with 10%Q.
    generalize dependent (inject_Z z). intros q Hq. lra. }
  unfold round1. to_Q. unfold Qle. cbn. lia.
Qed.

(** Clamping: [max(lo, min(hi, x))] lies in [[lo, hi]]. *)
Lemma clamp_range (lo hi x : Qc) :
  lo <= hi -> lo <= py_max lo (py_min hi x) ∧ py_max lo (py_min hi x) <= hi.
Proof.
  intros Hlh. unfold py_max, py_min.
  destruct (ltb x hi) eqn:E1; [apply ltb_true in E1 | apply ltb_false in E1].
  - destruct (ltb lo x) eqn:E2; [apply ltb_true in E2 | apply ltb_false in E2].
    + split; [by apply Qclt_le_weak | by apply Qclt_le_weak].
    + split; [apply Qcle_refl | done].
  - destruct (ltb lo hi) eqn:E2; [apply ltb_true in E2 | apply ltb_false in E2].
    + split; [done | apply Qcle_refl].
    + split; [apply Qcle_refl | done].
Qed.

End Rounding.

(** ** Caloric needs (recommendation_engine.py, progress_predictor.py) *)

Section CaloricNeeds.
Import RecommendationEngine.

Lemma multiplier_lookup (level : string) :
  default (qc 1.55) (Dict.get level activity_multipliers) = Stated.activity_multiplier level.
Proof.
  unfold activity_multipliers, Stated.activity_multiplier. cbn [Dict.get].
  repeat case_decide; reflexivity.
Qed.



End CaloricNeeds.

(** ** Insertion-ordered dicts *)

Section DictFacts.
Context {V : Type}.
Implicit Types (d : Dict.t V) (k : string) (v : V).

Lemma get_set_eq k v d : Dict.get k (Dict.set k v d) = Some v.
Proof.
  induction d as [|[k' v'] d IH]; cbn.
  - by rewrite decide_True.
  - destruct (decide (k = k')) as [->|Hne]; cbn.
    + by rewrite decide_True.
    + by rewrite decide_False.
Qed.

Lemma get_set_ne k k' v d : k ≠ k' -> Dict.get k (Dict.set k' v d) = Dict.get k d.
Proof.
  intros Hne. induction d as [|[k2 v2] d IH]; cbn.
  - by rewrite decide_False.
  - destruct (decide (k' = k2)) as [->|Hne2]; cbn.
    + by rewrite !decide_False.
    + destruct (decide (k = k2)); [done | exact IH].
Qed.

End DictFacts.

(** ** Nutritional gaps (nutrition_analyzer.py) *)

Section NutritionGaps.
Import NutritionAnalyzer.








Lemma present_Some (xs : list Qc) : present (Some <$> xs) = xs.
Proof. unfold present. induction xs; cbn; [done | by f_equal]. Qed.

(** The average intake is the mean of the per-date sums over the
    distinct dates, and is undefined only when there is no date. *)
Lemma average_intake_mean (c : column) (df : frame) :
  df ≠ [] ->
  average_intake c df = Some (total (daily_sums c df) / of_nat (length (dates df))).
Proof.
  intros Hne. unfold average_intake, series_mean. rewrite present_Some.
  unfold daily_sums. destruct (dates df) as [|d ds] eqn:E.
  - exfalso. destruct df as [|r df]; [done|].
    assert (date r ∈ dates (r :: df)) as Hin.
    { unfold dates. apply elem_of_remove_dups. cbn. left. }
    rewrite E in Hin. by apply elem_of_nil in Hin.
  - cbn [map length]. by rewrite length_map.
Qed.

Lemma analyze_food_logs_nonempty (df : frame) :
  df ≠ [] ->
  analyze_food_logs df =
    (let df' := final handle_missing_values df in
     let daily := calculate_daily_intake df' in
     let gaps := identify_nutritional_gaps daily in
     let pats := analyze_eating_patterns df' in
     (Analysis daily gaps pats (generate_nutrition_recommendations gaps pats), df')).
Proof.
  intros Hne. unfold analyze_food_logs, final.
  unfold mbind, state_bind, mret, state_ret, State.get.
  rewrite decide_False by done.
  by destruct (handle_missing_values df) as [[] df'].
Qed.

End NutritionGaps.

Section NutritionClaims.
Import NutritionAnalyzer.







(** On that log the protein average is 40, which is not below
    0.8 x 50 = 40: the entries are those of calories and fiber. *)
Example one_day_log_gaps :
  Dict.keys (identify_nutritional_gaps (calculate_daily_intake Samples.one_day_log))
  = ["calories"; "fiber"].
Proof. by vm_compute. Qed.

(** C5, as the code has it. On an empty food log [analyze_food_logs]
    returns, without touching the log, the canned default analysis:
    the daily intake is 0 for each of the five nutrients, the gaps are
    exactly those of calories, protein and fiber, each with current 0
    and deficit equal to its target (2000, 50, 25), and the
    recommendation list holds three generic strings (not four). *)
Theorem empty_food_log_default :
  analyze_food_logs [] = (get_default_analysis, [])
  ∧ (∀ c, Dict.get (name c) (daily_intake get_default_analysis) = Some (Some 0))
  ∧ Dict.keys (nutritional_gaps get_default_analysis) = ["calories"; "protein"; "fiber"]
  ∧ (∀ c, Dict.get (name c) (nutritional_gaps get_default_analysis)
          = match c with
            | Calories | Protein | Fiber => Some (Gap 0 (Stated.target c) (Stated.target c))
            | Carbs | Fat => None
            end)
  ∧ recommendations get_default_analysis
    = [lit "Start logging your food intake to get personalized recommendations";
       lit "Aim for balanced meals with protein, carbs, and healthy fats";
       lit "Include plenty of fruits and vegetables for fiber and micronutrients"]
  ∧ length (recommendations get_default_analysis) = 3%nat.
Proof.
  split; [reflexivity|]. split; [by intros []|]. split; [reflexivity|].
  split; [by intros []|]. split; reflexivity.
Qed.

(** C5 as stated fails on the count: the default analysis of the empty
    log has three recommendation strings. *)
Lemma empty_food_log_not_four_recommendations :
  length (recommendations (result analyze_food_logs [])) ≠ 4%nat.
Proof. vm_compute. discriminate. Qed.

End NutritionClaims.

(** ** Missing values (nutrition_analyzer.py) *)

Section MissingValues.
Import NutritionAnalyzer.

Implicit Types (df : frame) (c : column) (s : list (option Qc)).

Lemma cell_set_cell c v r : cell c (set_cell c v r) = v.
Proof. by destruct c. Qed.

Lemma cell_set_cell_ne c c' v r : c ≠ c' -> cell c' (set_cell c v r) = cell c' r.
Proof. by destruct c, c'. Qed.

Lemma labels_set_cell c v r : Stated.labels (set_cell c v r) = Stated.labels r.
Proof. by destruct c. Qed.

Lemma set_cell_id c r : set_cell c (cell c r) r = r.
Proof. by destruct c, r. Qed.

Lemma length_set_column c s df :
  length s = length df -> length (set_column c s df) = length df.
Proof. intros H. unfold set_column. rewrite length_zip_with. lia. Qed.

Lemma get_set_column c s df :
  length s = length df -> get_column c (set_column c s df) = s.
Proof.
  unfold get_column, set_column. revert s.
  induction df as [|r df IH]; intros [|v s] H; try done.
  cbn. rewrite cell_set_cell. f_equal. apply IH. by injection H.
Qed.

Lemma get_set_column_ne c c' s df :
  c ≠ c' -> length s = length df ->
  get_column c' (set_column c s df) = get_column c' df.
Proof.
  intros Hne. unfold get_column, set_column. revert s.
  induction df as [|r df IH]; intros [|v s] H; try done.
  cbn. rewrite cell_set_cell_ne by done. f_equal. apply IH. by injection H.
Qed.

Lemma labels_set_column c s df :
  length s = length df -> map Stated.labels (set_column c s df) = map Stated.labels df.
Proof.
  unfold set_column. revert s.
  induction df as [|r df IH]; intros [|v s] H; try done.
  cbn. rewrite labels_set_cell. f_equal. apply IH. by injection H.
Qed.

Lemma labels_food_item df1 df2 :
  map Stated.labels df1 = map Stated.labels df2 -> map food_item df1 = map food_item df2.
Proof.
  intros H. apply (f_equal (map (λ l, l.1.2))) in H.
  by rewrite !map_map in H.
Qed.

(** The per-item fill reads only the food items and the column itself. *)
Lemma get_column_filter_ext c item df1 df2 :
  map food_item df1 = map food_item df2 -> get_column c df1 = get_column c df2 ->
  get_column c (filter (λ r, food_item r = item) df1)
  = get_column c (filter (λ r, food_item r = item) df2).
Proof.
  revert df2. induction df1 as [|r1 df1 IH]; intros [|r2 df2] Hi Hc; try done.
  cbn in Hi, Hc. injection Hi as Hi1 Hi. injection Hc as Hc1 Hc.
  rewrite !filter_cons. rewrite <- Hi1.
  destruct (decide (food_item r1 = item)); cbn; [f_equal; [done|]|]; by apply IH.
Qed.

Lemma fill_by_item_spec c df : fill_by_item c df = Stated.impute_by_item c df.
Proof.
  unfold fill_by_item, Stated.impute_by_item, get_column, transform_mean.
  generalize (group_mean c df). intros g.
  induction df as [|r df IH]; [done|].
  cbn. rewrite IH. f_equal. by destruct (cell c r).
Qed.

Lemma impute_by_item_ext c df1 df2 :
  map food_item df1 = map food_item df2 -> get_column c df1 = get_column c df2 ->
  Stated.impute_by_item c df1 = Stated.impute_by_item c df2.
Proof.
  intros Hi Hc. unfold Stated.impute_by_item.
  assert (∀ item, group_mean c df1 item = group_mean c df2 item) as Hg.
  { intros item. unfold group_mean. by rewrite (get_column_filter_ext c item df1 df2). }
  revert Hi Hc. unfold get_column.
  generalize dependent (group_mean c df2). generalize (group_mean c df1).
  intros g1 g2 Hg. clear - Hg.
  revert df2. induction df1 as [|r1 df1 IH]; intros [|r2 df2] Hi Hc; try done.
  cbn in Hi, Hc. injection Hi as Hi1 Hi. injection Hc as Hc1 Hc.
  cbn. rewrite Hc1, Hi1, Hg. f_equal. by apply IH.
Qed.

Lemma length_impute_by_item c df : length (Stated.impute_by_item c df) = length df.
Proof. apply length_map. Qed.

Lemma length_impute c df : length (Stated.impute c df) = length df.
Proof. unfold Stated.impute. by rewrite length_map, length_impute_by_item. Qed.

(** The two assignments that [handle_missing_values] makes for one column. *)
Lemma column_step_spec c df :
  let df1 := set_column c (fill_by_item c df) df in
  let df2 := set_column c (fill_by_column c df1) df1 in
  get_column c df2 = Stated.impute c df
  ∧ (∀ c', c ≠ c' -> get_column c' df2 = get_column c' df)
  ∧ map Stated.labels df2 = map Stated.labels df
  ∧ length df2 = length df.
Proof.
  intros df1 df2.
  assert (length (fill_by_item c df) = length df) as Hl1.
  { rewrite fill_by_item_spec. apply length_impute_by_item. }
  assert (get_column c df1 = Stated.impute_by_item c df) as Hc1.
  { unfold df1. rewrite get_set_column by done. apply fill_by_item_spec. }
  assert (length df1 = length df) as Hdf1 by by apply length_set_column.
  assert (fill_by_column c df1 = Stated.impute c df) as Hf2.
  { unfold fill_by_column, Stated.impute. rewrite Hc1.
    apply map_ext. by intros []. }
  assert (length (fill_by_column c df1) = length df1) as Hl2.
  { rewrite Hf2, length_impute. done. }
  split; [|split; [|split]].
  - unfold df2. by rewrite get_set_column.
  - intros c' Hne. unfold df2, df1. by rewrite !get_set_column_ne.
  - unfold df2, df1. by rewrite !labels_set_column.
  - unfold df2. rewrite length_set_column; done.
Qed.

Lemma final_for_each_cons {S A} (x : A) (xs : list A) (body : A -> state S unit) (s : S) :
  final (for_each (x :: xs) body) s = final (for_each xs body) (final (body x) s).
Proof.
  unfold final. cbn [for_each]. unfold mbind, state_bind.
  by destruct (body x s).
Qed.

Lemma final_fill_column c df :
  final (fill_column c) df
  = set_column c (fill_by_column c (set_column c (fill_by_item c df) df))
      (set_column c (fill_by_item c df) df).
Proof. reflexivity. Qed.

Lemma impute_ext c df1 df2 :
  map food_item df1 = map food_item df2 -> get_column c df1 = get_column c df2 ->
  Stated.impute c df1 = Stated.impute c df2.
Proof.
  intros Hi Hc. unfold Stated.impute. by rewrite (impute_by_item_ext c df1 df2).
Qed.

Lemma for_each_fill_column cols df :
  NoDup cols ->
  (∀ c, get_column c (final (for_each cols fill_column) df)
        = if decide (c ∈ cols) then Stated.impute c df else get_column c df)
  ∧ map Stated.labels (final (for_each cols fill_column) df) = map Stated.labels df.
Proof.
  revert df. induction cols as [|c1 cols IH]; intros df Hnd.
  - split; [|done]. intros c. rewrite decide_False; [done | apply not_elem_of_nil].
  - apply NoDup_cons in Hnd as [Hc1 Hnd].
    rewrite final_for_each_cons.
    destruct (column_step_spec c1 df) as (Hsame & Hother & Hlab & _).
    rewrite <- final_fill_column in Hsame, Hother, Hlab.
    destruct (IH (final (fill_column c1) df) Hnd) as [IHc IHl].
    split; [|by rewrite IHl].
    intros c. rewrite IHc. destruct (decide (c = c1)) as [->|Hne].
    + rewrite decide_False by done. rewrite decide_True by left. done.
    + rewrite Hother by done.
      destruct (decide (c ∈ cols)) as [Hin|Hin].
      * rewrite decide_True by by right.
        apply impute_ext; [by apply labels_food_item | by apply Hother].
      * rewrite decide_False; [done|].
        intros [?|?]%elem_of_cons; done.
Qed.

(** What [handle_missing_values] leaves in the caller's frame. *)
Lemma handle_missing_values_spec df :
  (∀ c, get_column c (final handle_missing_values df) = Stated.impute c df)
  ∧ map Stated.labels (final handle_missing_values df) = map Stated.labels df.
Proof.
  destruct (for_each_fill_column numeric_columns df) as [Hc Hl]; [compute_done|].
  split; [|exact Hl].
  intros c. unfold handle_missing_values. rewrite Hc.
  rewrite decide_True; [done|]. destruct c; compute_done.
Qed.

Lemma length_handle_missing_values df :
  length (final handle_missing_values df) = length df.
Proof.
  destruct (handle_missing_values_spec df) as [_ Hl].
  apply (f_equal length) in Hl. by rewrite !length_map in Hl.
Qed.

(** A frame is its labels and its five macro columns. *)
Lemma frame_ext df1 df2 :
  map Stated.labels df1 = map Stated.labels df2 ->
  (∀ c, get_column c df1 = get_column c df2) -> df1 = df2.
Proof.
  revert df2. induction df1 as [|r1 df1 IH]; intros [|r2 df2] Hl Hc; try done.
  cbn in Hl. injection Hl as Hr Hl.
  f_equal.
  - pose proof (Hc Calories) as Ha. pose proof (Hc Protein) as Hb.
    pose proof (Hc Carbs) as Hd. pose proof (Hc Fat) as He.
    pose proof (Hc Fiber) as Hf.
    destruct r1, r2. unfold Stated.labels, get_column in *. cbn in *. congruence.
  - apply IH; [done|]. intros c. specialize (Hc c).
    unfold get_column in *. cbn in Hc. congruence.
Qed.

Lemma lookup_get_column c df i r :
  df !! i = Some r -> get_column c df !! i = Some (cell c r).
Proof. intros H. unfold get_column. by rewrite list_lookup_fmap, H. Qed.

Lemma lookup_impute_by_item c df i r :
  df !! i = Some r ->
  Stated.impute_by_item c df !! i
  = Some (match cell c r with
          | Some v => Some v
          | None => group_mean c df (food_item r)
          end).
Proof. intros H. unfold Stated.impute_by_item. by rewrite list_lookup_fmap, H. Qed.

Lemma lookup_impute c df i r :
  df !! i = Some r ->
  Stated.impute c df !! i
  = Some (match cell c r with
          | Some v => Some v
          | None =>
              match group_mean c df (food_item r) with
              | Some m => Some m
              | None => series_mean (Stated.impute_by_item c df)
              end
          end).
Proof.
  intros H. unfold Stated.impute.
  rewrite list_lookup_fmap, (lookup_impute_by_item c df i r H). cbn.
  destruct (cell c r); [done|]. by destruct (group_mean _ _ _).
Qed.

Lemma handle_missing_values_lookup df c i r :
  df !! i = Some r ->
  ∃ r', final handle_missing_values df !! i = Some r'
    ∧ Stated.labels r' = Stated.labels r
    ∧ cell c r' =
        match cell c r with
        | Some v => Some v
        | None =>
            match group_mean c df (food_item r) with
            | Some m => Some m
            | None => series_mean (Stated.impute_by_item c df)
            end
        end.
Proof.
  intros Hi.
  destruct (handle_missing_values_spec df) as [Hcol Hlab].
  pose proof (length_handle_missing_values df) as Hlen.
  destruct (final handle_missing_values df !! i) as [r'|] eqn:Hi'.
  2:{ apply lookup_ge_None in Hi'. apply lookup_lt_Some in Hi. lia. }
  exists r'. split; [done|]. split.
  - apply (f_equal (λ l, l !! i)) in Hlab.
    rewrite !list_lookup_fmap, Hi, Hi' in Hlab. cbn in Hlab. congruence.
  - pose proof (lookup_get_column c _ i r' Hi') as Hg.
    rewrite Hcol, (lookup_impute c df i r Hi) in Hg. congruence.
Qed.

End MissingValues.

Section MissingValueClaims.
Import NutritionAnalyzer.

Lemma present_all_missing (s : list (option Qc)) :
  Forall (λ x, x = None) s -> present s = [].
Proof. unfold present. induction 1 as [|x s -> _ IH]; [done|]. exact IH. Qed.

Lemma get_column_all_missing c (df : frame) :
  (∀ r, r ∈ df -> cell c r = None) -> Forall (λ x, x = None) (get_column c df).
Proof.
  intros H. unfold get_column. apply Forall_fmap, Forall_forall.
  intros r Hr. by apply H.
Qed.

Lemma impute_all_missing c (df : frame) :
  (∀ r, r ∈ df -> cell c r = None) -> Stated.impute c df = map (λ _, None) df.
Proof.
  intros H.
  assert (Stated.impute_by_item c df = map (λ _, None) df) as Hi.
  { unfold Stated.impute_by_item. apply map_ext_in. intros r Hr.
    apply list_elem_of_In in Hr. rewrite (H r Hr).
    unfold group_mean, series_mean. rewrite present_all_missing; [done|].
    apply get_column_all_missing. intros r' Hr'.
    apply list_elem_of_filter in Hr' as [_ Hr']. by apply H. }
  unfold Stated.impute. rewrite Hi, map_map.
  apply map_ext. intros _. unfold series_mean.
  rewrite present_all_missing; [done|].
  apply Forall_fmap, Forall_forall. by intros.
Qed.

Lemma total_zeros {A} (l : list A) : total (map (λ _, 0) l) = 0.
Proof.
  induction l as [|a l IH]; [done|].
  change (total (map (λ _, 0) (a :: l))) with (0 + total (map (λ _ : A, 0) l)).
  rewrite IH. apply Qcplus_0_l.
Qed.

Lemma average_all_missing c (df : frame) :
  df ≠ [] -> (∀ r, r ∈ df -> cell c r = None) -> average_intake c df = Some 0.
Proof.
  intros Hne H. rewrite average_intake_mean by done. f_equal.
  unfold daily_sums.
  rewrite (map_ext _ (λ _, 0)).
  - rewrite total_zeros. unfold Qcdiv. apply Qcmult_0_l.
  - intros d. unfold series_sum. rewrite present_all_missing; [done|].
    apply get_column_all_missing. intros r Hr.
    apply list_elem_of_filter in Hr as [_ Hr]. by apply H.
Qed.

(** C6, as the code has it. In [handle_missing_values], for each macro
    column: a value that is present is kept; a missing value takes the
    mean of the present values of the entries with the same food item;
    a value still missing takes the mean of the column as it stands
    after that first pass; the other fields and the number of rows do
    not change. When the whole column is missing there is no mean to
    fill with and every value stays missing (it does not become 0); the
    per-date sums skip missing values, so the average daily intake of
    that nutrient then is 0. *)
Theorem missing_values_imputed (df : frame) (c : column) :
  let df' := final handle_missing_values df in
  length df' = length df
  ∧ get_column c df' = Stated.impute c df
  ∧ (∀ i r, df !! i = Some r ->
       ∃ r', df' !! i = Some r' ∧ Stated.labels r' = Stated.labels r
         ∧ cell c r' =
             match cell c r with
             | Some v => Some v
             | None =>
                 match group_mean c df (food_item r) with
                 | Some m => Some m
                 | None => series_mean (Stated.impute_by_item c df)
                 end
             end)
  ∧ ((∀ r, r ∈ df -> cell c r = None) ->
       (∀ r', r' ∈ df' -> cell c r' = None)
       ∧ (df ≠ [] -> average_intake c df' = Some 0)).
Proof.
  intros df'.
  destruct (handle_missing_values_spec df) as [Hcol Hlab]. fold df' in Hcol, Hlab.
  pose proof (length_handle_missing_values df) as Hlen. fold df' in Hlen.
  split; [exact Hlen|]. split; [apply Hcol|]. split.
  - intros i r Hi. by apply handle_missing_values_lookup.
  - intros Hall.
    assert (∀ r', r' ∈ df' -> cell c r' = None) as Hall'.
    { intros r' Hr'. apply list_elem_of_lookup in Hr' as [i Hi'].
      pose proof (lookup_get_column c df' i r' Hi') as Hg.
      rewrite Hcol, (impute_all_missing c df Hall), list_lookup_fmap in Hg.
      destruct (df !! i); cbn in Hg; congruence. }
    split; [exact Hall'|].
    intros Hne. apply average_all_missing; [|exact Hall'].
    intros E. apply (f_equal length) in E. rewrite Hlen in E.
    by destruct df.
Qed.

Lemma missing_values_imputed_witness :
  (∀ r, r ∈ Samples.partly_missing_log -> cell Fiber r = None)
  ∧ Samples.partly_missing_log ≠ []
  ∧ average_intake Fiber (final handle_missing_values Samples.partly_missing_log) = Some 0.
Proof.
  assert (∀ r, r ∈ Samples.partly_missing_log -> cell Fiber r = None) as Hall.
  { intros r Hr. unfold Samples.partly_missing_log in Hr.
    repeat (apply elem_of_cons in Hr as [->|Hr]; [reflexivity|]).
    by apply elem_of_nil in Hr. }
  split; [exact Hall|]. split; [done|].
  destruct (missing_values_imputed Samples.partly_missing_log Fiber) as (_ & _ & _ & Hm).
  destruct (Hm Hall) as [_ Havg]. by apply Havg.
Defined.

(** On the sample the missing protein value takes the mean of its food
    item, 10. *)
Example partly_missing_protein :
  get_column Protein (final handle_missing_values Samples.partly_missing_log)
  = [Some (qc 10); Some (qc 10)].
Proof.
  destruct (handle_missing_values_spec Samples.partly_missing_log) as [-> _].
  cbn. repeat f_equal; by apply Qc_is_canon.
Qed.

(** C6 as stated fails on its last part: a column that is missing in
    every row stays missing, it does not become 0. *)
Lemma empty_column_stays_missing :
  (∀ r, r ∈ Samples.partly_missing_log -> cell Fiber r = None)
  ∧ get_column Fiber (final handle_missing_values Samples.partly_missing_log)
    = [None; None]
  ∧ get_column Fiber (final handle_missing_values Samples.partly_missing_log)
    ≠ [Some 0; Some 0].
Proof.
  split.
  { intros r Hr. unfold Samples.partly_missing_log in Hr.
    repeat (apply elem_of_cons in Hr as [->|Hr]; [reflexivity|]).
    by apply elem_of_nil in Hr. }
  assert (get_column Fiber (final handle_missing_values Samples.partly_missing_log)
          = [None; None]) as E by by vm_compute.
  split; [exact E|]. rewrite E. discriminate.
Qed.

End MissingValueClaims.

(** ** Activity analysis (activity_tracker.py) *)

Section Activity.
Import ActivityTracker.

Implicit Types (self : tracker) (df : frame) (user_weight : Qc).

Lemma final_calculate_calories_burned self user_weight df :
  final (calculate_calories_burned self user_weight) df
  = if needs_calories df
    then Frame (rows df)
           (Some (map (λ row, Some (calc_calories self user_weight row)) (rows df)))
    else df.
Proof.
  unfold final, calculate_calories_burned, mbind, state_bind, State.get.
  by destruct (needs_calories df).
Qed.

Lemma rows_calculate_calories_burned self user_weight df :
  rows (final (calculate_calories_burned self user_weight) df) = rows df.
Proof. rewrite final_calculate_calories_burned. by destruct (needs_calories df). Qed.

Lemma analyze_activity_logs_nonempty self user_weight df :
  rows df ≠ [] ->
  analyze_activity_logs self user_weight df =
    (let df' := final (calculate_calories_burned self user_weight) df in
     let pats := analyze_activity_patterns df' in
     let gaps := identify_fitness_gaps self df' in
     (Analysis pats gaps (generate_exercise_recommendations pats gaps)
        (from_option series_sum 0 (calories_burned df')), df')).
Proof.
  intros Hne. unfold analyze_activity_logs, final.
  unfold mbind, state_bind, mret, state_ret, State.get.
  rewrite decide_False by done.
  by destruct (calculate_calories_burned self user_weight df) as [[] df'].
Qed.

Lemma analyze_activity_logs_empty self user_weight df :
  rows df = [] -> analyze_activity_logs self user_weight df = (get_default_analysis, df).
Proof.
  intros He. unfold analyze_activity_logs, mbind, state_bind, mret, state_ret, State.get.
  by rewrite decide_True.
Qed.





Lemma all_missing_spec (col : list (option Qc)) :
  all_missing col = true ↔ ∀ x, x ∈ col -> x = None.
Proof.
  unfold all_missing. rewrite forallb_forall. split.
  - intros H x Hx. apply list_elem_of_In in Hx. apply H in Hx.
    by apply bool_decide_eq_true in Hx.
  - intros H x Hx. apply bool_decide_eq_true, H. by apply list_elem_of_In.
Qed.

End Activity.

Section ActivityClaims.
Import ActivityTracker.

Implicit Types (self : tracker) (df : frame) (user_weight : Qc).

(** C3, as the code has it. The fallback is all or nothing. When the
    [calories_burned] column is absent, or every value in it is
    missing, the analyzer writes for every entry
    MET(exercise_type) x weight_kg x (duration_min / 60), with the MET
    looked up in the MET table and 5.0 for a type that is not in it.
    When at least one value of the column is populated the analyzer
    computes nothing: the column is kept, its missing entries
    included. [analyze_activity_logs] does exactly this on a non-empty
    log. *)
Theorem calories_fallback_all_or_nothing self user_weight df :
  let df' := final (calculate_calories_burned self user_weight) df in
  let formula := λ row,
    default (qc 5.0) (load_met_values self !! Log.exercise_type row)
    * user_weight * (Log.duration row / qc 60) in
  rows df' = rows df
  ∧ (needs_calories df = true
     ↔ calories_burned df = None
       ∨ ∃ col, calories_burned df = Some col ∧ ∀ x, x ∈ col -> x = None)
  ∧ (needs_calories df = true ->
       ∃ col, calories_burned df' = Some col ∧ length col = length (rows df)
         ∧ ∀ i row, rows df !! i = Some row -> col !! i = Some (Some (formula row)))
  ∧ (needs_calories df = false -> df' = df)
  ∧ (rows df ≠ [] -> final (analyze_activity_logs self user_weight) df = df').
Proof.
  intros df' formula. subst df'.
  split; [apply rows_calculate_calories_burned|]. split; [|split; [|split]].
  - unfold needs_calories. destruct (calories_burned df) as [col|].
    + rewrite all_missing_spec. split.
      * intros H. right. by exists col.
      * intros [?|(col' & [= <-] & H)]; done.
    + split; [by left | done].
  - intros Hn. rewrite final_calculate_calories_burned, Hn. cbn.
    eexists. split; [done|]. split; [by rewrite length_map|].
    intros i row Hi. by rewrite list_lookup_fmap, Hi.
  - intros Hn. by rewrite final_calculate_calories_burned, Hn.
  - intros Hne. unfold final at 1. by rewrite analyze_activity_logs_nonempty.
Qed.

Lemma calories_fallback_all_or_nothing_witness :
  needs_calories Samples.sessions_without_calories = true
  ∧ ∃ col,
      calories_burned
        (final (calculate_calories_burned Samples.sample_tracker (qc 70))
           Samples.sessions_without_calories) = Some col
      ∧ col !! 1%nat
        = Some (Some (default (qc 5.0)
                        (load_met_values Samples.sample_tracker !! "Parkour")
                      * qc 70 * (qc 60 / qc 60))).
Proof.
  split; [reflexivity|].
  destruct (calories_fallback_all_or_nothing Samples.sample_tracker (qc 70)
              Samples.sessions_without_calories) as (_ & _ & Hc & _).
  destruct (Hc eq_refl) as (col & Hcol & _ & Hf).
  exists col. split; [exact Hcol|].
  apply (Hf 1%nat (Log.Row "2024-01-02" "Parkour" (qc 60) "High")). reflexivity.
Defined.

(** The MET of the sample table for yoga is 2.5; a type that the table
    does not have gets 5.0. *)
Example met_lookup_sample :
  load_met_values Samples.sample_tracker !! "Yoga" = Some (qc 2.5)
  ∧ default (qc 5.0) (load_met_values Samples.sample_tracker !! "Parkour") = qc 5.0.
Proof. split; by vm_compute. Qed.

(** C3 as stated fails per entry: in a log whose second entry has its
    calories recorded, the first entry, which has none, keeps its
    missing value; the formula would give 2.5 x 70 x 0.5 = 87.5. *)
Lemma missing_entry_not_computed :
  calories_burned Samples.sessions_partly_recorded = Some [None; Some (qc 400)]
  ∧ calories_burned
      (final (analyze_activity_logs Samples.sample_tracker (qc 70))
         Samples.sessions_partly_recorded)
    = Some [None; Some (qc 400)]
  ∧ calc_calories Samples.sample_tracker (qc 70)
      (Log.Row "2024-01-01" "Yoga" (qc 30) "Low") = qc 87.5.
Proof.
  split; [reflexivity|]. split; [by vm_compute|].
  apply Qc_is_canon. by vm_compute.
Qed.

Lemma of_nat_0 : of_nat 0 = 0.
Proof. by apply Qc_is_canon. Qed.



(** The sample log has one yoga session, so no flexibility gap. *)
Example one_yoga_session_no_gap :
  sessions "Flexibility" (merge_category Samples.sample_tracker Samples.sessions_no_column)
  = 1%nat
  ∧ Dict.keys (identify_fitness_gaps Samples.sample_tracker Samples.sessions_no_column)
    = ["cardio_duration"; "exercise_variety"; "strength_training"].
Proof. split; by vm_compute. Qed.



End ActivityClaims.

(** ** Effects on the caller's logs *)

Section FrameEffects.

Lemma impute_no_missing (c : NutritionAnalyzer.column) (df : NutritionAnalyzer.frame) :
  (∀ r, r ∈ df -> NutritionAnalyzer.cell c r ≠ None) ->
  Stated.impute c df = NutritionAnalyzer.get_column c df.
Proof.
  intros H. unfold Stated.impute, Stated.impute_by_item, NutritionAnalyzer.get_column.
  rewrite map_map. apply map_ext_in. intros r Hr.
  apply list_elem_of_In, H in Hr. by destruct (NutritionAnalyzer.cell c r).
Qed.

(** C9, as the code has it. The analyzers write into the logs they are
    given. [analyze_food_logs] leaves the number of rows, the non-macro
    fields and every macro value that is present as they were, and
    fills the missing macro values of the caller's log in place; the
    log is unchanged when it is empty or has no missing macro value.
    [analyze_activity_logs] leaves the rows as they were and, on a
    non-empty log whose [calories_burned] column is absent or entirely
    missing, writes the computed column into the caller's log; the log
    is unchanged when it is empty or has a populated value. *)
Theorem analyzers_write_into_logs
    (food : NutritionAnalyzer.frame)
    (self : ActivityTracker.tracker) (user_weight : Qc)
    (exercise : ActivityTracker.frame) :
  let food' := final NutritionAnalyzer.analyze_food_logs food in
  let exercise' := final (ActivityTracker.analyze_activity_logs self user_weight) exercise in
  (map Stated.labels food' = map Stated.labels food
   ∧ (∀ c i r v, food !! i = Some r -> NutritionAnalyzer.cell c r = Some v ->
        ∃ r', food' !! i = Some r' ∧ NutritionAnalyzer.cell c r' = Some v)
   ∧ (∀ c, NutritionAnalyzer.get_column c food' = Stated.impute c food)
   ∧ ((∀ c r, r ∈ food -> NutritionAnalyzer.cell c r ≠ None) -> food' = food))
  ∧ (ActivityTracker.rows exercise' = ActivityTracker.rows exercise
     ∧ (ActivityTracker.rows exercise = []
        ∨ ActivityTracker.needs_calories exercise = false -> exercise' = exercise)
     ∧ (ActivityTracker.rows exercise ≠ [] ->
        ActivityTracker.needs_calories exercise = true ->
        ActivityTracker.calories_burned exercise'
        = Some (map (λ row, Some (ActivityTracker.calc_calories self user_weight row))
                  (ActivityTracker.rows exercise)))).
Proof.
  intros food' exercise'. split.
  - assert (food' = final NutritionAnalyzer.handle_missing_values food) as Hf.
    { subst food'. destruct food as [|r food]; [reflexivity|].
      unfold final at 1. by rewrite analyze_food_logs_nonempty. }
    destruct (handle_missing_values_spec food) as [Hcol Hlab].
    rewrite <- Hf in Hcol, Hlab.
    split; [exact Hlab|]. split; [|split; [exact Hcol|]].
    + intros c i r v Hi Hv.
      destruct (handle_missing_values_lookup food c i r Hi) as (r' & Hi' & _ & Hc).
      exists r'. rewrite <- Hf in Hi'. split; [exact Hi'|]. by rewrite Hc, Hv.
    + intros Hall. apply frame_ext; [exact Hlab|].
      intros c. rewrite Hcol. apply impute_no_missing. intros r Hr. by apply Hall.
  - subst exercise'.
    destruct (decide (ActivityTracker.rows exercise = [])) as [He|Hne].
    + unfold final. rewrite analyze_activity_logs_empty by done. cbn.
      split; [done|]. split; [done|]. done.
    + unfold final at 1 2 3. rewrite analyze_activity_logs_nonempty by done. cbn.
      rewrite final_calculate_calories_burned.
      destruct (ActivityTracker.needs_calories exercise) eqn:En.
      * split; [done|]. split; [by intros [?|?]|]. done.
      * split; [done|]. split; [done|]. done.
Qed.

Lemma analyzers_write_into_logs_witness :
  (∀ c r, r ∈ Samples.one_day_log -> NutritionAnalyzer.cell c r ≠ None)
  ∧ final NutritionAnalyzer.analyze_food_logs Samples.one_day_log = Samples.one_day_log.
Proof.
  assert (∀ c r, r ∈ Samples.one_day_log -> NutritionAnalyzer.cell c r ≠ None) as Hall.
  { intros c r Hr. unfold Samples.one_day_log in Hr.
    repeat (apply elem_of_cons in Hr as [->|Hr]; [by destruct c|]).
    by apply elem_of_nil in Hr. }
  split; [exact Hall|].
  destruct (analyzers_write_into_logs Samples.one_day_log Samples.sample_tracker
              (qc 70) Samples.sessions_no_column) as [(_ & _ & _ & H) _].
  exact (H Hall).
Defined.

(** C9 as stated fails: after the analysis the caller's food log has
    its missing protein value filled in, and the caller's exercise log
    has gained a [calories_burned] column. *)
Lemma analyzers_change_the_logs :
  final NutritionAnalyzer.analyze_food_logs Samples.partly_missing_log
    ≠ Samples.partly_missing_log
  ∧ final (ActivityTracker.analyze_activity_logs Samples.sample_tracker (qc 70))
      Samples.sessions_no_column
    ≠ Samples.sessions_no_column.
Proof.
  split.
  - intros H. apply (f_equal (NutritionAnalyzer.get_column NutritionAnalyzer.Protein)) in H.
    vm_compute in H. discriminate.
  - intros H. apply (f_equal ActivityTracker.calories_burned) in H.
    vm_compute in H. discriminate.
Qed.

End FrameEffects.

(** ** Progress projection (progress_predictor.py) *)

Section Projection.
Import ProgressPredictor.

Implicit Types (self : predictor) (ud : user_data) (np : nutrition_plan) (ep : exercise_plan).

Lemma str_nat_inj (n m : nat) : str_nat n = str_nat m -> n = m.
Proof.
  unfold str_nat. intros H.
  apply (f_equal NilEmpty.uint_of_string) in H. rewrite !NilEmpty.usu in H.
  injection H as H. apply (f_equal Nat.of_uint) in H.
  by rewrite !Unsigned.of_to in H.
Qed.

Lemma week_key_inj (n m : nat) : week_key n = week_key m -> n = m.
Proof. unfold week_key. intros H. apply String.app_inj in H. by apply str_nat_inj. Qed.

Lemma squared_height_nonzero (h : Qc) : h ≠ 0 -> (h / qc 100) * (h / qc 100) ≠ 0.
Proof.
  intros Hh H.
  assert (h / qc 100 = 0) as H0 by (apply Qcmult_integral in H; tauto).
  unfold Qcdiv in H0. apply Qcmult_integral in H0 as [H0|H0]; [done|].
  apply (f_equal this) in H0. vm_compute in H0. discriminate.
Qed.

Lemma py_div_nonzero (x y : Qc) : y ≠ 0 -> py_div x y = Some (x / y).
Proof. intros H. unfold py_div. by rewrite decide_False. Qed.

(** Feature preparation succeeds when the height is not 0. *)
Lemma prepare_prediction_features_is_Some ud np ep cw ce :
  default (qc 170) (User.height ud) ≠ 0 ->
  is_Some (prepare_prediction_features ud np ep cw ce).
Proof.
  intros Hh. unfold prepare_prediction_features.
  rewrite py_div_nonzero by by apply squared_height_nonzero.
  cbn. destruct (estimate_exercise_from_plan ep) as [[? ?] ?]. by eexists.
Qed.

Lemma clamp_round1_range (lo hi : Z) (x : Qc) :
  (lo <= hi)%Z ->
  of_Z lo <= round1 (py_max (of_Z lo) (py_min (of_Z hi) x))
  ∧ round1 (py_max (of_Z lo) (py_min (of_Z hi) x)) <= of_Z hi.
Proof.
  intros Hlh.
  assert (of_Z lo <= of_Z hi) as Hq.
  { to_Q. by rewrite <- Zle_Qle. }
  destruct (clamp_range (of_Z lo) (of_Z hi) x Hq) as [H1 H2].
  split; [by apply round1_ge | by apply round1_le].
Qed.

(** One iteration of the trained loop, when the height is not 0: the
    week's entry is either the default one, with the carried weight and
    energy unchanged, or a clamped prediction. *)
Lemma week_step_cases self ud np ep st w :
  default (qc 170) (User.height ud) ≠ 0 ->
  ∃ f e st',
    prepare_prediction_features ud np ep (current_weight st) (current_energy st) = Some f
    ∧ week_step self ud np ep st w = Some st'
    ∧ predictions st' = <[week_key w := e]> (predictions st)
    ∧ (predict self f = None ->
         e = get_default_week_prediction (current_weight st) w
         ∧ current_weight st' = current_weight st
         ∧ current_energy st' = current_energy st)
    ∧ (is_Some (predict self f) -> Stated.plausible e).
Proof.
  intros Hh.
  destruct (prepare_prediction_features_is_Some ud np ep
              (current_weight st) (current_energy st) Hh) as [f Hf].
  unfold week_step. rewrite Hf. cbn [mbind option_bind].
  destruct (predict self f) as [[[pw pb] pe]|] eqn:Hp.
  - eexists f, _, _. split; [done|]. split; [done|]. split; [done|].
    split; [intros E; congruence|]. intros _. unfold Stated.plausible. cbn [weight bmi].
    change (qc 30) with (of_Z 30). change (qc 200) with (of_Z 200).
    change (qc 15) with (of_Z 15). change (qc 50) with (of_Z 50).
    destruct (clamp_round1_range 30 200 pw) as [? ?]; [lia|].
    destruct (clamp_round1_range 15 50 pb) as [? ?]; [lia|].
    done.
  - eexists f, _, _. split; [done|]. split; [done|]. split; [done|].
    split; [done|]. rewrite Hp. by intros [? ?].
Qed.

Lemma run_weeks_app self ud np ep l1 l2 st :
  run_weeks self ud np ep (l1 ++ l2) st
  = run_weeks self ud np ep l1 st ≫= run_weeks self ud np ep l2.
Proof.
  revert st. induction l1 as [|w l1 IH]; intros st; [done|].
  cbn [app run_weeks]. destruct (week_step self ud np ep st w) as [st'|]; [|done].
  cbn. apply IH.
Qed.


(** The state after the first [n] weeks. *)
Lemma run_weeks_prefix self ud np ep n :
  default (qc 170) (User.height ud) ≠ 0 ->
  ∃ st, run_weeks self ud np ep (seq 1 n) (initial_state ud) = Some st
    ∧ size (predictions st) = n
    ∧ (∀ k, is_Some (predictions st !! k) ↔ ∃ w, (1 <= w <= n)%nat ∧ k = week_key w).
Proof.
  intros Hh. induction n as [|n (st & Hr & Hsz & Hdom)].
  - exists (initial_state ud). split; [done|]. split; [done|].
    intros k. cbn. rewrite lookup_empty. split; [by intros [? ?]|].
    intros (w & ? & _). lia.
  - destruct (week_step_cases self ud np ep st (S n) Hh)
      as (f & e & st' & _ & Hs & Hp & _).
    exists st'. split; [|split].
    + rewrite seq_S, run_weeks_app, Hr. cbn. by rewrite Hs.
    + rewrite Hp, map_size_insert_None; [by rewrite Hsz|].
      apply eq_None_not_Some. rewrite Hdom. intros (w & Hw & E).
      apply week_key_inj in E. lia.
    + intros k. rewrite Hp. destruct (decide (k = week_key (S n))) as [->|Hne].
      * rewrite lookup_insert_eq. split; [|by eexists].
        intros _. exists (S n). split; [lia | done].
      * rewrite lookup_insert_ne by done. rewrite Hdom. split.
        -- intros (w & Hw & E). exists w. split; [lia | done].
        -- intros (w & Hw & E). exists w. split; [|done].
           destruct (decide (w = S n)) as [->|]; [done | lia].
Qed.


Lemma default_loop_app ud cw l1 l2 preds :
  default_loop ud cw (l1 ++ l2) preds
  = default_loop ud cw l1 preds ≫= default_loop ud cw l2.
Proof.
  revert preds. induction l1 as [|w l1 IH]; intros preds; [done|].
  cbn [app default_loop]. destruct (py_div _ _) as [b|]; [|done].
  cbn. apply IH.
Qed.

(** The untrained loop over the first [n] weeks. *)
Lemma default_loop_prefix ud n :
  let start := default (qc 70) (User.weight ud) in
  let height := default (qc 170) (User.height ud) in
  height ≠ 0 ->
  ∃ preds, default_loop ud start (seq 1 n) ∅ = Some preds
    ∧ size preds = n
    ∧ (∀ k, is_Some (preds !! k) ↔ ∃ w, (1 <= w <= n)%nat ∧ k = week_key w)
    ∧ (∀ w, (1 <= w <= n)%nat ->
         preds !! week_key w = Some (Stated.linear_entry start height w)).
Proof.
  intros start height Hh. induction n as [|n (preds & Hr & Hsz & Hdom & Hval)].
  - exists ∅. split; [done|]. split; [done|]. split.
    + intros k. rewrite lookup_empty. split; [by intros [? ?]|].
      intros (w & ? & _). lia.
    + intros w ?. lia.
  - exists (<[week_key (S n) := Stated.linear_entry start height (S n)]> preds).
    assert (preds !! week_key (S n) = None) as Hfresh.
    { apply eq_None_not_Some. rewrite Hdom. intros (w & Hw & E).
      apply week_key_inj in E. lia. }
    split; [|split; [|split]].
    + rewrite seq_S, default_loop_app, Hr. cbn [mbind option_bind default_loop].
      fold height. rewrite py_div_nonzero by by apply squared_height_nonzero.
      reflexivity.
    + by rewrite map_size_insert_None, Hsz.
    + intros k. destruct (decide (k = week_key (S n))) as [->|Hne].
      * rewrite lookup_insert_eq. split; [|by eexists].
        intros _. exists (S n). split; [lia | done].
      * rewrite lookup_insert_ne by done. rewrite Hdom. split.
        -- intros (w & Hw & E). exists w. split; [lia | done].
        -- intros (w & Hw & E). exists w. split; [|done].
           destruct (decide (w = S n)) as [->|]; [done | lia].
    + intros w Hw. destruct (decide (w = S n)) as [->|Hne].
      * apply lookup_insert_eq.
      * rewrite lookup_insert_ne; [apply Hval; lia|].
        intros E. by apply week_key_inj in E.
Qed.

End Projection.

Section ProjectionClaims.
Import ProgressPredictor.

Implicit Types (self : predictor) (ud : user_data) (np : nutrition_plan) (ep : exercise_plan).







End ProjectionClaims.

(** * Further properties of the code *)

(** ** Gap entries *)

Section GapEntries.

Lemma get_Some_elem {V} (k : string) (v : V) (d : Dict.t V) :
  Dict.get k d = Some v -> (k, v) ∈ d.
Proof.
  induction d as [|[k' v'] d IH]; cbn; [done|].
  destruct (decide (k = k')) as [->|Hne].
  - intros [= ->]. left.
  - intros H. right. by apply IH.
Qed.

Lemma Forall_set {V} (P : string * V -> Prop) (k : string) (v : V) (d : Dict.t V) :
  P (k, v) -> Forall P d -> Forall P (Dict.set k v d).
Proof.
  intros Hv. induction 1 as [|[k' v'] d Hx Hd IH]; cbn.
  - by apply Forall_singleton.
  - destruct (decide (k = k')) as [->|Hne]; by apply Forall_cons.
Qed.

Lemma recommended_nonneg (k : string) :
  0 <= default 0 (Dict.get k NutritionAnalyzer.recommended_values).
Proof.
  unfold NutritionAnalyzer.recommended_values. cbn [Dict.get].
  repeat case_decide; by vm_compute.
Qed.

Lemma deficit_positive (cur rec : Qc) : 0 <= rec -> cur < rec * qc 0.8 -> 0 < rec - cur.
Proof. intros H1 H2. to_Q. lra. Qed.

Lemma foldl_gap_step_Forall (P : string * gap -> Prop) items gaps :
  (∀ k cur,
     let rec := default 0 (Dict.get k NutritionAnalyzer.recommended_values) in
     cur < rec * qc 0.8 -> P (k, Gap cur rec (rec - cur))) ->
  Forall P gaps -> Forall P (foldl NutritionAnalyzer.gap_step gaps items).
Proof.
  intros HP. revert gaps. induction items as [|[k [cur|]] items IH]; intros gaps Hg;
    cbn [foldl]; [done| |by apply IH].
  apply IH. unfold NutritionAnalyzer.gap_step.
  destruct (ltb _ _) eqn:E; [|done].
  apply Forall_set; [|done]. apply HP. by apply ltb_true.
Qed.

(** X1. Whatever intake dict it is given, [identify_nutritional_gaps]
    only stores well-formed entries: the recommended value is that of
    the target table for the key (0 for a key that is not in the table),
    the current value is below 80 percent of it, the deficit is
    recommended - current, and the deficit is strictly positive. *)
Theorem nutritional_gap_entries_sound
    (daily_intake : Dict.t (option Qc)) (k : string) (g : gap) :
  Dict.get k (NutritionAnalyzer.identify_nutritional_gaps daily_intake) = Some g ->
  recommended g = default 0 (Dict.get k NutritionAnalyzer.recommended_values)
  ∧ current g < recommended g * qc 0.8
  ∧ deficit g = recommended g - current g
  ∧ 0 < deficit g.
Proof.
  intros Hg. apply get_Some_elem in Hg.
  unfold NutritionAnalyzer.identify_nutritional_gaps in Hg.
  assert (Forall
            (λ item : string * gap,
               recommended item.2
               = default 0 (Dict.get item.1 NutritionAnalyzer.recommended_values)
               ∧ current item.2 < recommended item.2 * qc 0.8
               ∧ deficit item.2 = recommended item.2 - current item.2
               ∧ 0 < deficit item.2)
            (foldl NutritionAnalyzer.gap_step [] daily_intake)) as Hall.
  { apply foldl_gap_step_Forall; [|constructor]. intros k' cur rec Hlt.
    split; [done|]. split; [done|]. split; [done|].
    apply deficit_positive; [apply recommended_nonneg | done]. }
  rewrite Forall_forall in Hall. exact (Hall _ Hg).
Qed.

Lemma nutritional_gap_entries_sound_witness :
  ∃ g, Dict.get "fiber"
         (NutritionAnalyzer.identify_nutritional_gaps
            (NutritionAnalyzer.calculate_daily_intake Samples.one_day_log)) = Some g
       ∧ 0 < deficit g.
Proof.
  eexists. split; [reflexivity|].
  eapply (nutritional_gap_entries_sound
            (NutritionAnalyzer.calculate_daily_intake Samples.one_day_log) "fiber").
  reflexivity.
Defined.

Lemma of_nat_lt (n : nat) (m : Z) : (Z.of_nat n < m)%Z -> of_nat n < of_Z m.
Proof. intros H. unfold of_nat. to_Q. by rewrite <- Zlt_Qlt. Qed.

Lemma gap_below (cur rec : Qc) : cur < rec -> 0 < rec - cur.
Proof. intros H. to_Q. lra. Qed.

(** X2. Every entry of [identify_fitness_gaps] is one of the four
    guideline gaps (cardio_duration, exercise_variety, strength_training,
    flexibility), and in each the current value is below the recommended
    one and the deficit, recommended - current, is strictly positive. *)
Theorem fitness_gap_entries_sound
    (self : ActivityTracker.tracker) (df : ActivityTracker.frame) (k : string) (g : gap) :
  Dict.get k (ActivityTracker.identify_fitness_gaps self df) = Some g ->
  k ∈ ["cardio_duration"; "exercise_variety"; "strength_training"; "flexibility"]
  ∧ current g < recommended g
  ∧ deficit g = recommended g - current g
  ∧ 0 < deficit g.
Proof.
  intros Hg. apply get_Some_elem in Hg.
  assert (Forall
            (λ item : string * gap,
               item.1 ∈ ["cardio_duration"; "exercise_variety";
                         "strength_training"; "flexibility"]
               ∧ current item.2 < recommended item.2
               ∧ deficit item.2 = recommended item.2 - current item.2
               ∧ 0 < deficit item.2)
            (ActivityTracker.identify_fitness_gaps self df)) as Hall.
  { unfold ActivityTracker.identify_fitness_gaps.
    set (total_duration := total (ActivityTracker.durations df)).
    set (n := ActivityTracker.unique_exercises df).
    set (s := ActivityTracker.sessions "Strength" _).
    set (f := ActivityTracker.sessions "Flexibility" _).
    assert (∀ (key : string) (cur rec : Qc),
              key ∈ ["cardio_duration"; "exercise_variety";
                     "strength_training"; "flexibility"] ->
              cur < rec ->
              (λ item : string * gap,
                 item.1 ∈ ["cardio_duration"; "exercise_variety";
                           "strength_training"; "flexibility"]
                 ∧ current item.2 < recommended item.2
                 ∧ deficit item.2 = recommended item.2 - current item.2
                 ∧ 0 < deficit item.2) (key, Gap cur rec (rec - cur))) as Hentry.
    { intros key cur rec Hk Hlt. cbv beta. cbn [fst snd current recommended deficit].
      split; [exact Hk|]. split; [exact Hlt|]. split; [reflexivity|].
      by apply gap_below. }
    destruct (ltb total_duration (qc 150)) eqn:E1.
    - apply ltb_true in E1.
      destruct (n <? 3)%nat eqn:E2; [apply Nat.ltb_lt in E2|];
        (destruct (s <? 2)%nat eqn:E3; [apply Nat.ltb_lt in E3|]);
        (destruct (f <? 1)%nat eqn:E4; [apply Nat.ltb_lt in E4|]);
        repeat (apply Forall_set;
                [apply Hentry;
                 [solve [repeat constructor] | first [exact E1 | apply (of_nat_lt _ 3); lia
                                      | apply (of_nat_lt _ 2); lia]]|]);
        apply Forall_nil_2.
    - destruct (n <? 3)%nat eqn:E2; [apply Nat.ltb_lt in E2|];
        (destruct (s <? 2)%nat eqn:E3; [apply Nat.ltb_lt in E3|]);
        (destruct (f <? 1)%nat eqn:E4; [apply Nat.ltb_lt in E4|]);
        repeat (apply Forall_set;
                [apply Hentry;
                 [solve [repeat constructor] | first [apply (of_nat_lt _ 3); lia
                                      | apply (of_nat_lt _ 2); lia]]|]);
        apply Forall_nil_2. }
  rewrite Forall_forall in Hall. exact (Hall _ Hg).
Qed.

Lemma fitness_gap_entries_sound_witness :
  ∃ g, Dict.get "cardio_duration"
         (ActivityTracker.identify_fitness_gaps Samples.sample_tracker
            Samples.sessions_no_column) = Some g
       ∧ 0 < deficit g.
Proof.
  eexists. split; [reflexivity|].
  eapply (fitness_gap_entries_sound Samples.sample_tracker Samples.sessions_no_column
            "cardio_duration").
  reflexivity.
Defined.

End GapEntries.

(** ** The food log after imputation *)

Section FoodLogFacts.
Import NutritionAnalyzer.

Implicit Types (df : frame) (c : column).

Lemma series_sum_cons (x : option Qc) (s : list (option Qc)) :
  series_sum (x :: s) = default 0 x + series_sum s.
Proof.
  unfold series_sum, present. destruct x as [v|]; cbn; [done|].
  by rewrite Qcplus_0_l.
Qed.

Lemma on_date_absent (d : string) df : d ∉ map date df -> on_date d df = [].
Proof.
  intros Hn. unfold on_date. induction df as [|r df IH]; [done|].
  cbn in Hn. apply not_elem_of_cons in Hn as [Hne Hn].
  rewrite filter_cons, decide_False by done. by apply IH.
Qed.

Lemma daily_sums_cons c (r : food_row) df (ds : list string) :
  NoDup ds ->
  total (map (λ d, series_sum (get_column c (on_date d (r :: df)))) ds)
  = (if decide (date r ∈ ds) then default 0 (cell c r) else 0)
    + total (map (λ d, series_sum (get_column c (on_date d df))) ds).
Proof.
  induction 1 as [|d ds Hd Hnd IH].
  - cbn. rewrite decide_False by apply not_elem_of_nil. by rewrite Qcplus_0_l.
  - cbn [map]. change (total (?x :: ?l)) with (x + total l). rewrite IH.
    unfold on_date at 1. rewrite filter_cons. fold (on_date d df).
    destruct (decide (date r = d)) as [E|E].
    + subst d. rewrite (decide_True (P := date r ∈ date r :: ds)) by left.
      rewrite (decide_False (P := date r ∈ ds)) by done.
      unfold get_column at 1. cbn [map]. fold (get_column c (on_date (date r) df)).
      rewrite series_sum_cons. ring.
    + destruct (decide (date r ∈ ds)) as [Hin|Hin].
      * rewrite decide_True by by right. ring.
      * rewrite decide_False; [ring|]. intros [?|?]%elem_of_cons; done.
Qed.

(** The per-date sums add up to the sum of the whole column. *)
Lemma daily_sums_total c df : total (daily_sums c df) = series_sum (get_column c df).
Proof.
  unfold daily_sums. induction df as [|r df IH]; [done|].
  unfold dates. cbn [map remove_dups]. fold (dates df).
  unfold get_column at 2. cbn [map]. fold (get_column c df).
  rewrite series_sum_cons.
  destruct (decide_rel elem_of (date r) (map date df)) as [Hin|Hin].
  - rewrite daily_sums_cons by apply NoDup_remove_dups.
    rewrite decide_True by (unfold dates; by apply elem_of_remove_dups).
    by rewrite IH.
  - cbn [map]. change (total (?x :: ?l)) with (x + total l).
    rewrite daily_sums_cons by apply NoDup_remove_dups.
    rewrite decide_False by (unfold dates; by rewrite elem_of_remove_dups).
    unfold on_date at 1. rewrite filter_cons, decide_True by done.
    fold (on_date (date r) df). rewrite (on_date_absent _ _ Hin).
    unfold get_column at 1. cbn [map]. rewrite series_sum_cons, IH.
    change (series_sum []) with 0. ring.
Qed.

(** X3. For a non-empty food log the average daily intake of every
    nutrient is defined, and it is the sum of all the recorded values of
    that nutrient divided by the number of distinct dates: days without
    an entry do not count, and a missing value counts as nothing. *)
Theorem average_intake_is_total_over_dates df c :
  df ≠ [] ->
  (0 < length (dates df))%nat
  ∧ average_intake c df
    = Some (series_sum (get_column c df) / of_nat (length (dates df))).
Proof.
  intros Hne. split.
  - destruct df as [|r df]; [done|].
    assert (date r ∈ dates (r :: df)) as Hin.
    { unfold dates. apply elem_of_remove_dups. left. }
    destruct (dates (r :: df)); [by apply elem_of_nil in Hin | cbn; lia].
  - by rewrite average_intake_mean, daily_sums_total.
Qed.

Lemma average_intake_is_total_over_dates_witness :
  Samples.one_day_log ≠ []
  ∧ average_intake Protein Samples.one_day_log
    = Some (series_sum (get_column Protein Samples.one_day_log)
            / of_nat (length (dates Samples.one_day_log))).
Proof.
  assert (Samples.one_day_log ≠ []) as Hne by done.
  split; [exact Hne|].
  exact (proj2 (average_intake_is_total_over_dates Samples.one_day_log Protein Hne)).
Defined.

Lemma series_mean_is_Some (s : list (option Qc)) :
  (∃ v, Some v ∈ s) -> is_Some (series_mean s).
Proof.
  intros [v Hv]. unfold series_mean.
  assert (v ∈ present s) as Hin.
  { unfold present. apply list_elem_of_omap. by exists (Some v). }
  destruct (present s); [by apply elem_of_nil in Hin | by eexists].
Qed.

Lemma impute_complete c df :
  (∃ r, r ∈ df ∧ cell c r ≠ None) -> ∀ x, x ∈ Stated.impute c df -> x ≠ None.
Proof.
  intros (r & Hr & Hc) x Hx.
  assert (is_Some (series_mean (Stated.impute_by_item c df))) as [m Hm].
  { apply series_mean_is_Some. destruct (cell c r) as [v|] eqn:Ev; [|done].
    exists v. unfold Stated.impute_by_item. apply list_elem_of_fmap.
    exists r. by rewrite Ev. }
  unfold Stated.impute in Hx. rewrite Hm in Hx.
  apply list_elem_of_fmap in Hx as (y & -> & _). by destruct y.
Qed.

Lemma column_cases c df :
  (∀ r, r ∈ df -> cell c r = None) ∨ (∃ r, r ∈ df ∧ cell c r ≠ None).
Proof.
  induction df as [|r df [IH|(r' & Hr' & Hc)]].
  - left. intros r Hr. by apply elem_of_nil in Hr.
  - destruct (cell c r) as [v|] eqn:E.
    + right. exists r. split; [left | by rewrite E].
    + left. intros r' [->|Hr']%elem_of_cons; [done | by apply IH].
  - right. exists r'. split; [by right | done].
Qed.

Lemma impute_fixed_point c df :
  get_column c (final handle_missing_values df)
  = Stated.impute c (final handle_missing_values df).
Proof.
  destruct (handle_missing_values_spec df) as [Hcol Hlab].
  set (df' := final handle_missing_values df) in *.
  destruct (column_cases c df) as [Hall|Hsome].
  - rewrite impute_all_missing.
    + rewrite Hcol, (impute_all_missing c df Hall).
      pose proof (length_handle_missing_values df) as Hlen. fold df' in Hlen.
      clearbody df'. clear -Hlen. revert df Hlen.
      induction df' as [|r' df' IH]; intros [|r df] Hlen; try done.
      cbn. f_equal. apply IH. cbn in Hlen. lia.
    + intros r' Hr'. apply list_elem_of_lookup in Hr' as [i Hi].
      pose proof (lookup_get_column c df' i r' Hi) as Hg.
      rewrite Hcol, (impute_all_missing c df Hall), list_lookup_fmap in Hg.
      destruct (df !! i); cbn in Hg; congruence.
  - symmetry. apply impute_no_missing. intros r' Hr'.
    apply (impute_complete c df Hsome). rewrite <- Hcol.
    unfold get_column. apply list_elem_of_fmap. by exists r'.
Qed.

(** X4. After [handle_missing_values] every macro column is either
    complete or entirely missing: if the column had at least one value
    recorded, no row is left without one. *)
Theorem imputation_completes_columns df c :
  (∃ r, r ∈ df ∧ cell c r ≠ None) ->
  ∀ r', r' ∈ final handle_missing_values df -> cell c r' ≠ None.
Proof.
  intros Hsome r' Hr'.
  destruct (handle_missing_values_spec df) as [Hcol _].
  apply (impute_complete c df Hsome). rewrite <- Hcol.
  unfold get_column. apply list_elem_of_fmap. by exists r'.
Qed.

Lemma imputation_completes_columns_witness :
  (∃ r, r ∈ Samples.partly_missing_log ∧ cell Protein r ≠ None)
  ∧ ∀ r', r' ∈ final handle_missing_values Samples.partly_missing_log ->
          cell Protein r' ≠ None.
Proof.
  assert (∃ r, r ∈ Samples.partly_missing_log ∧ cell Protein r ≠ None) as Hsome.
  { eexists. split; [left | done]. }
  split; [exact Hsome|].
  exact (imputation_completes_columns Samples.partly_missing_log Protein Hsome).
Defined.

Lemma handle_missing_values_fixed df :
  final handle_missing_values (final handle_missing_values df)
  = final handle_missing_values df.
Proof.
  destruct (handle_missing_values_spec (final handle_missing_values df)) as [Hcol Hlab].
  apply frame_ext; [exact Hlab|].
  intros c. rewrite Hcol. symmetry. apply impute_fixed_point.
Qed.

(** X5. Imputation happens once: running [handle_missing_values] on a
    log it has already processed changes nothing, and analysing the same
    log object a second time returns the analysis of the first time and
    leaves the log as the first analysis left it. *)
Theorem food_analysis_repeats df :
  final handle_missing_values (final handle_missing_values df)
  = final handle_missing_values df
  ∧ analyze_food_logs (final analyze_food_logs df)
    = (result analyze_food_logs df, final analyze_food_logs df).
Proof.
  split; [apply handle_missing_values_fixed|].
  destruct df as [|r df]; [reflexivity|].
  assert (r :: df ≠ []) as Hne by done.
  pose proof (analyze_food_logs_nonempty _ Hne) as E. cbn zeta in E.
  assert (final handle_missing_values (r :: df) ≠ []) as Hne'.
  { intros E'. apply (f_equal length) in E'.
    by rewrite length_handle_missing_values in E'. }
  pose proof (analyze_food_logs_nonempty _ Hne') as E'. cbn zeta in E'.
  rewrite handle_missing_values_fixed in E'.
  unfold result. unfold final at 1 2. rewrite E. cbn [fst snd]. exact E'.
Qed.

End FoodLogFacts.

(** ** The exercise log and the reference table *)

Section ActivityFacts.
Import ActivityTracker.

Implicit Types (self : tracker) (df : frame) (user_weight : Qc).

Lemma qc_mul_nonneg (a b : Qc) : 0 <= a -> 0 <= b -> 0 <= a * b.
Proof.
  intros Ha Hb. to_Q. change (this 0) with 0%Q in *.
  by apply Qmult_le_0_compat.
Qed.

Lemma qc_add_nonneg (a b : Qc) : 0 <= a -> 0 <= b -> 0 <= a + b.
Proof. intros Ha Hb. to_Q. change (this 0) with 0%Q in *. lra. Qed.

Lemma total_nonneg (xs : list Qc) : Forall (λ x, 0 <= x) xs -> 0 <= total xs.
Proof.
  induction 1 as [|x xs Hx _ IH]; [done|].
  change (total (x :: xs)) with (x + total xs). by apply qc_add_nonneg.
Qed.

Lemma load_met_values_snoc (l : list Ref.row) (r : Ref.row) :
  load_met_values (Tracker (l ++ [r]))
  = <[Ref.exercise_type r := Ref.met_value r]> (load_met_values (Tracker l)).
Proof. unfold load_met_values. cbn [exercise_data]. by rewrite foldl_app. Qed.

(** The MET table holds, for each exercise type, the MET of the last
    reference row of that type. *)
Lemma met_lookup_last self (t : string) :
  load_met_values self !! t
  = Ref.met_value <$> last (filter (λ r, Ref.exercise_type r = t) (exercise_data self)).
Proof.
  destruct self as [l]. cbn [exercise_data].
  induction l as [|r l IH] using rev_ind; [done|].
  rewrite load_met_values_snoc, filter_app, filter_cons, filter_nil.
  destruct (decide (Ref.exercise_type r = t)) as [E|E].
  - rewrite E, lookup_insert_eq, last_snoc. done.
  - rewrite lookup_insert_ne by done. by rewrite app_nil_r.
Qed.

Lemma met_lookup_elem self (t : string) (m : Qc) :
  load_met_values self !! t = Some m ->
  ∃ r, r ∈ exercise_data self ∧ Ref.exercise_type r = t ∧ Ref.met_value r = m.
Proof.
  rewrite met_lookup_last. intros H.
  destruct (last _) as [r|] eqn:El; [|done]. injection H as <-.
  apply last_Some_elem_of, list_elem_of_filter in El as [E Hin]. by exists r.
Qed.

Lemma present_map_Some {A} (f : A -> Qc) (l : list A) :
  present (map (λ x, Some (f x)) l) = map f l.
Proof. unfold present. induction l as [|x l IH]; [done|]. cbn. by rewrite IH. Qed.

(** X6. With a MET table, a body weight and durations that are not
    negative, the fallback never produces negative calories: every
    entry's computed value is at least 0, and so is the total reported
    by the analysis of a log without recorded calories. *)
Theorem fallback_calories_nonnegative self user_weight df :
  0 <= user_weight ->
  (∀ r, r ∈ exercise_data self -> 0 <= Ref.met_value r) ->
  (∀ row, row ∈ rows df -> 0 <= Log.duration row) ->
  (∀ row, row ∈ rows df -> 0 <= calc_calories self user_weight row)
  ∧ (rows df ≠ [] -> needs_calories df = true ->
       0 <= total_calories_burned (result (analyze_activity_logs self user_weight) df)).
Proof.
  intros Hw Hmet Hdur.
  assert (∀ row, row ∈ rows df -> 0 <= calc_calories self user_weight row) as Hcalc.
  { intros row Hrow. unfold calc_calories.
    apply qc_mul_nonneg; [apply qc_mul_nonneg; [|done]|].
    - destruct (load_met_values self !! Log.exercise_type row) as [m|] eqn:E; cbn.
      + apply met_lookup_elem in E as (r & Hr & _ & <-). by apply Hmet.
      + by vm_compute.
    - unfold Qcdiv. apply qc_mul_nonneg; [by apply Hdur | by vm_compute]. }
  split; [exact Hcalc|].
  intros Hne Hn. unfold result. rewrite analyze_activity_logs_nonempty by done.
  cbn [fst total_calories_burned]. rewrite final_calculate_calories_burned, Hn.
  cbn [calories_burned from_option]. unfold series_sum.
  rewrite present_map_Some. apply total_nonneg, Forall_fmap, Forall_forall.
  intros row Hrow. by apply Hcalc.
Qed.

Lemma fallback_calories_nonnegative_witness :
  0 <= qc 70
  ∧ (∀ row, row ∈ rows Samples.sessions_without_calories -> 0 <= Log.duration row)
  ∧ 0 <= total_calories_burned
           (result (analyze_activity_logs Samples.sample_tracker (qc 70))
              Samples.sessions_without_calories).
Proof.
  assert (0 <= qc 70) as Hw by by vm_compute.
  assert (∀ r, r ∈ exercise_data Samples.sample_tracker -> 0 <= Ref.met_value r) as Hmet.
  { intros r Hr. cbn in Hr. unfold create_sample_exercise_data in Hr.
    repeat (apply elem_of_cons in Hr as [->|Hr]; [by vm_compute|]).
    by apply elem_of_nil in Hr. }
  assert (∀ row, row ∈ rows Samples.sessions_without_calories -> 0 <= Log.duration row)
    as Hdur.
  { intros row Hr. cbn in Hr. unfold Samples.two_sessions in Hr.
    repeat (apply elem_of_cons in Hr as [->|Hr]; [by vm_compute|]).
    by apply elem_of_nil in Hr. }
  split; [exact Hw|]. split; [exact Hdur|].
  destruct (fallback_calories_nonnegative Samples.sample_tracker (qc 70)
              Samples.sessions_without_calories Hw Hmet Hdur) as [_ H].
  by apply H.
Defined.

Lemma filter_absent {A} (P : A -> Prop) `{∀ x, Decision (P x)} (l : list A) :
  (∀ x, x ∈ l -> ¬ P x) -> filter P l = [].
Proof.
  induction l as [|x l IH]; [done|]. intros Hn.
  rewrite filter_cons, decide_False by (apply Hn; left).
  apply IH. intros y Hy. apply Hn. by right.
Qed.

Lemma filter_type_short (l : list Ref.row) (t : string) :
  NoDup (map Ref.exercise_type l) ->
  (length (filter (λ r, Ref.exercise_type r = t) l) <= 1)%nat.
Proof.
  induction l as [|r l IH]; [cbn; lia|].
  cbn [map]. intros [Hr Hnd]%NoDup_cons. rewrite filter_cons.
  destruct (decide (Ref.exercise_type r = t)) as [E|E]; [|by apply IH].
  rewrite filter_absent; [cbn; lia|].
  intros r' Hr' E'. apply Hr. rewrite E, <- E'.
  apply list_elem_of_fmap. by exists r'.
Qed.

(** X7. The join with the reference table never loses a session: the
    merged frame has at least as many rows as the log. When no exercise
    type is listed twice in the reference table it has exactly as many,
    so no category can count more sessions than the log has entries. *)
Theorem merge_keeps_sessions self df :
  (length (rows df) <= length (merge_category self df))%nat
  ∧ (NoDup (map Ref.exercise_type (exercise_data self)) ->
       length (merge_category self df) = length (rows df)
       ∧ ∀ cat, (sessions cat (merge_category self df) <= length (rows df))%nat).
Proof.
  unfold merge_category. split.
  - induction (rows df) as [|row l IH]; [done|].
    cbn [flat_map]. rewrite length_app. cbn [length].
    destruct (filter _ _) as [|m ms]; rewrite ?length_map; cbn [length]; lia.
  - intros Hnd.
    assert (length (flat_map (λ row,
              match filter (λ r, Ref.exercise_type r = Log.exercise_type row)
                      (exercise_data self) with
              | [] => [None]
              | matches => map (λ r, Some (Ref.category r)) matches
              end) (rows df)) = length (rows df)) as Hlen.
    { induction (rows df) as [|row l IH]; [done|].
      cbn [flat_map]. rewrite length_app, IH. cbn [length]. f_equal.
      pose proof (filter_type_short (exercise_data self) (Log.exercise_type row) Hnd) as Hs.
      destruct (filter _ _) as [|m [|m' ms]]; rewrite ?length_map; cbn [length] in *; [done|done|lia]. }
    split; [exact Hlen|].
    intros cat. unfold sessions. rewrite <- Hlen. apply length_filter.
Qed.

Lemma merge_keeps_sessions_witness :
  NoDup (map Ref.exercise_type (exercise_data Samples.sample_tracker))
  ∧ length (merge_category Samples.sample_tracker Samples.sessions_no_column)
    = length (rows Samples.sessions_no_column).
Proof.
  assert (NoDup (map Ref.exercise_type (exercise_data Samples.sample_tracker))) as Hnd
    by compute_done.
  split; [exact Hnd|].
  exact (proj1 (proj2 (merge_keeps_sessions Samples.sample_tracker
                         Samples.sessions_no_column) Hnd)).
Defined.

Lemma calculate_calories_burned_fixed self user_weight df :
  final (calculate_calories_burned self user_weight)
    (final (calculate_calories_burned self user_weight) df)
  = final (calculate_calories_burned self user_weight) df.
Proof.
  rewrite (final_calculate_calories_burned self user_weight df).
  destruct (needs_calories df) eqn:En.
  - set (df' := Frame _ _). rewrite (final_calculate_calories_burned _ _ df').
    destruct (needs_calories df'); reflexivity.
  - by rewrite final_calculate_calories_burned, En.
Qed.

(** X8. The calories column is written at most once: on a log that
    [calculate_calories_burned] has already processed it changes
    nothing, and analysing the same exercise log object a second time
    returns the analysis of the first time and leaves the log as the
    first analysis left it. *)
Theorem activity_analysis_repeats self user_weight df :
  final (calculate_calories_burned self user_weight)
    (final (calculate_calories_burned self user_weight) df)
  = final (calculate_calories_burned self user_weight) df
  ∧ analyze_activity_logs self user_weight
      (final (analyze_activity_logs self user_weight) df)
    = (result (analyze_activity_logs self user_weight) df,
       final (analyze_activity_logs self user_weight) df).
Proof.
  split; [apply calculate_calories_burned_fixed|].
  destruct (decide (rows df = [])) as [He|Hne].
  - unfold result, final. rewrite (analyze_activity_logs_empty _ _ _ He). cbn [fst snd].
    by apply analyze_activity_logs_empty.
  - pose proof (analyze_activity_logs_nonempty self user_weight df Hne) as E.
    cbn zeta in E.
    assert (rows (final (calculate_calories_burned self user_weight) df) ≠ []) as Hne'
      by by rewrite rows_calculate_calories_burned.
    pose proof (analyze_activity_logs_nonempty self user_weight _ Hne') as E'.
    cbn zeta in E'. rewrite calculate_calories_burned_fixed in E'.
    unfold result. unfold final at 1 2. rewrite E. cbn [fst snd]. exact E'.
Qed.

End ActivityFacts.

(** ** Recommendation texts *)

Section RecommendationTexts.

Lemma this_div (x y : Qc) : (this (x / y) == this x / this y)%Q.
Proof.
  unfold Qcdiv. rewrite this_mult. unfold Qcinv. cbn [this Q2Qc].
  by rewrite Qred_correct.
Qed.

Lemma flat_map_filter {A B} (P : A -> Prop) `{∀ x, Decision (P x)}
    (f : A -> list B) (l : list A) :
  (∀ x, ¬ P x -> f x = []) -> flat_map f l = flat_map f (filter P l).
Proof.
  intros Hf. induction l as [|x l IH]; [done|].
  rewrite filter_cons. cbn [flat_map].
  destruct (decide (P x)) as [Hx|Hx]; cbn [flat_map]; [by rewrite IH|].
  by rewrite (Hf x Hx), IH.
Qed.

(** X9. Only gaps in protein, fiber and calories are turned into
    recommendation text: entries under any other key, the carbs and fat
    gaps among them, add nothing, so a log that is short of carbs or fat
    only gets the same recommendations as a log without gaps. *)
Theorem carbs_and_fat_gaps_are_silent
    (nutritional_gaps : Dict.t gap) (eating_patterns : NutritionAnalyzer.patterns) :
  NutritionAnalyzer.generate_nutrition_recommendations nutritional_gaps eating_patterns
  = NutritionAnalyzer.generate_nutrition_recommendations
      (filter (λ item, item.1 ∈ ["protein"; "fiber"; "calories"]) nutritional_gaps)
      eating_patterns
  ∧ ((∀ k, k ∈ Dict.keys nutritional_gaps -> k = "carbs" ∨ k = "fat") ->
       NutritionAnalyzer.generate_nutrition_recommendations nutritional_gaps eating_patterns
       = NutritionAnalyzer.generate_nutrition_recommendations [] eating_patterns).
Proof.
  assert (NutritionAnalyzer.generate_nutrition_recommendations nutritional_gaps
            eating_patterns
          = NutritionAnalyzer.generate_nutrition_recommendations
              (filter (λ item, item.1 ∈ ["protein"; "fiber"; "calories"]) nutritional_gaps)
              eating_patterns) as E.
  { unfold NutritionAnalyzer.generate_nutrition_recommendations. cbn zeta. f_equal.
    apply (flat_map_filter (λ item : string * gap, item.1 ∈ ["protein"; "fiber"; "calories"])).
    intros [k g] Hk. cbn [fst] in Hk.
    rewrite !decide_False; [done|..]; intros ->; apply Hk; solve [repeat constructor]. }
  split; [exact E|].
  intros Hkeys. rewrite E. f_equal.
  apply filter_absent. intros [k g] Hin Hk. cbn [fst] in Hk.
  assert (k ∈ Dict.keys nutritional_gaps) as Hkey.
  { unfold Dict.keys. apply list_elem_of_fmap. by exists (k, g). }
  apply list_elem_of_In in Hk. cbn in Hk.
  destruct (Hkeys k Hkey) as [->| ->]; naive_solver.
Qed.

Lemma carbs_and_fat_gaps_are_silent_witness :
  (∀ k, k ∈ Dict.keys [("carbs", Gap (qc 100) (qc 225) (qc 125))] ->
        k = "carbs" ∨ k = "fat")
  ∧ NutritionAnalyzer.generate_nutrition_recommendations
      [("carbs", Gap (qc 100) (qc 225) (qc 125))] (NutritionAnalyzer.Patterns (Some (qc 4)) 7)
    = [].
Proof.
  assert (∀ k, k ∈ Dict.keys [("carbs", Gap (qc 100) (qc 225) (qc 125))] ->
               k = "carbs" ∨ k = "fat") as Hk.
  { intros k Hin. apply list_elem_of_In in Hin. cbn in Hin. naive_solver. }
  split; [exact Hk|].
  destruct (carbs_and_fat_gaps_are_silent
              [("carbs", Gap (qc 100) (qc 225) (qc 125))]
              (NutritionAnalyzer.Patterns (Some (qc 4)) 7)) as [_ H].
  rewrite (H Hk). reflexivity.
Defined.

Lemma div_lt_iff (a b : Qc) (n : nat) :
  (0 < n)%nat -> a / of_nat n < b ↔ a < b * of_nat n.
Proof.
  intros Hn. unfold of_nat. unfold Qclt. rewrite this_div, this_mult, this_of_Z.
  assert (0 < inject_Z (Z.of_nat n))%Q as Hpos.
  { change 0%Q with (inject_Z 0). rewrite <- Zlt_Qlt. lia. }
  split.
  - intros H.
    destruct (Qlt_le_dec (this a) (this b * inject_Z (Z.of_nat n))) as [Hlt|Hle];
      [exact Hlt|].
    exfalso. apply (Qle_shift_div_l _ _ _ Hpos) in Hle.
    exact (Qle_not_lt _ _ Hle H).
  - intros H. apply Qlt_shift_div_r; assumption.
Qed.

Lemma avg_duration_mean (df : ActivityTracker.frame) :
  ActivityTracker.rows df ≠ [] ->
  ActivityTracker.avg_duration_minutes (ActivityTracker.analyze_activity_patterns df)
  = Some (total (ActivityTracker.durations df)
          / of_nat (length (ActivityTracker.rows df))).
Proof.
  intros Hne. unfold ActivityTracker.analyze_activity_patterns.
  cbn [ActivityTracker.avg_duration_minutes]. rewrite decide_False by exact Hne.
  unfold series_mean. rewrite present_Some. unfold ActivityTracker.durations.
  destruct (ActivityTracker.rows df) as [|row l]; [done|].
  cbn [map length]. by rewrite length_map.
Qed.

Lemma exercises_per_week_count (self : ActivityTracker.tracker) (w : Qc)
    (df : ActivityTracker.frame) :
  ActivityTracker.rows df ≠ [] ->
  ActivityTracker.exercises_per_week
    (ActivityTracker.activity_patterns
       (result (ActivityTracker.analyze_activity_logs self w) df))
  = of_nat (length (ActivityTracker.rows df)) / qc 30 * qc 7.
Proof.
  intros Hne. unfold result. rewrite analyze_activity_logs_nonempty by done.
  cbn [fst ActivityTracker.activity_patterns].
  unfold ActivityTracker.analyze_activity_patterns.
  cbn [ActivityTracker.exercises_per_week].
  rewrite rows_calculate_calories_burned.
  destruct (ActivityTracker.rows df) as [|row l]; [done|]. reflexivity.
Qed.

Lemma weekly_rate_below_3 (n : nat) :
  of_nat n / qc 30 * qc 7 < qc 3 ↔ (n <= 12)%nat.
Proof.
  unfold of_nat. unfold Qclt. rewrite this_mult, this_div, !this_qc, this_of_Z.
  unfold Qlt, Qdiv, Qmult, Qinv, inject_Z. cbn. lia.
Qed.

Lemma weekly_rate_above_5 (n : nat) :
  qc 5 < of_nat n / qc 30 * qc 7 ↔ (22 <= n)%nat.
Proof.
  unfold of_nat. unfold Qclt. rewrite this_mult, this_div, !this_qc, this_of_Z.
  unfold Qlt, Qdiv, Qmult, Qinv, inject_Z. cbn. lia.
Qed.

Lemma elem_of_flat_map {A B} (f : A -> list B) (l : list A) (y : B) :
  y ∈ flat_map f l ↔ ∃ x, x ∈ l ∧ y ∈ f x.
Proof.
  split.
  - intros H. apply list_elem_of_In, in_flat_map in H. destruct H as (x & Hx & Hy).
    exists x. split; by apply list_elem_of_In.
  - intros (x & Hx & Hy). apply list_elem_of_In, in_flat_map.
    exists x. split; by apply list_elem_of_In.
Qed.

(** X10. On a non-empty exercise log of n entries the weekly rate is
    7n/30. The analysis advises "at least 3-4 exercise sessions per week"
    exactly when the log has at most 12 entries, it advises "at least 30
    minutes per session" exactly when the durations add up to less than
    30 n, and the lifestyle advice built on that analysis asks for rest
    days exactly when the log has at least 22 entries. *)
Theorem session_count_thresholds (self : ActivityTracker.tracker) (w : Qc)
    (df : ActivityTracker.frame) :
  ActivityTracker.rows df ≠ [] ->
  let n := length (ActivityTracker.rows df) in
  let activity := result (ActivityTracker.analyze_activity_logs self w) df in
  ActivityTracker.exercises_per_week (ActivityTracker.activity_patterns activity)
  = of_nat n / qc 30 * qc 7
  ∧ (lit "Aim for at least 3-4 exercise sessions per week for optimal health benefits."
       ∈ ActivityTracker.recommendations activity
     ↔ (n <= 12)%nat)
  ∧ (lit "Try to exercise for at least 30 minutes per session for better results."
       ∈ ActivityTracker.recommendations activity
     ↔ total (ActivityTracker.durations df) < qc 30 * of_nat n)
  ∧ (∀ ud nutrition,
       lit "Include rest days for proper recovery and muscle repair"
         ∈ Recommendations.generate_lifestyle_recommendations ud nutrition activity
       ↔ (22 <= n)%nat).
Proof.
  intros Hne n activity.
  pose proof (exercises_per_week_count self w df Hne) as Hrate.
  fold activity n in Hrate.
  split; [exact Hrate|]. split; [|split].
  - subst activity. unfold result in *.
    rewrite analyze_activity_logs_nonempty in * by done.
    cbn [fst ActivityTracker.activity_patterns ActivityTracker.recommendations] in *.
    unfold ActivityTracker.generate_exercise_recommendations. cbn zeta.
    rewrite Hrate, !elem_of_app, elem_of_flat_map. split.
    + intros [(item & _ & Hin)|[Hin|Hin]].
      * destruct item as [k g]. repeat case_decide;
          apply list_elem_of_In in Hin; cbn in Hin; naive_solver.
      * destruct (ltb _ _) eqn:E; [|by apply elem_of_nil in Hin].
        by apply ltb_true, weekly_rate_below_3 in E.
      * destruct (nan_ltb _ _); apply list_elem_of_In in Hin; cbn in Hin; naive_solver.
    + intros Hn. right. left.
      rewrite (proj2 (ltb_true _ _) (proj2 (weekly_rate_below_3 n) Hn)). left.
  - assert (0 < n)%nat as Hpos.
    { subst n. destruct (ActivityTracker.rows df); [done | cbn; lia]. }
    subst activity. unfold result in *.
    rewrite analyze_activity_logs_nonempty in * by done.
    cbn [fst ActivityTracker.activity_patterns ActivityTracker.recommendations] in *.
    unfold ActivityTracker.generate_exercise_recommendations. cbn zeta.
    rewrite avg_duration_mean by (by rewrite rows_calculate_calories_burned).
    unfold ActivityTracker.durations. rewrite rows_calculate_calories_burned.
    fold (ActivityTracker.durations df). fold n. cbn [nan_ltb].
    rewrite !elem_of_app, elem_of_flat_map. split.
    + intros [(item & _ & Hin)|[Hin|Hin]].
      * destruct item as [k g]. repeat case_decide;
          apply list_elem_of_In in Hin; cbn in Hin; naive_solver.
      * destruct (ltb _ (qc 3)); apply list_elem_of_In in Hin; cbn in Hin; naive_solver.
      * destruct (ltb _ (qc 30)) eqn:E; [|by apply elem_of_nil in Hin].
        apply ltb_true in E. by apply div_lt_iff in E.
    + intros Hlt. right. right.
      rewrite (proj2 (ltb_true _ _) (proj2 (div_lt_iff _ _ n Hpos) Hlt)). left.
  - intros ud nutrition.
    unfold Recommendations.generate_lifestyle_recommendations.
    rewrite Hrate, !elem_of_app. split.
    + intros [Hin|[Hin|[Hin|Hin]]].
      * apply list_elem_of_In in Hin; cbn in Hin; naive_solver.
      * destruct (nan_ltb _ _); apply list_elem_of_In in Hin; cbn in Hin; naive_solver.
      * destruct (ltb _ _) eqn:E; [|by apply elem_of_nil in Hin].
        by apply ltb_true, weekly_rate_above_5 in E.
      * apply list_elem_of_In in Hin; cbn in Hin; naive_solver.
    + intros Hn. right. right. left.
      rewrite (proj2 (ltb_true _ _) (proj2 (weekly_rate_above_5 n) Hn)). left.
Qed.

Lemma session_count_thresholds_witness :
  ActivityTracker.rows Samples.sessions_no_column ≠ []
  ∧ lit "Aim for at least 3-4 exercise sessions per week for optimal health benefits."
      ∈ ActivityTracker.recommendations
          (result (ActivityTracker.analyze_activity_logs Samples.sample_tracker (qc 70))
             Samples.sessions_no_column).
Proof.
  assert (ActivityTracker.rows Samples.sessions_no_column ≠ []) as Hne by done.
  split; [exact Hne|].
  destruct (session_count_thresholds Samples.sample_tracker (qc 70)
              Samples.sessions_no_column Hne) as (_ & H & _ & _).
  apply H. cbn. lia.
Defined.

End RecommendationTexts.

(** ** Meal suggestions, the weekly meal plan and the calorie estimate *)

Section MealPlans.
Import Recommendations ProgressPredictor.

Lemma generic_options_nonempty (meal_type : string) :
  default ["Healthy balanced meal"] (Dict.get meal_type generic_options) ≠ [].
Proof.
  unfold generic_options. cbn [Dict.get].
  repeat (case_decide; [done|]). done.
Qed.

(** The list that [suggest_meal] cuts to its first three items. *)
Lemma suggest_meal_take (meal_type : string) (gaps : Dict.t gap) (prefs : list string)
    (culture : string) :
  ∃ chosen,
    chosen ≠ []
    ∧ (chosen = filter (λ s, is_suitable prefs s = true)
                  (default [] (Dict.get culture
                                 (default [] (Dict.get meal_type meal_suggestions))))
       ∨ chosen = default ["Healthy balanced meal"] (Dict.get meal_type generic_options))
    ∧ (suggest_meal meal_type gaps prefs culture = take 3 chosen
       ∨ (is_Some (Dict.get "protein" gaps)
          ∧ (meal_type = "lunch" ∨ meal_type = "dinner")
          ∧ suggest_meal meal_type gaps prefs culture
            = take 3 (map (λ s, s +:+ " (add extra protein)") chosen))).
Proof.
  unfold suggest_meal.
  set (base := default [] (Dict.get culture _)).
  assert (List.filter (is_suitable prefs) base
          = filter (λ s, is_suitable prefs s = true) base) as ->.
  { induction base as [|s l IH]; [done|]. cbn [List.filter].
    rewrite filter_cons. destruct (is_suitable prefs s) eqn:E.
    - rewrite decide_True by done. by rewrite IH.
    - rewrite decide_False by done. exact IH. }
  set (kept := filter _ base).
  exists (match kept with
          | [] => default ["Healthy balanced meal"] (Dict.get meal_type generic_options)
          | _ => kept
          end).
  split; [|split].
  - destruct kept; [apply generic_options_nonempty | done].
  - destruct kept; [by right | by left].
  - destruct (Dict.get "protein" gaps) as [g|]; [|by left].
    case_decide; [right | by left]. split; [by eexists | done].
Qed.

Lemma elem_of_take_list {A} (n : nat) (l : list A) (x : A) : x ∈ take n l -> x ∈ l.
Proof.
  revert n. induction l as [|y l IH]; intros [|n]; cbn; try (by intros H; inversion H).
  intros H. apply elem_of_cons in H as [->|H]; [left | right; by eapply IH].
Qed.

(** X11. [suggest_meal] never returns an empty list and never more than
    three suggestions, whatever the meal type, the gaps, the dietary
    preferences and the cultural background. *)
Theorem suggest_meal_one_to_three (meal_type : string) (gaps : Dict.t gap)
    (prefs : list string) (culture : string) :
  (1 <= length (suggest_meal meal_type gaps prefs culture) <= 3)%nat.
Proof.
  destruct (suggest_meal_take meal_type gaps prefs culture)
    as (chosen & Hne & _ & [-> | (_ & _ & ->)]).
  - rewrite length_take. destruct chosen; [done|]. cbn [length]. lia.
  - rewrite length_take, length_map. destruct chosen; [done|]. cbn [length]. lia.
Qed.

(** Every suggestion of the tables of [suggest_meal]. *)
Lemma table_suggestion (meal_type culture : string) (s : string) :
  s ∈ default [] (Dict.get culture (default [] (Dict.get meal_type meal_suggestions))) ->
  s ∈ flat_map (λ by_culture, flat_map snd by_culture.2) meal_suggestions.
Proof.
  intros Hs.
  destruct (Dict.get meal_type meal_suggestions) as [by_culture|] eqn:Em;
    [|by apply elem_of_nil in Hs].
  unfold default, from_option, id in Hs.
  destruct (Dict.get culture by_culture) as [l|] eqn:Ec; [|by apply elem_of_nil in Hs].
  apply elem_of_flat_map. exists (meal_type, by_culture).
  split; [by apply get_Some_elem|]. cbn [snd].
  apply elem_of_flat_map. exists (culture, l). split; [by apply get_Some_elem | done].
Qed.

Lemma generic_suggestion (meal_type : string) (s : string) :
  s ∈ default ["Healthy balanced meal"] (Dict.get meal_type generic_options) ->
  s ∈ "Healthy balanced meal" :: flat_map snd generic_options.
Proof.
  intros Hs.
  destruct (Dict.get meal_type generic_options) as [l|] eqn:Em;
    unfold default, from_option, id in Hs.
  - right. apply elem_of_flat_map. exists (meal_type, l).
    split; [by apply get_Some_elem | done].
  - apply list_elem_of_singleton in Hs as ->. left.
Qed.

Lemma forallb_elem {A} (f : A -> bool) (l : list A) (x : A) :
  forallb f l = true -> x ∈ l -> f x = true.
Proof.
  intros H Hx. apply list_elem_of_In in Hx.
  by apply (proj1 (forallb_forall f l) H).
Qed.

(** No generic option names an avoided food. *)
Lemma generic_options_safe :
  forallb (λ s,
    forallb (λ r, forallb (λ a, negb (contains (lower a) (lower s))) (avoid r.2))
      dietary_restrictions)
    ("Healthy balanced meal" :: flat_map snd generic_options) = true.
Proof. vm_compute. reflexivity. Qed.

(** The protein note adds no avoided food to a suggestion of the tables
    or to a generic option. *)
Lemma protein_note_neutral :
  forallb (λ s,
    forallb (λ r,
      forallb (λ a, bool_decide (contains (lower a) (lower (s +:+ " (add extra protein)"))
                                 = contains (lower a) (lower s)))
        (avoid r.2))
      dietary_restrictions)
    (flat_map (λ by_culture, flat_map snd by_culture.2) meal_suggestions
     ++ "Healthy balanced meal" :: flat_map snd generic_options) = true.
Proof. vm_compute. reflexivity. Qed.

Lemma is_suitable_spec (prefs : list string) (s preference : string) (r : restriction)
    (avoid_food : string) :
  is_suitable prefs s = true ->
  preference ∈ prefs ->
  Dict.get (lower preference) dietary_restrictions = Some r ->
  avoid_food ∈ avoid r ->
  contains (lower avoid_food) (lower s) = false.
Proof.
  intros Hs Hp Hr Ha. unfold is_suitable in Hs.
  pose proof (forallb_elem _ _ _ Hs Hp) as H. cbn beta in H. rewrite Hr in H.
  pose proof (forallb_elem _ _ _ H Ha) as H'. cbn beta in H'.
  by apply negb_true_iff in H'.
Qed.

(** X12. A suggestion that [suggest_meal] returns never contains
    (whatever the letter case) a food that one of the user's recognised
    dietary preferences lists under "avoid": the table suggestions are
    filtered, and neither the generic options used when nothing is left
    nor the note " (add extra protein)" name such a food. *)
Theorem suggestions_avoid_restricted_foods (meal_type : string) (gaps : Dict.t gap)
    (prefs : list string) (culture : string)
    (s preference : string) (r : restriction) (avoid_food : string) :
  s ∈ suggest_meal meal_type gaps prefs culture ->
  preference ∈ prefs ->
  Dict.get (lower preference) dietary_restrictions = Some r ->
  avoid_food ∈ avoid r ->
  contains (lower avoid_food) (lower s) = false.
Proof.
  intros Hs Hp Hr Ha.
  pose proof (get_Some_elem _ _ _ Hr) as Hr'.
  assert (∀ s0, s0 ∈ "Healthy balanced meal" :: flat_map snd generic_options ->
                contains (lower avoid_food) (lower s0) = false) as Hgeneric.
  { intros s0 H0.
    pose proof (forallb_elem _ _ _ generic_options_safe H0) as H1. cbn beta in H1.
    pose proof (forallb_elem _ _ _ H1 Hr') as H2. cbn beta in H2.
    pose proof (forallb_elem _ _ _ H2 Ha) as H3. cbn beta in H3.
    by apply negb_true_iff in H3. }
  assert (∀ s0, s0 ∈ flat_map (λ by_culture, flat_map snd by_culture.2) meal_suggestions
                       ++ "Healthy balanced meal" :: flat_map snd generic_options ->
                contains (lower avoid_food) (lower (s0 +:+ " (add extra protein)"))
                = contains (lower avoid_food) (lower s0)) as Hnote.
  { intros s0 H0.
    pose proof (forallb_elem _ _ _ protein_note_neutral H0) as H1. cbn beta in H1.
    pose proof (forallb_elem _ _ _ H1 Hr') as H2. cbn beta in H2.
    pose proof (forallb_elem _ _ _ H2 Ha) as H3. cbn beta in H3.
    by apply bool_decide_eq_true in H3. }
  destruct (suggest_meal_take meal_type gaps prefs culture)
    as (chosen & _ & Hchosen & Hres).
  assert (∀ s0, s0 ∈ chosen ->
                contains (lower avoid_food) (lower s0) = false
                ∧ s0 ∈ flat_map (λ by_culture, flat_map snd by_culture.2) meal_suggestions
                         ++ "Healthy balanced meal" :: flat_map snd generic_options)
    as Hin.
  { intros s0 H0. destruct Hchosen as [-> | ->].
    - apply list_elem_of_filter in H0 as [Hsuit Hbase]. split.
      + by eapply is_suitable_spec.
      + apply elem_of_app. left. by eapply table_suggestion.
    - apply generic_suggestion in H0. split; [by apply Hgeneric|].
      apply elem_of_app. by right. }
  destruct Hres as [E | (_ & _ & E)]; rewrite E in Hs; apply elem_of_take_list in Hs.
  - by apply Hin.
  - apply list_elem_of_fmap in Hs as (s0 & -> & H0).
    destruct (Hin s0 H0) as [Hc Hall]. by rewrite Hnote.
Qed.

Lemma suggestions_avoid_restricted_foods_witness :
  "Oatmeal with fruits" ∈ suggest_meal "breakfast" [] ["Vegan"] "Western"
  ∧ "Vegan" ∈ ["Vegan"]
  ∧ contains (lower "Eggs") (lower "Oatmeal with fruits") = false.
Proof.
  assert ("Oatmeal with fruits" ∈ suggest_meal "breakfast" [] ["Vegan"] "Western") as H1.
  { vm_compute. left. }
  assert ("Vegan" ∈ ["Vegan"]) as H2 by left.
  split; [exact H1|]. split; [exact H2|].
  apply (suggestions_avoid_restricted_foods "breakfast" [] ["Vegan"] "Western"
           "Oatmeal with fruits" "Vegan"
           (Restriction ["Chicken"; "Beef"; "Pork"; "Fish"; "Dairy"; "Eggs"]
                        ["Legumes"; "Nuts"; "Seeds"; "Plant-based proteins"])
           "Eggs" H1 H2).
  - reflexivity.
  - repeat constructor.
Defined.

Lemma estimate_calories_range (plan : nutrition_plan) :
  qc 1200 <= estimate_calories_from_plan plan
  ∧ estimate_calories_from_plan plan <= qc 3000.
Proof.
  unfold estimate_calories_from_plan. cbn zeta.
  destruct (0 <? _)%nat.
  - assert (qc 1200 <= qc 3000) as Hlh by (to_Q; lra).
    set (e := _ * qc 500).
    unfold py_min, py_max.
    destruct (ltb e (qc 1200)) eqn:E1; [apply ltb_true in E1 | apply ltb_false in E1];
      destruct (ltb (qc 3000) _) eqn:E2;
      [apply ltb_true in E2 | apply ltb_false in E2 | apply ltb_true in E2
       | apply ltb_false in E2].
    + exfalso. apply Qcle_not_lt in Hlh. exact (Hlh E2).
    + split; [apply Qcle_refl | exact Hlh].
    + split; [exact Hlh | apply Qcle_refl].
    + split; [exact E1 | exact E2].
  - split; to_Q; lra.
Qed.

Lemma create_meal_plans_days (user_data : profile)
    (nutrition_analysis : NutritionAnalyzer.analysis) :
  ∃ daily_plan : Dict.t (list string),
    Dict.keys daily_plan = ["breakfast"; "lunch"; "dinner"; "snacks"]
    ∧ Forall (λ meal, (1 <= length meal.2 <= 3)%nat) daily_plan
    ∧ create_meal_plans user_data nutrition_analysis
      = map (λ day, (day_key day, daily_plan)) (seq 1 7).
Proof.
  unfold create_meal_plans. cbn zeta.
  set (gaps := NutritionAnalyzer.nutritional_gaps _).
  set (prefs := default [] _). set (culture := default "Western" _).
  set (b := suggest_meal "breakfast" gaps prefs culture).
  set (l := suggest_meal "lunch" gaps prefs culture).
  set (d := suggest_meal "dinner" gaps prefs culture).
  set (s := suggest_meal "snacks" gaps prefs culture).
  exists [("breakfast", b); ("lunch", l); ("dinner", d); ("snacks", s)].
  split; [reflexivity|]. split.
  - repeat (apply Forall_cons; split; [apply suggest_meal_one_to_three|]).
    apply Forall_nil_2.
  - clearbody b l d s. vm_compute. reflexivity.
Qed.

(** X13. The weekly meal plan has the seven days Day_1 to Day_7 in
    order, every day the same four meals (breakfast, lunch, dinner,
    snacks) with one to three suggestions each. The calorie estimate that
    the progress projection derives from a meal plan always lies between
    1200 and 3000, and for a plan made by [create_meal_plans] it is
    exactly 2000, whatever the user and the analysis. *)
Theorem meal_plan_shape_and_estimate (user_data : profile)
    (nutrition_analysis : NutritionAnalyzer.analysis) :
  (∃ daily_plan : Dict.t (list string),
     Dict.keys daily_plan = ["breakfast"; "lunch"; "dinner"; "snacks"]
     ∧ Forall (λ meal, (1 <= length meal.2 <= 3)%nat) daily_plan
     ∧ create_meal_plans user_data nutrition_analysis
       = map (λ day, (day_key day, daily_plan)) (seq 1 7))
  ∧ (∀ plan, qc 1200 <= estimate_calories_from_plan plan
             ∧ estimate_calories_from_plan plan <= qc 3000)
  ∧ estimate_calories_from_plan
      (as_nutrition_plan (create_meal_plans user_data nutrition_analysis))
    = qc 2000.
Proof.
  split; [apply create_meal_plans_days|]. split; [apply estimate_calories_range|].
  destruct (create_meal_plans_days user_data nutrition_analysis)
    as (daily_plan & Hkeys & Hlen & ->).
  destruct daily_plan as [|[k1 m1] [|[k2 m2] [|[k3 m3] [|[k4 m4] [|? ?]]]]]; try done.
  apply Forall_cons in Hlen as [H1 Hlen]. apply Forall_cons in Hlen as [H2 Hlen].
  apply Forall_cons in Hlen as [H3 Hlen]. apply Forall_cons in Hlen as [H4 _].
  cbn [snd] in *.
  destruct m1; [cbn in H1; lia|]. destruct m2; [cbn in H2; lia|].
  destruct m3; [cbn in H3; lia|]. destruct m4; [cbn in H4; lia|].
  apply Qc_is_canon. vm_compute. reflexivity.
Qed.

(** The inner loop of [estimate_exercise_from_plan] over one day. *)
Lemma day_totals (exercises : list plan_exercise) (total_duration total_calories : Qc) :
  total_calories = total_duration * qc 5 ->
  let totals :=
    foldl (λ acc exercise,
      let duration := default (qc 30) (duration exercise) in
      (fst acc + duration, snd acc + duration * qc 5))
      (total_duration, total_calories) exercises in
  totals.2 = totals.1 * qc 5.
Proof.
  revert total_duration total_calories.
  induction exercises as [|e l IH]; intros d c Hc; cbn [foldl fst snd]; [done|].
  apply IH. rewrite Hc. ring.
Qed.

(** X14. The exercise features that the progress projection reads off an
    exercise plan: the frequency is the number of days that are a dict
    with a key 'exercises'; with no such day all three features are 0;
    otherwise the average of the burned calories is five times the total
    duration divided by the frequency. *)
Theorem exercise_estimate_consistent (plan : exercise_plan) :
  let '(total_duration, avg_calories_burned, frequency) :=
    estimate_exercise_from_plan plan in
  let days :=
    length (List.filter (λ item : string * option plan_day,
              match item.2 with Some (PlanDay _ (Some _)) => true | _ => false end)
              plan) in
  frequency = of_nat days
  ∧ (days = 0%nat -> total_duration = 0 ∧ avg_calories_burned = 0)
  ∧ ((0 < days)%nat -> avg_calories_burned = total_duration * qc 5 / of_nat days).
Proof.
  unfold estimate_exercise_from_plan.
  set (step := λ acc item, _).
  set (has_exercises := λ item : string * option plan_day,
         match item.2 with Some (PlanDay _ (Some _)) => true | _ => false end).
  assert (∀ l d c f, c = d * qc 5 ->
            ∃ d' c', foldl step (d, c, f) l
                     = (d', c', (f + length (List.filter has_exercises l))%nat)
                     ∧ c' = d' * qc 5
                     ∧ (length (List.filter has_exercises l) = 0%nat -> d' = d))
    as Hfold.
  { induction l as [|[k day] l IH]; intros d c f Hc.
    - exists d, c. cbn. rewrite Nat.add_0_r. done.
    - cbn [foldl List.filter].
      destruct day as [[t [exs|]]|];
        [change (has_exercises (k, Some (PlanDay t (Some exs)))) with true
        |change (has_exercises (k, Some (PlanDay t None))) with false
        |change (has_exercises (k, None)) with false]; cbv iota.
      + unfold step at 2. cbn [snd].
        pose proof (day_totals exs d c Hc) as Hday. cbn zeta in Hday.
        destruct (foldl _ (d, c) exs) as [d1 c1]. cbn [fst snd] in Hday.
        destruct (IH d1 c1 (S f) Hday) as (d' & c' & -> & Hc' & _).
        exists d', c'. cbn [length]. split; [f_equal; lia|]. split; [done|lia].
      + unfold step at 2. cbn [snd].
        destruct (IH d c f Hc) as (d' & c' & -> & Hc' & Hd). by exists d', c'.
      + unfold step at 2. cbn [snd].
        destruct (IH d c f Hc) as (d' & c' & -> & Hc' & Hd). by exists d', c'. }
  destruct (Hfold plan 0 0 0%nat) as (d' & c' & -> & Hc' & Hd).
  { apply Qc_is_canon. vm_compute. reflexivity. }
  cbn [Nat.add]. cbn zeta.
  set (days := length _) in *.
  split; [done|]. split.
  - intros E. rewrite E. cbn [Nat.ltb Nat.leb]. split; [by apply Hd | done].
  - intros Hpos. destruct days as [|n]; [lia|].
    change (0 <? S n)%nat with true. cbv iota.
    rewrite Nat.max_l by lia. by rewrite Hc'.
Qed.

Lemma exercise_estimate_consistent_witness :
  estimate_exercise_from_plan
    [("Monday", Some (PlanDay "Cardio"
                        (Some [PlanExercise "Running" (Some (qc 30)) "High";
                               PlanExercise "Yoga" None "Low"])));
     ("Tuesday", Some (PlanDay "Rest" None))]
  = (qc 60, qc 60 * qc 5 / of_nat 1, of_nat 1).
Proof.
  pose proof (exercise_estimate_consistent
    [("Monday", Some (PlanDay "Cardio"
                        (Some [PlanExercise "Running" (Some (qc 30)) "High";
                               PlanExercise "Yoga" None "Low"])));
     ("Tuesday", Some (PlanDay "Rest" None))]) as H.
  destruct (estimate_exercise_from_plan _) as [[d c] f] eqn:E.
  cbn in H. destruct H as (Hf & _ & Hc).
  rewrite Hf, (Hc ltac:(lia)).
  assert (d = qc 60) as ->; [|reflexivity].
  apply (f_equal (λ x, x.1.1)) in E. cbn [fst] in E. rewrite <- E.
  apply Qc_is_canon. vm_compute. reflexivity.
Defined.

End MealPlans.

(** ** Meal frequency and food variety *)

Section MealFrequency.
Import NutritionAnalyzer.
Implicit Types (df : frame).

Lemma of_nat_S (n : nat) : of_nat (S n) = 1 + of_nat n.
Proof.
  unfold of_nat. apply Qc_is_canon. rewrite this_plus, !this_of_Z.
  rewrite Nat2Z.inj_succ, <- Z.add_1_l, inject_Z_plus. reflexivity.
Qed.

Lemma meal_counts_cons (r : food_row) df (ds : list string) :
  NoDup ds ->
  total (map (λ d, of_nat (length (on_date d (r :: df)))) ds)
  = (if decide (date r ∈ ds) then 1 else 0)
    + total (map (λ d, of_nat (length (on_date d df))) ds).
Proof.
  induction 1 as [|d ds Hd Hnd IH].
  - cbn. rewrite decide_False by apply not_elem_of_nil. by rewrite Qcplus_0_l.
  - cbn [map]. change (total (?x :: ?l)) with (x + total l). rewrite IH.
    unfold on_date at 1. rewrite filter_cons. fold (on_date d df).
    destruct (decide (date r = d)) as [E|E].
    + subst d. rewrite (decide_True (P := date r ∈ date r :: ds)) by left.
      rewrite (decide_False (P := date r ∈ ds)) by done.
      cbn [length]. rewrite of_nat_S. ring.
    + destruct (decide (date r ∈ ds)) as [Hin|Hin].
      * rewrite (decide_True (P := date r ∈ d :: ds)) by (by right). ring.
      * rewrite (decide_False (P := date r ∈ d :: ds)).
        -- ring.
        -- intros H. apply elem_of_cons in H as [H|H]; [by apply E | by apply Hin].
Qed.

(** The per-date entry counts add up to the number of entries. *)
Lemma meal_counts_total df :
  total (map (λ d, of_nat (length (on_date d df))) (dates df)) = of_nat (length df).
Proof.
  induction df as [|r df IH]; [exact (eq_sym of_nat_0)|].
  unfold dates. cbn [map remove_dups]. fold (dates df). cbn [length]. rewrite of_nat_S.
  destruct (decide_rel elem_of (date r) (map date df)) as [Hin|Hin].
  - rewrite meal_counts_cons by apply NoDup_remove_dups.
    rewrite decide_True by (unfold dates; by apply elem_of_remove_dups).
    by rewrite IH.
  - cbn [map]. change (total (?x :: ?l)) with (x + total l).
    rewrite meal_counts_cons by apply NoDup_remove_dups.
    rewrite decide_False by (unfold dates; by rewrite elem_of_remove_dups).
    unfold on_date at 1. rewrite filter_cons, decide_True by done.
    fold (on_date (date r) df). rewrite (on_date_absent _ _ Hin).
    rewrite IH. cbn [length]. rewrite of_nat_S, of_nat_0. ring.
Qed.

Lemma avg_meals_per_day_ratio df :
  df ≠ [] ->
  avg_meals_per_day (analyze_eating_patterns df)
  = Some (of_nat (length df) / of_nat (length (dates df))).
Proof.
  intros Hne. unfold analyze_eating_patterns. cbn [avg_meals_per_day].
  unfold series_mean.
  rewrite (present_map_Some (λ d, of_nat (length (on_date d df)))).
  rewrite <- meal_counts_total.
  destruct (dates df) as [|d ds] eqn:E.
  - exfalso. destruct df as [|r df]; [done|].
    assert (date r ∈ dates (r :: df)) as Hin.
    { unfold dates. apply elem_of_remove_dups. cbn. left. }
    rewrite E in Hin. by apply elem_of_nil in Hin.
  - cbn [map length]. by rewrite length_map.
Qed.

Lemma labels_date df1 df2 :
  map Stated.labels df1 = map Stated.labels df2 -> map date df1 = map date df2.
Proof.
  intros H. apply (f_equal (map (λ l : string * string * string * option Qc, l.1.1.1))) in H.
  by rewrite !map_map in H.
Qed.

Lemma length_on_date d df :
  length (on_date d df) = length (filter (λ x, x = d) (map date df)).
Proof.
  unfold on_date. induction df as [|r df IH]; [done|].
  cbn [map]. rewrite !filter_cons.
  destruct (decide (date r = d)); cbn [length]; by rewrite IH.
Qed.

(** The eating patterns read the dates and the food items only, which
    imputation leaves alone. *)
Lemma analyze_eating_patterns_labels df1 df2 :
  map Stated.labels df1 = map Stated.labels df2 ->
  analyze_eating_patterns df1 = analyze_eating_patterns df2.
Proof.
  intros H. pose proof (labels_date _ _ H) as Hd.
  pose proof (labels_food_item _ _ H) as Hf.
  unfold analyze_eating_patterns, dates. rewrite Hd, Hf. f_equal. f_equal.
  apply map_ext. intros d. by rewrite !length_on_date, Hd.
Qed.

Lemma of_nat_lt_3 (a b : nat) : of_nat a < qc 3 * of_nat b ↔ (a < 3 * b)%nat.
Proof.
  unfold of_nat. unfold Qclt. rewrite this_mult, this_qc, !this_of_Z.
  unfold Qlt, Qmult, inject_Z. cbn. lia.
Qed.

(** X15. On a non-empty food log the meals per day are the number of
    entries divided by the number of distinct dates. The analysis advises
    "at least 3 balanced meals per day" exactly when the log has fewer
    than three entries per logged date, it advises more food variety
    exactly when the log names fewer than five distinct foods, and the
    lifestyle advice built on that analysis asks for regular meal times
    under the same condition as the first. *)
Theorem meal_frequency_thresholds df :
  df ≠ [] ->
  let nutrition := result analyze_food_logs df in
  let days := length (dates df) in
  avg_meals_per_day (eating_patterns nutrition)
  = Some (of_nat (length df) / of_nat days)
  ∧ (lit "Aim for at least 3 balanced meals per day for better nutrient distribution."
       ∈ recommendations nutrition
     ↔ (length df < 3 * days)%nat)
  ∧ (lit "Increase food variety to ensure diverse nutrient intake."
       ∈ recommendations nutrition
     ↔ (length (remove_dups (map food_item df)) < 5)%nat)
  ∧ (∀ ud activity,
       lit "Establish regular meal times with at least 3 meals per day"
         ∈ Recommendations.generate_lifestyle_recommendations ud nutrition activity
       ↔ (length df < 3 * days)%nat).
Proof.
  intros Hne nutrition days.
  assert (0 < days)%nat as Hpos.
  { subst days. destruct df as [|r df]; [done|].
    assert (date r ∈ dates (r :: df)) as Hin.
    { unfold dates. apply elem_of_remove_dups. left. }
    destruct (dates (r :: df)); [by apply elem_of_nil in Hin | cbn; lia]. }
  assert (eating_patterns nutrition = analyze_eating_patterns df) as Hpat.
  { subst nutrition. unfold result. rewrite analyze_food_logs_nonempty by exact Hne.
    cbn [fst eating_patterns]. apply analyze_eating_patterns_labels.
    apply handle_missing_values_spec. }
  assert (recommendations nutrition
          = generate_nutrition_recommendations (nutritional_gaps nutrition)
              (analyze_eating_patterns df)) as Hrec.
  { clear Hpat. subst nutrition. unfold result.
    rewrite analyze_food_logs_nonempty by exact Hne.
    cbn [fst recommendations nutritional_gaps]. f_equal.
    apply analyze_eating_patterns_labels. apply handle_missing_values_spec. }
  pose proof (avg_meals_per_day_ratio df Hne) as Havg. fold days in Havg.
  assert (nan_ltb (avg_meals_per_day (analyze_eating_patterns df)) (qc 3) = true
          ↔ (length df < 3 * days)%nat) as Hmeals.
  { rewrite Havg. cbn [nan_ltb]. rewrite ltb_true, div_lt_iff by exact Hpos.
    apply of_nat_lt_3. }
  split; [by rewrite Hpat|]. split; [|split].
  - rewrite Hrec. unfold generate_nutrition_recommendations. cbn zeta.
    rewrite !elem_of_app, elem_of_flat_map. split.
    + intros [(item & _ & Hin)|[Hin|Hin]].
      * destruct item as [k g]. repeat case_decide; try destruct (ltb _ _);
          apply list_elem_of_In in Hin; cbn in Hin; naive_solver.
      * destruct (nan_ltb _ _) eqn:E; [|by apply elem_of_nil in Hin].
        by apply Hmeals.
      * destruct (_ <? _)%nat; apply list_elem_of_In in Hin; cbn in Hin; naive_solver.
    + intros Hlt. right. left. rewrite (proj2 Hmeals Hlt). left.
  - rewrite Hrec. unfold generate_nutrition_recommendations. cbn zeta.
    rewrite !elem_of_app, elem_of_flat_map.
    unfold analyze_eating_patterns. cbn [common_foods avg_meals_per_day].
    set (foods := length (remove_dups (map food_item df))). split.
    + intros [(item & _ & Hin)|[Hin|Hin]].
      * destruct item as [k g]. repeat case_decide; try destruct (ltb _ _);
          apply list_elem_of_In in Hin; cbn in Hin; naive_solver.
      * destruct (nan_ltb _ _); apply list_elem_of_In in Hin; cbn in Hin; naive_solver.
      * destruct (_ <? _)%nat eqn:E; [|by apply elem_of_nil in Hin].
        apply Nat.ltb_lt in E. lia.
    + intros Hlt. right. right.
      rewrite (proj2 (Nat.ltb_lt _ _)) by lia. left.
  - intros ud activity.
    unfold Recommendations.generate_lifestyle_recommendations.
    rewrite Hpat, !elem_of_app. split.
    + intros [Hin|[Hin|[Hin|Hin]]].
      * apply list_elem_of_In in Hin; cbn in Hin; naive_solver.
      * destruct (nan_ltb _ _) eqn:E; [|by apply elem_of_nil in Hin].
        by apply Hmeals.
      * destruct (ltb _ _); apply list_elem_of_In in Hin; cbn in Hin; naive_solver.
      * apply list_elem_of_In in Hin; cbn in Hin; naive_solver.
    + intros Hlt. right. left. rewrite (proj2 Hmeals Hlt). left.
Qed.

Lemma meal_frequency_thresholds_witness :
  Samples.one_day_log ≠ []
  ∧ avg_meals_per_day (eating_patterns (result analyze_food_logs Samples.one_day_log))
    = Some (of_nat (length Samples.one_day_log)
            / of_nat (length (dates Samples.one_day_log))).
Proof.
  assert (Samples.one_day_log ≠ []) as Hne by done.
  split; [exact Hne|].
  exact (proj1 (meal_frequency_thresholds Samples.one_day_log Hne)).
Defined.

End MealFrequency.

(** ** The progress projection: failures and goal verdicts *)

Section Projection.
Import ProgressPredictor GoalAnalysis.

Lemma of_nat_nonneg (n : nat) : 0 <= of_nat n.
Proof.
  unfold of_nat, Qcle. rewrite this_of_Z.
  change (inject_Z 0 <= inject_Z (Z.of_nat n))%Q. rewrite <- Zle_Qle. lia.
Qed.

Lemma zero_height_fails (x h : Qc) :
  h = 0 -> py_div x ((h / qc 100) * (h / qc 100)) = None.
Proof.
  intros ->. unfold py_div. rewrite decide_True; [done|]. by apply Qc_is_canon.
Qed.

(** X16. [predict_progress] raises (a division by zero) exactly when the
    profile's height is 0 and at least one week is asked for, with a
    trained model as with an untrained one; asked for no week it returns
    the empty projection whatever the profile. *)
Theorem projection_fails_only_at_zero_height self ud np ep (n : nat) :
  (predict_progress self ud np ep n = None
   ↔ default (qc 170) (User.height ud) = 0 ∧ (1 <= n)%nat)
  ∧ predict_progress self ud np ep 0 = Some ∅.
Proof.
  split; [|unfold predict_progress; by destruct (is_trained self)].
  destruct (decide (default (qc 170) (User.height ud) = 0)) as [Hz|Hnz].
  - destruct n as [|n].
    + split; [|lia]. unfold predict_progress. by destruct (is_trained self).
    + split; [intros _; split; [exact Hz | lia]|]. intros _.
      unfold predict_progress, get_default_predictions.
      change (seq 1 (S n)) with (1 :: seq 2 n)%nat.
      destruct (is_trained self); cbn [negb run_weeks default_loop].
      * unfold week_step, prepare_prediction_features. cbn zeta.
        by rewrite (zero_height_fails _ _ Hz).
      * cbn zeta. by rewrite (zero_height_fails _ _ Hz).
  - split; [|by intros [Hz _]]. intros Hnone. exfalso.
    unfold predict_progress in Hnone. destruct (is_trained self); cbn [negb] in Hnone.
    + destruct (run_weeks_prefix self ud np ep n Hnz) as (st & Hr & _).
      by rewrite Hr in Hnone.
    + destruct (default_loop_prefix ud n Hnz) as (preds & Hr & _).
      unfold get_default_predictions in Hnone. by rewrite Hr in Hnone.
Qed.

Lemma projection_fails_only_at_zero_height_witness :
  predict_progress Samples.untrained Samples.zero_height_user [] [] 4 = None.
Proof.
  apply (proj1 (projection_fails_only_at_zero_height
                  Samples.untrained Samples.zero_height_user [] [] 4)).
  split; [reflexivity | lia].
Defined.

Lemma week_step_failing self ud np ep st w :
  (∀ f, predict self f = None) ->
  default (qc 170) (User.height ud) ≠ 0 ->
  week_step self ud np ep st w
  = Some (LoopState (current_weight st) (current_energy st)
            (<[week_key w := get_default_week_prediction (current_weight st) w]>
               (predictions st))).
Proof.
  intros Hfail Hh. unfold week_step.
  destruct (prepare_prediction_features_is_Some ud np ep
              (current_weight st) (current_energy st) Hh) as [f ->].
  cbn [mbind option_bind]. by rewrite Hfail.
Qed.

Lemma run_weeks_failing self ud np ep (l : list nat) st :
  (∀ f, predict self f = None) ->
  default (qc 170) (User.height ud) ≠ 0 ->
  ∃ st', run_weeks self ud np ep l st = Some st'
    ∧ ∀ w, predictions st' !! week_key w
           = if decide (w ∈ l)
             then Some (get_default_week_prediction (current_weight st) w)
             else predictions st !! week_key w.
Proof.
  intros Hfail Hh. revert st. induction l as [|w0 l IH]; intros st.
  - exists st. split; [done|]. intros w. rewrite decide_False; [done|].
    apply not_elem_of_nil.
  - cbn [run_weeks]. rewrite (week_step_failing _ _ _ _ _ _ Hfail Hh).
    cbn [mbind option_bind].
    destruct (IH (LoopState (current_weight st) (current_energy st)
                    (<[week_key w0 := get_default_week_prediction (current_weight st) w0]>
                       (predictions st)))) as (st' & -> & Hlook).
    exists st'. split; [done|]. intros w. rewrite Hlook. cbn [current_weight predictions].
    destruct (decide (w ∈ l)) as [Hin|Hin].
    + rewrite decide_True; [done | by right].
    + destruct (decide (w = w0)) as [->|Hne].
      * rewrite decide_True by left. by rewrite lookup_insert_eq.
      * rewrite decide_False.
        -- rewrite lookup_insert_ne; [done|]. intros E. by apply week_key_inj in E.
        -- intros H. apply elem_of_cons in H as [H|H]; [by apply Hne | by apply Hin].
Qed.

(** X17. With a trained model whose call fails every week, the
    projection is flat: every week shows the same entry, built from the
    starting weight (weight + 0.1 and weight / 1.7^2 to one decimal,
    energy 6.0, change 0.1); nothing accumulates from week to week. *)
Theorem failing_model_projection_is_flat self ud np ep (n : nat) :
  is_trained self = true ->
  (∀ f, predict self f = None) ->
  default (qc 170) (User.height ud) ≠ 0 ->
  let start := default (qc 70) (User.weight ud) in
  ∃ preds,
    predict_progress self ud np ep n = Some preds
    ∧ ∀ w, (1 <= w <= n)%nat ->
        preds !! week_key w
        = Some (Entry (round1 (start + qc 0.1)) (round1 (start / (qc 1.7 * qc 1.7)))
                  (qc 6.0) (qc 0.1)).
Proof.
  intros Ht Hfail Hh start. unfold predict_progress. rewrite Ht. cbn [negb].
  destruct (run_weeks_failing self ud np ep (seq 1 n) (initial_state ud) Hfail Hh)
    as (st' & -> & Hlook).
  exists (predictions st'). split; [done|]. intros w Hw. rewrite Hlook.
  rewrite decide_True; [done|]. apply elem_of_seq. lia.
Qed.

Lemma failing_model_projection_is_flat_witness :
  ∃ preds,
    predict_progress (Predictor true (λ _, None)) Samples.average_user [] [] 4
    = Some preds
    ∧ preds !! week_key 4
      = Some (Entry (round1 (qc 70 + qc 0.1)) (round1 (qc 70 / (qc 1.7 * qc 1.7)))
                (qc 6.0) (qc 0.1)).
Proof.
  assert (default (qc 170) (User.height Samples.average_user) ≠ 0) as Hh by done.
  destruct (failing_model_projection_is_flat (Predictor true (λ _, None))
              Samples.average_user [] [] 4 eq_refl (λ _, eq_refl) Hh)
    as (preds & Hp & Hw).
  exists preds. split; [exact Hp|]. apply Hw. lia.
Defined.

Lemma goal_step (preds : gmap string entry) (goals : list string) (goal : string) :
  analyze_goal_achievement preds (goals ++ [goal])
  = match goal_verdict preds goal with
    | Some v => Dict.set goal v (analyze_goal_achievement preds goals)
    | None => analyze_goal_achievement preds goals
    end.
Proof.
  unfold analyze_goal_achievement. rewrite foldl_app. cbn [foldl].
  unfold goal_verdict.
  repeat case_decide; try done;
    destruct (preds !! week_key (size preds)) as [e|]; cbn [mbind option_bind]; try done;
    repeat destruct (ltb _ _); done.
Qed.

(** The verdict stored under a goal is the one of that goal alone. *)
Lemma goal_lookup (preds : gmap string entry) (goals : list string) (g : string) :
  Dict.get g (analyze_goal_achievement preds goals)
  = if decide (g ∈ goals) then goal_verdict preds g else None.
Proof.
  induction goals as [|goal goals IH] using rev_ind.
  - rewrite decide_False; [done | apply not_elem_of_nil].
  - rewrite goal_step.
    destruct (decide (g = goal)) as [->|Hne].
    + rewrite (decide_True (P := goal ∈ goals ++ [goal]))
        by (apply elem_of_app; right; left).
      destruct (goal_verdict preds goal) as [v|] eqn:Ev.
      * by rewrite get_set_eq.
      * rewrite IH. by destruct (decide (goal ∈ goals)).
    + assert (Dict.get g (analyze_goal_achievement preds goals)
              = if decide (g ∈ goals ++ [goal]) then goal_verdict preds g else None)
        as Hsame.
      { rewrite IH. destruct (decide (g ∈ goals)) as [Hin|Hin].
        - rewrite decide_True; [done | apply elem_of_app; by left].
        - rewrite decide_False; [done|]. intros H.
          apply elem_of_app in H as [H|H]; [by apply Hin|].
          apply list_elem_of_singleton in H. by apply Hne. }
      destruct (goal_verdict preds goal) as [v|]; [|exact Hsame].
      by rewrite get_set_ne.
Qed.

(** X18. [analyze_goal_achievement] stores a verdict under a goal
    exactly when the goal is in the list and is, whatever its letter
    case, "muscle_gain", or "weight_loss" or "fitness_improvement" with
    the final week Week_{len(predictions)} present in the projection:
    other goals are skipped silently, and so are the weight and fitness
    goals when that key is missing, as in an empty projection. *)
Theorem goal_verdicts_need_final_week (preds : gmap string entry)
    (goals : list string) (g : string) :
  is_Some (Dict.get g (analyze_goal_achievement preds goals))
  ↔ g ∈ goals
    ∧ (lower g = "muscle_gain"
       ∨ ((lower g = "weight_loss" ∨ lower g = "fitness_improvement")
          ∧ is_Some (preds !! week_key (size preds)))).
Proof.
  rewrite goal_lookup. unfold goal_verdict.
  destruct (decide (g ∈ goals)) as [Hin|Hin].
  - repeat case_decide.
    + destruct (preds !! week_key (size preds)) as [e|]; cbn [mbind option_bind].
      * split; [intros _|by eexists]. split; [done|]. right. split; [by left | by eexists].
      * split; [by intros [? ?]|]. intros (_ & [E|(_ & [? ?])]); [congruence | done].
    + split; [intros _; split; [done | by left] | by eexists].
    + destruct (preds !! week_key (size preds)) as [e|]; cbn [mbind option_bind].
      * split; [intros _|by eexists]. split; [done|]. right. split; [by right | by eexists].
      * split; [by intros [? ?]|]. intros (_ & [E|(_ & [? ?])]); [congruence | done].
    + split; [by intros [? ?]|]. intros (_ & [E|([E|E] & _)]); congruence.
  - split; [by intros [? ?] | by intros [? _]].
Qed.

Lemma untrained_final_week ud (n : nat) :
  default (qc 170) (User.height ud) ≠ 0 ->
  (1 <= n)%nat ->
  ∃ preds e,
    get_default_predictions ud n = Some preds
    ∧ preds !! week_key (size preds) = Some e
    ∧ energy_level e = qc 6.0
    ∧ weight_change e = round1 (qc 0.2 * of_nat n).
Proof.
  intros Hh Hn.
  destruct (default_loop_prefix ud n Hh) as (preds & Hr & Hsz & _ & Hlin).
  exists preds, (Stated.linear_entry (default (qc 70) (User.weight ud))
                   (default (qc 170) (User.height ud)) n).
  split; [exact Hr|]. rewrite Hsz. split; [apply Hlin; lia|]. done.
Qed.

(** X19. With an untrained model, a profile whose height is not 0 and a
    projection of at least one week, the goal analysis of the projection
    never reports weight loss and always reports stable energy: a
    weight-loss goal gets "Not on track - no weight loss predicted" and
    a fitness-improvement goal gets "Moderate progress - stable energy
    levels", whatever the plans. *)
Theorem untrained_goal_verdicts self ud np ep (n : nat) (goals : list string)
    (goal : string) :
  is_trained self = false ->
  default (qc 170) (User.height ud) ≠ 0 ->
  (1 <= n)%nat ->
  goal ∈ goals ->
  ∃ preds,
    predict_progress self ud np ep n = Some preds
    ∧ (lower goal = "weight_loss" ->
         Dict.get goal (analyze_goal_achievement preds goals)
         = Some "Not on track - no weight loss predicted")
    ∧ (lower goal = "fitness_improvement" ->
         Dict.get goal (analyze_goal_achievement preds goals)
         = Some "Moderate progress - stable energy levels").
Proof.
  intros Ht Hh Hn Hin. unfold predict_progress. rewrite Ht. cbn [negb].
  destruct (untrained_final_week ud n Hh Hn) as (preds & e & -> & Hfinal & He & Hw).
  exists preds. split; [done|].
  rewrite goal_lookup, decide_True by exact Hin. unfold goal_verdict. split.
  - intros E. rewrite decide_True by exact E. rewrite Hfinal. cbn [mbind option_bind].
    assert (of_Z 0 <= weight_change e) as Hge.
    { rewrite Hw. apply round1_ge. apply qc_mul_nonneg.
      - to_Q. lra.
      - apply of_nat_nonneg. }
    rewrite (proj2 (ltb_false (weight_change e) (qc (-1)))).
    + rewrite (proj2 (ltb_false (weight_change e) 0)); [done|]. exact Hge.
    + eapply Qcle_trans; [|exact Hge]. to_Q. change (inject_Z 0) with 0%Q. lra.
  - intros E. rewrite decide_False by (rewrite E; done).
    rewrite decide_False by (rewrite E; done).
    rewrite decide_True by exact E. rewrite Hfinal. cbn [mbind option_bind]. rewrite He.
    rewrite (proj2 (ltb_false (qc 7) (qc 6.0))) by (to_Q; lra).
    by rewrite (proj2 (ltb_true (qc 5) (qc 6.0))) by (to_Q; lra).
Qed.

Lemma untrained_goal_verdicts_witness :
  ∃ preds,
    predict_progress Samples.untrained Samples.average_user [] [] 4 = Some preds
    ∧ Dict.get "Weight_Loss" (analyze_goal_achievement preds ["Weight_Loss"])
      = Some "Not on track - no weight loss predicted".
Proof.
  assert (default (qc 170) (User.height Samples.average_user) ≠ 0) as Hh by done.
  assert (1 <= 4)%nat as Hn by lia.
  assert ("Weight_Loss" ∈ ["Weight_Loss"]) as Hin by left.
  destruct (untrained_goal_verdicts Samples.untrained Samples.average_user [] [] 4
              ["Weight_Loss"] "Weight_Loss" eq_refl Hh Hn Hin)
    as (preds & Hp & Hwl & _).
  exists preds. split; [exact Hp|]. apply Hwl. reflexivity.
Defined.

End Projection.

(** ** Exercise suggestions for goals *)

Section ExerciseSuggestionFacts.
Import ActivityTracker ExerciseSuggestions.

Lemma suggestions_step (self : tracker) (goals : list string) (goal : string) :
  suggest_exercises_for_goals self (goals ++ [goal])
  = match Dict.get (lower goal) goal_mapping with
    | Some exercise_list =>
        Dict.set goal (exercise_details self exercise_list)
          (suggest_exercises_for_goals self goals)
    | None => suggest_exercises_for_goals self goals
    end.
Proof. unfold suggest_exercises_for_goals. by rewrite foldl_app. Qed.

(** The suggestions stored under a goal are those of that goal alone. *)
Lemma suggestions_lookup (self : tracker) (goals : list string) (g : string) :
  Dict.get g (suggest_exercises_for_goals self goals)
  = if decide (g ∈ goals)
    then exercise_details self <$> Dict.get (lower g) goal_mapping
    else None.
Proof.
  induction goals as [|goal goals IH] using rev_ind.
  - rewrite decide_False; [done | apply not_elem_of_nil].
  - rewrite suggestions_step.
    destruct (decide (g = goal)) as [->|Hne].
    + rewrite (decide_True (P := goal ∈ goals ++ [goal]))
        by (apply elem_of_app; right; left).
      destruct (Dict.get (lower goal) goal_mapping) as [l|] eqn:Ev.
      * by rewrite get_set_eq.
      * rewrite IH. by destruct (decide (goal ∈ goals)).
    + assert (Dict.get g (suggest_exercises_for_goals self goals)
              = if decide (g ∈ goals ++ [goal])
                then exercise_details self <$> Dict.get (lower g) goal_mapping
                else None) as Hsame.
      { rewrite IH. destruct (decide (g ∈ goals)) as [Hin|Hin].
        - rewrite decide_True; [done | apply elem_of_app; by left].
        - rewrite decide_False; [done|]. intros H.
          apply elem_of_app in H as [H|H]; [by apply Hin|].
          apply list_elem_of_singleton in H. by apply Hne. }
      destruct (Dict.get (lower goal) goal_mapping) as [l|]; [|exact Hsame].
      by rewrite get_set_ne.
Qed.

Lemma exercise_details_elem (self : tracker) (exercise_list : list string) (d : detail) :
  d ∈ exercise_details self exercise_list ->
  exercise d ∈ exercise_list
  ∧ ∃ row, head (exercise_info self (exercise d)) = Some row
      ∧ met_value d = Ref.met_value row
      ∧ category d = Ref.category row
      ∧ intensity d = Ref.intensity row.
Proof.
  unfold exercise_details. intros H.
  apply elem_of_flat_map in H as (x & Hx & Hd).
  destruct (exercise_info self x) as [|first rest] eqn:E; [by apply elem_of_nil in Hd|].
  apply list_elem_of_singleton in Hd as ->. cbn [exercise].
  split; [exact Hx|]. exists first. by rewrite E.
Qed.

Lemma head_last_short {A} (l : list A) : (length l <= 1)%nat -> last l = head l.
Proof. destruct l as [|x [|y l]]; cbn; [done | done | lia]. Qed.

(** X20. Every exercise suggested for a goal belongs to the list of that
    goal (looked up whatever the goal's letter case) and is taken from
    the reference table: its MET value, category and intensity are those
    of the first table row of that exercise type, and exercises of the
    list that the table does not have are left out. When no type is
    listed twice in the table, the suggested MET value is the one the
    calorie computation uses. *)
Theorem suggested_exercises_come_from_table (self : tracker) (goals : list string)
    (goal : string) (details : list detail) (d : detail) :
  Dict.get goal (suggest_exercises_for_goals self goals) = Some details ->
  d ∈ details ->
  goal ∈ goals
  ∧ (∃ exercise_list,
       Dict.get (lower goal) goal_mapping = Some exercise_list
       ∧ exercise d ∈ exercise_list)
  ∧ (∃ row,
       head (exercise_info self (exercise d)) = Some row
       ∧ row ∈ exercise_data self
       ∧ Ref.exercise_type row = exercise d
       ∧ met_value d = Ref.met_value row
       ∧ category d = Ref.category row
       ∧ intensity d = Ref.intensity row)
  ∧ (NoDup (map Ref.exercise_type (exercise_data self)) ->
       load_met_values self !! exercise d = Some (met_value d)).
Proof.
  rewrite suggestions_lookup. intros Hget Hd.
  destruct (decide (goal ∈ goals)) as [Hin|Hin]; [|done].
  destruct (Dict.get (lower goal) goal_mapping) as [exercise_list|] eqn:Em; [|done].
  injection Hget as <-.
  apply exercise_details_elem in Hd as (Hex & row & Hhead & Hmet & Hcat & Hint).
  assert (row ∈ exercise_info self (exercise d)) as Hrow.
  { destruct (exercise_info self (exercise d)); [done|]. injection Hhead as ->. left. }
  unfold exercise_info in Hrow. apply list_elem_of_filter in Hrow as [Htype Hdata].
  split; [exact Hin|]. split; [by exists exercise_list|]. split.
  - exists row. done.
  - intros Hnd. rewrite met_lookup_last.
    fold (exercise_info self (exercise d)).
    rewrite head_last_short, Hhead; [by rewrite Hmet|].
    by apply filter_type_short.
Qed.

Lemma suggested_exercises_come_from_table_witness :
  load_met_values Samples.sample_tracker !! "Yoga" = Some (qc 2.5).
Proof.
  assert (NoDup (map Ref.exercise_type (exercise_data Samples.sample_tracker))) as Hnd.
  { apply (bool_decide_unpack _). vm_compute. exact I. }
  assert (Dict.get "Flexibility"
            (suggest_exercises_for_goals Samples.sample_tracker ["Flexibility"])
          = Some [Detail "Yoga" (qc 2.5) "Flexibility" "Low";
                  Detail "Pilates" (qc 3.0) "Flexibility" "Low";
                  Detail "Stretching" (qc 2.3) "Flexibility" "Low"]) as Hget.
  { reflexivity. }
  assert (Detail "Yoga" (qc 2.5) "Flexibility" "Low"
          ∈ [Detail "Yoga" (qc 2.5) "Flexibility" "Low";
             Detail "Pilates" (qc 3.0) "Flexibility" "Low";
             Detail "Stretching" (qc 2.3) "Flexibility" "Low"]) as Hd by left.
  destruct (suggested_exercises_come_from_table _ _ _ _ _ Hget Hd) as (_ & _ & _ & H).
  exact (H Hnd).
Defined.

End ExerciseSuggestionFacts.

(** ** Caloric needs and goal tables *)

Section NeedsAndGoals.
Import RecommendationEngine Recommendations.

(** [round] never reverses an order. *)
Lemma py_round_mono (x y : Qc) : x <= y -> (py_round x <= py_round y)%Z.
Proof.
  intros Hle. destruct (Qc_eq_dec x y) as [->|Hne]; [lia|].
  assert (x < y) as Hlt by (by apply Qcle_lt_or_eq in Hle as [Hlt|Heq]).
  destruct (py_round_near x) as [_ Hx]. destruct (py_round_near y) as [Hy _].
  assert (of_Z (py_round x) < of_Z (py_round y + 1)) as H.
  { to_Q. rewrite inject_Z_plus. change (inject_Z 1) with 1%Q.
    generalize dependent (inject_Z (py_round x)).
    generalize dependent (inject_Z (py_round y)). intros. lra. }
  unfold Qclt in H. rewrite !this_of_Z in H. rewrite <- Zlt_Qlt in H. lia.
Qed.

(** X21. The caloric need never decreases with the weight or the height
    and never increases with the age: of two profiles of the same gender
    and activity level, the one that is at least as heavy, at least as
    tall and at most as old needs at least as many calories. *)
Theorem caloric_needs_monotone (ud1 ud2 : user_data) :
  User.gender ud1 = User.gender ud2 ->
  User.activity_level ud1 = User.activity_level ud2 ->
  default (qc 70) (User.weight ud1) <= default (qc 70) (User.weight ud2) ->
  default (qc 170) (User.height ud1) <= default (qc 170) (User.height ud2) ->
  default (qc 30) (User.age ud2) <= default (qc 30) (User.age ud1) ->
  (calculate_caloric_needs ud1 <= calculate_caloric_needs ud2)%Z.
Proof.
  intros Hg Hl Hw Hh Ha. unfold calculate_caloric_needs. cbn zeta.
  rewrite Hg, Hl.
  set (w1 := default (qc 70) (User.weight ud1)) in *.
  set (w2 := default (qc 70) (User.weight ud2)) in *.
  set (h1 := default (qc 170) (User.height ud1)) in *.
  set (h2 := default (qc 170) (User.height ud2)) in *.
  set (a1 := default (qc 30) (User.age ud1)) in *.
  set (a2 := default (qc 30) (User.age ud2)) in *.
  clearbody w1 w2 h1 h2 a1 a2.
  apply py_round_mono.
  rewrite multiplier_lookup. unfold Stated.activity_multiplier.
  repeat case_decide; to_Q; nra.
Qed.

Lemma caloric_needs_monotone_witness :
  (calculate_caloric_needs Samples.average_user
   <= calculate_caloric_needs
        (User.UserData (Some (qc 25)) (Some (qc 80)) (Some (qc 170))
           (Some "Male") (Some "Moderate")))%Z.
Proof.
  apply caloric_needs_monotone; [reflexivity | reflexivity | | |];
    unfold Qcle; vm_compute; discriminate.
Defined.

Lemma lower_ascii_idem (c : ascii) : lower_ascii (lower_ascii c) = lower_ascii c.
Proof. destruct c as [[] [] [] [] [] [] [] []]; reflexivity. Qed.

Lemma lower_idem (s : string) : lower (lower s) = lower s.
Proof. induction s as [|c s IH]; [done|]. cbn. by rewrite lower_ascii_idem, IH. Qed.

(** X22. The two goal tables are read whatever the letter case of the
    goal, and give either three recommendations or none: the nutrition
    table answers exactly the goals weight_loss, muscle_gain,
    heart_health, diabetes_management and energy_boost, the exercise
    table exactly weight_loss, muscle_gain, heart_health, flexibility
    and stress_relief; any other goal gets the empty list. *)
Theorem goal_tables_by_lowercase_name (goal : string) :
  get_nutrition_recommendations_for_goal (lower goal)
  = get_nutrition_recommendations_for_goal goal
  ∧ get_exercise_recommendations_for_goal (lower goal)
    = get_exercise_recommendations_for_goal goal
  ∧ (if decide (lower goal ∈ ["weight_loss"; "muscle_gain"; "heart_health";
                              "diabetes_management"; "energy_boost"])
     then length (get_nutrition_recommendations_for_goal goal) = 3%nat
     else get_nutrition_recommendations_for_goal goal = [])
  ∧ (if decide (lower goal ∈ ["weight_loss"; "muscle_gain"; "heart_health";
                              "flexibility"; "stress_relief"])
     then length (get_exercise_recommendations_for_goal goal) = 3%nat
     else get_exercise_recommendations_for_goal goal = []).
Proof.
  unfold get_nutrition_recommendations_for_goal, get_exercise_recommendations_for_goal.
  rewrite lower_idem. split; [done|]. split; [done|].
  unfold goal_nutrition, goal_exercise. cbn [Dict.get].
  split.
  - case_decide as Hin.
    + repeat (apply elem_of_cons in Hin as [->|Hin]; [reflexivity|]).
      by apply elem_of_nil in Hin.
    + repeat (case_decide as E;
        [exfalso; apply Hin; rewrite E; solve [repeat constructor] | clear E]).
      reflexivity.
  - case_decide as Hin.
    + repeat (apply elem_of_cons in Hin as [->|Hin]; [reflexivity|]).
      by apply elem_of_nil in Hin.
    + repeat (case_decide as E;
        [exfalso; apply Hin; rewrite E; solve [repeat constructor] | clear E]).
      reflexivity.
Qed.

End NeedsAndGoals.
